(** * JEPCO grid-stability pipeline: forecasting, risk scoring, mitigation
      planning and plan narration

    A shallow embedding of the analytics services of the repository
    (apps/forecasting, apps/risk, apps/planning, apps/llm) together with the
    properties the specification states about them.

    Conventions of the embedding.
    - Python [float] and [Decimal] values are exact rationals ([Q]); equality
      of numbers is [Qeq] ([==]).  [round(x, n)] is rounding to [n] decimals,
      ties to even.  The code computes with binary floats: the last binary
      digit of a sum or product is not modelled, and a value that lies
      exactly between two decimals here may be rounded to the other
      neighbor there.
    - The content of a JSON column is a JSON value where the code formats or
      validates it, and is typed as the code writes it elsewhere.
    - A raised exception is the [Raise] branch of [Result]; the three
      [ValueError]s of the simulator are told apart by their messages, as in
      the source.
    - A Django table is a list of rows held by [DB.t]; a query is a filter of
      that list.  The wall clock ([timezone.now()]) is part of [DB.t]. *)

From Stdlib Require Import QArith Qround Qminmax Qabs Lqa ZArith List String Ascii
  Bool Lia Permutation Sorted DecimalString.
Import ListNotations.
Open Scope Q_scope.

(* ================================================================= *)
(** ** Python values: exceptions, numbers, formatting *)

Module Py.

Inductive exn : Type :=
| ValueError (msg : string)
| TypeError (msg : string)
| ZeroDivisionError (msg : string)
| Exception (msg : string).

(** [str(e)] *)
Definition str (e : exn) : string :=
  match e with
  | ValueError m | TypeError m | ZeroDivisionError m | Exception m => m
  end.

Inductive Result (A : Type) : Type :=
| Ok (a : A)
| Raise (e : exn).
Arguments Ok {A} a.
Arguments Raise {A} e.

Definition bind {A B} (r : Result A) (k : A -> Result B) : Result B :=
  match r with
  | Ok a => k a
  | Raise e => Raise e
  end.

(** [x if x is not None else d], the reading of [dict.get(key, d)] on a
    key that may be absent. *)
Definition get {A} (field : option A) (d : A) : A :=
  match field with
  | Some a => a
  | None => d
  end.

Definition Qlt_bool (a b : Q) : bool := negb (Qle_bool b a).

(** [x / y] on floats. *)
Definition div (x y : Q) : Result Q :=
  if Qeq_bool y 0 then Raise (ZeroDivisionError "float division by zero")
  else Ok (x / y).

Definition min4 (a b c d : Q) : Q := Qmin (Qmin (Qmin a b) c) d.

Definition pow10 (n : nat) : Z := (10 ^ Z.of_nat n)%Z.

(** Nearest integer, ties to the even one. *)
Definition round_half_even (x : Q) : Z :=
  let f := Qfloor x in
  match Qcompare (x - inject_Z f) (1 # 2) with
  | Lt => f
  | Gt => (f + 1)%Z
  | Eq => if Z.even f then f else (f + 1)%Z
  end.

(** [round(x, n)] *)
Definition round (x : Q) (n : nat) : Q :=
  inject_Z (round_half_even (x * inject_Z (pow10 n))) / inject_Z (pow10 n).

Definition sum (l : list Q) : Q := fold_right Qplus 0 l.

Definition len {A} (l : list A) : Q := inject_Z (Z.of_nat (List.length l)).

(** [np.mean] of a non-empty list. *)
Definition mean (l : list Q) : Q := sum l / len l.

(** The one-character string U+00B1 (plus-minus sign). *)
Definition plus_minus : string := String (Ascii.ascii_of_nat 177) EmptyString.

Definition string_of_nat (n : nat) : string :=
  NilZero.string_of_uint (Nat.to_uint n).

Fixpoint zeros (n : nat) : string :=
  match n with
  | O => EmptyString
  | S k => String "0" (zeros k)
  end.

(** [format(x, '.<n>f')]: sign, integer part, and [n] zero-padded decimals
    of the value rounded to [n] decimals. *)
Definition format_f (n : nat) (x : Q) : string :=
  let scaled := round_half_even (Qabs x * inject_Z (pow10 n)) in
  let ip := Z.to_nat (scaled / pow10 n) in
  let fp := string_of_nat (Z.to_nat (scaled mod pow10 n)) in
  let sign := if Qlt_bool x 0 then "-"%string else EmptyString in
  let frac :=
    match n with
    | O => EmptyString
    | S _ => String "." (zeros (n - String.length fp) ++ fp)
    end in
  (sign ++ string_of_nat ip ++ frac)%string.

(** [str(n)] of an int. *)
Definition string_of_Z (n : Z) : string := NilZero.string_of_int (Z.to_int n).

(** The text made of the given lines, a line feed between two of them. *)
Definition lines (l : list string) : string :=
  String.concat (String (Ascii.ascii_of_nat 10) EmptyString) l.

End Py.

Declare Scope py_scope.
Notation "x <- c ;; k" := (Py.bind c (fun x => k))
  (at level 61, c at next level, right associativity) : py_scope.
Open Scope py_scope.

(* ================================================================= *)
(** ** Time *)

(** A datetime is a number of minutes counted from a Monday, 00:00. *)
Definition datetime := Z.
Bind Scope Z_scope with datetime.

Module Time.
Definition hours (k : Z) : Z := (60 * k)%Z.
Definition days (k : Z) : Z := (1440 * k)%Z.
(** [t.hour] *)
Definition hour (t : datetime) : Z := ((t / 60) mod 24)%Z.
(** [t.weekday()], 0 = Monday, 6 = Sunday *)
Definition weekday (t : datetime) : Z := ((t / 1440) mod 7)%Z.
End Time.

(* ================================================================= *)
(** ** apps/assets/models.py *)

Module Transformer.
Record t : Type := {
  id : Z;
  name : string;
  rated_kva : Q;
  max_load_pct : Z;
  cooling_type : string;
  install_year : Z;
  is_active : bool
}.

(** Property [rated_kw]: kVA to kW at 0.9 power factor. *)
Definition rated_kw (self : t) : Q := rated_kva self * 0.9.
End Transformer.

Module Switch.
Record t : Type := {
  id : Z;
  name : string
}.
End Switch.

Module TopologyLink.
Record t : Type := {
  from_transformer : Z;
  to_transformer : Transformer.t;
  max_transfer_kw : Q;
  switch : option Switch.t;
  is_active : bool
}.
End TopologyLink.

(* ================================================================= *)
(** ** apps/telemetry: readings *)

Module TransformerLoad.
(** Modelled from the spec: the telemetry model file is not part of the
    sources; a reading is {unit_id, timestamp, load_kw, load_pct, temp_c?}
    as the specification's data model gives it and as the services use
    it. *)
Record t : Type := {
  transformer : Z;
  timestamp : datetime;
  load_kw : Q;
  load_pct : Q;
  temp_c : option Q
}.

(** The same reading with another content of its temperature field. *)
Definition with_temp_c (self : t) (temp : option Q) : t :=
  {| transformer := transformer self;
     timestamp := timestamp self;
     load_kw := load_kw self;
     load_pct := load_pct self;
     temp_c := temp |}.
End TransformerLoad.

(* ================================================================= *)
(** ** apps/forecasting/models.py *)

Module Prediction.
(** One entry of [LoadForecast.predictions]. *)
Record t : Type := {
  timestamp : datetime;
  predicted_kw : Q;
  predicted_pct : Q;
  confidence : Q
}.
End Prediction.

Module LoadForecast.
Record t : Type := {
  transformer : Z;
  forecast_generated_at : datetime;
  forecast_horizon_hours : nat;
  predictions : list Prediction.t;
  peak_predicted_kw : Q;
  peak_predicted_pct : Q;
  peak_time : datetime
}.
End LoadForecast.

(* ================================================================= *)
(** ** apps/risk/models.py *)

Module RiskComponents.
(** The dict stored in [risk_components]. *)
Record t : Type := {
  overload : Q;
  thermal : Q;
  cascading : Q
}.
End RiskComponents.

Module RiskAssessment.
Record t : Type := {
  transformer : Transformer.t;
  forecast : LoadForecast.t;
  time_window_start : datetime;
  time_window_end : datetime;
  risk_score : Q;
  overload_pct : Q;
  confidence : Q;
  risk_components : RiskComponents.t;
  (** [None] is Python's [None]; a fresh instance holds the empty string. *)
  risk_level : option string
}.

Definition with_risk_level (self : t) (level : string) : t :=
  {| transformer := transformer self;
     forecast := forecast self;
     time_window_start := time_window_start self;
     time_window_end := time_window_end self;
     risk_score := risk_score self;
     overload_pct := overload_pct self;
     confidence := confidence self;
     risk_components := risk_components self;
     risk_level := Some level |}.

(** [self.risk_level is None or self.risk_level == ''] *)
Definition level_unset (self : t) : bool :=
  match risk_level self with
  | None => true
  | Some s => String.eqb s ""
  end.

(** [save]: fills in [risk_level] from [risk_score] when it is unset; the
    result is the instance as it is written. *)
Definition save (self : t) : t :=
  if level_unset self then
    let score := risk_score self in
    if Py.Qlt_bool score 0.3 then with_risk_level self "LOW"
    else if Py.Qlt_bool score 0.7 then with_risk_level self "MEDIUM"
    else with_risk_level self "HIGH"
  else self.

(** Property [is_high_risk]: [self.risk_level == 'HIGH']. *)
Definition is_high_risk (self : t) : bool :=
  match risk_level self with
  | Some level => String.eqb level "HIGH"
  | None => false
  end.

(** Property [requires_action]:
    [float(self.risk_score) >= 0.7 or float(self.overload_pct) > 100.0]. *)
Definition requires_action (self : t) : bool :=
  Qle_bool 0.7 (risk_score self) || Py.Qlt_bool 100.0 (overload_pct self).
End RiskAssessment.

(* ================================================================= *)
(** ** JSON values (the content of a [JSONField], the output of
     [json.loads]) *)

Module Json.
#[warnings="-register-all"] Inductive t : Type :=
| Null
| Bool (b : bool)
| Num (q : Q)
| Str (s : string)
| List (items : list t)
| Obj (members : list (string * t)).

(** [key in output] and [output[key]] on a dict. *)
Fixpoint lookup (members : list (string * t)) (key : string) : option t :=
  match members with
  | [] => None
  | (k, v) :: rest => if String.eqb k key then Some v else lookup rest key
  end.

Definition strs (l : list string) : list t := map Str l.

(** [format(v, '.<n>f')] of a value read from a JSON dict, as an f-string
    field [{v:.<n>f}] does it: an int, a float or a bool is formatted as a
    number; [None], a string, a list and a dict have no such format. *)
Definition format_f (n : nat) (v : t) : Py.Result string :=
  match v with
  | Num q => Py.Ok (Py.format_f n q)
  | Bool b => Py.Ok (Py.format_f n (if b then 1 else 0))
  | Null =>
      Py.Raise (Py.TypeError "unsupported format string passed to NoneType.__format__")
  | Str _ =>
      Py.Raise (Py.ValueError "Unknown format code 'f' for object of type 'str'")
  | List _ =>
      Py.Raise (Py.TypeError "unsupported format string passed to list.__format__")
  | Obj _ =>
      Py.Raise (Py.TypeError "unsupported format string passed to dict.__format__")
  end.
End Json.

(* ================================================================= *)
(** ** apps/planning/models.py *)

Module PlanData.
(** The dict held in [MitigationPlan.plan_json]; a key that is absent is
    [None].  The six values that the narrator formats as numbers
    ([transfer_kw], [risk_before], [risk_after], [risk_reduction],
    [load_before_pct], [load_after_pct]) are JSON values, as the column
    holds them: the simulator writes numbers there, and a plan read back
    from the table may hold anything.  The other values are typed as the
    simulator writes them; the narrator only interpolates the names, which
    raises for no value. *)
Record t : Type := {
  from_transformer : option Z;
  from_transformer_name : option string;
  to_transformer : option Z;
  to_transformer_name : option string;
  transfer_kw : option Json.t;
  switch_id : option Z;
  switch_name : option string;
  link_capacity_kw : option Q;
  risk_before : option Json.t;
  risk_after : option Json.t;
  risk_reduction : option Json.t;
  expected_operations : option Z;
  load_before_pct : option Json.t;
  load_after_pct : option Json.t
}.

(** The empty dict [{}]. *)
Definition empty : t :=
  {| from_transformer := None; from_transformer_name := None;
     to_transformer := None; to_transformer_name := None;
     transfer_kw := None; switch_id := None; switch_name := None;
     link_capacity_kw := None; risk_before := None; risk_after := None;
     risk_reduction := None; expected_operations := None;
     load_before_pct := None; load_after_pct := None |}.
End PlanData.

Module MitigationPlan.
Record t : Type := {
  assessment : RiskAssessment.t;
  plan_json : PlanData.t;
  expected_risk_after : Q;
  expected_load_reduction_kw : Q;
  executive_summary : string;
  operator_steps : list Json.t;
  field_checklist : list Json.t;
  rollback_steps : list Json.t;
  assumptions : list Json.t;
  llm_confidence : Q
}.
End MitigationPlan.

(* ================================================================= *)
(** ** The stored state the services read *)

Module DB.
Record t : Type := {
  transformers : list Transformer.t;
  topology_links : list TopologyLink.t;
  transformer_loads : list TransformerLoad.t;
  load_forecasts : list LoadForecast.t;
  risk_assessments : list RiskAssessment.t;
  (** [timezone.now()] *)
  now : datetime;
  (** [timezone.now().year] *)
  year : Z
}.

(** [forecast.save()]: a new row of the forecast table. *)
Definition save_forecast (db : t) (f : LoadForecast.t) : t :=
  {| transformers := transformers db;
     topology_links := topology_links db;
     transformer_loads := transformer_loads db;
     load_forecasts := load_forecasts db ++ [f];
     risk_assessments := risk_assessments db;
     now := now db;
     year := year db |}.

(** [assessment.save()]: a new row of the assessment table. *)
Definition save_assessment (db : t) (a : RiskAssessment.t) : t :=
  {| transformers := transformers db;
     topology_links := topology_links db;
     transformer_loads := transformer_loads db;
     load_forecasts := load_forecasts db;
     risk_assessments := risk_assessments db ++ [a];
     now := now db;
     year := year db |}.

(** [Transformer.objects.filter(is_active=True)] *)
Definition active_transformers (db : t) : list Transformer.t :=
  filter Transformer.is_active (transformers db).

(** Two states with the same links, readings, forecasts and year: they may
    differ in the assessments saved so far. *)
Definition same_inputs (db0 db : t) : Prop :=
  topology_links db = topology_links db0
  /\ transformer_loads db = transformer_loads db0
  /\ load_forecasts db = load_forecasts db0
  /\ year db = year db0.

(** [qs.order_by('-key').first()] *)
Definition latest {A} (key : A -> Z) (rows : list A) : option A :=
  fold_left
    (fun best r =>
       match best with
       | None => Some r
       | Some b => if (key b <? key r)%Z then Some r else Some b
       end)
    rows None.

(** [TopologyLink.objects.filter(from_transformer=tr, is_active=True)],
    in the stored order of the links. *)
Definition outgoing_links (db : t) (tr : Transformer.t) : list TopologyLink.t :=
  filter
    (fun l => (TopologyLink.from_transformer l =? Transformer.id tr)%Z
              && TopologyLink.is_active l)
    (topology_links db).

(** [TransformerLoad.objects.filter(transformer=tr)] *)
Definition loads_of (db : t) (tr : Transformer.t) : list TransformerLoad.t :=
  filter (fun r => (TransformerLoad.transformer r =? Transformer.id tr)%Z)
         (transformer_loads db).

(** [... .order_by('-timestamp').first()] *)
Definition latest_load (db : t) (tr : Transformer.t) : option TransformerLoad.t :=
  latest TransformerLoad.timestamp (loads_of db tr).

(** [... .filter(transformer=tr, temp_c__isnull=False)
        .order_by('-timestamp').first()] *)
Definition latest_temp_reading (db : t) (tr : Transformer.t)
  : option TransformerLoad.t :=
  latest TransformerLoad.timestamp
    (filter (fun r => match TransformerLoad.temp_c r with
                      | Some _ => true
                      | None => false
                      end)
            (loads_of db tr)).

(** [LoadForecast.objects.filter(transformer=tr)
        .order_by('-forecast_generated_at').first()] *)
Definition latest_forecast (db : t) (tr : Transformer.t) : option LoadForecast.t :=
  latest LoadForecast.forecast_generated_at
    (filter (fun f => (LoadForecast.transformer f =? Transformer.id tr)%Z)
            (load_forecasts db)).
End DB.

(** [range(n)] *)
Definition range (n : nat) : list Z := map Z.of_nat (seq 0 n).

(* ================================================================= *)
(** ** apps/forecasting/services/predictor.py : LoadForecaster *)

Module LoadForecaster.
Section WithNumpy.

(** The square root behind [np.std]. *)
Variable np_sqrt : Q -> Q.

Record t : Type := { lookback_days : Z }.

Definition default : t := {| lookback_days := 7 |}.

(** [np.std]: population standard deviation. *)
Definition np_std (l : list Q) : Q :=
  let m := Py.mean l in
  np_sqrt (Py.mean (map (fun x => (x - m) * (x - m)) l)).

(** [TransformerLoad.objects.filter(transformer=tr,
      timestamp__gte=cutoff_time)]; the forecaster only averages and counts
    its rows, so their order is immaterial. *)
Definition historical_data (self : t) (db : DB.t) (tr : Transformer.t)
  : list TransformerLoad.t :=
  let cutoff_time := (DB.now db - Time.days (lookback_days self))%Z in
  filter (fun r => (cutoff_time <=? TransformerLoad.timestamp r)%Z)
         (DB.loads_of db tr).

(** Loads of the readings taken at a given hour of day. *)
Definition hour_loads (hour : Z) (historical_data : list TransformerLoad.t)
  : list Q :=
  map TransformerLoad.load_kw
      (filter (fun r => (Time.hour (TransformerLoad.timestamp r) =? hour)%Z)
              historical_data).

(** The dict {hour: average_kw} for hours 0..23. *)
Definition _calculate_hourly_patterns (historical_data : list TransformerLoad.t)
  : list (Z * Q) :=
  map (fun hour =>
         let hour_data := hour_loads hour historical_data in
         match hour_data with
         | _ :: _ => (hour, Py.mean hour_data)
         | [] =>
             let all_loads := map TransformerLoad.load_kw historical_data in
             (hour, match all_loads with
                    | _ :: _ => Py.mean all_loads
                    | [] => 0
                    end)
         end)
      (range 24).

(** [d.get(k, default)] on the pattern dict. *)
Fixpoint dict_get (d : list (Z * Q)) (k : Z) (default : Q) : Q :=
  match d with
  | [] => default
  | (k', v) :: rest => if (k' =? k)%Z then v else dict_get rest k default
  end.

Definition between (lo x hi : Z) : bool := ((lo <=? x) && (x <=? hi))%Z.

(** [temps = [r.temp_c for r in historical_data if r.temp_c]]: a reading
    without temperature, or with temperature 0, is left out. *)
Definition temps (historical_data : list TransformerLoad.t) : list Q :=
  flat_map (fun r => match TransformerLoad.temp_c r with
                     | Some c => if Qeq_bool c 0 then [] else [c]
                     | None => []
                     end)
           historical_data.

Definition _estimate_temperature_factor (target_time : datetime)
           (historical_data : list TransformerLoad.t) : Q :=
  let hour := Time.hour target_time in
  match temps historical_data with
  | [] =>
      if between 12 hour 18 then 1.10
      else if between 6 hour 11 || between 19 hour 22 then 1.0
      else 0.95
  | ts =>
      let avg_temp := Py.mean ts in
      let estimated_temp :=
        if between 12 hour 16 then avg_temp + 3
        else if between 17 hour 20 then avg_temp + 1
        else if between 0 hour 6 then avg_temp - 3
        else avg_temp in
      if Py.Qlt_bool 25 estimated_temp
      then 1.0 + (estimated_temp - 25) * 0.01
      else 1.0
  end.

Definition _calculate_confidence (hour_of_day : Z)
           (historical_data : list TransformerLoad.t) : Q :=
  let loads := hour_loads hour_of_day historical_data in
  if (List.length loads <? 3)%nat then 0.60
  else
    let mean_load := Py.mean loads in
    let std_load := np_std loads in
    if Qeq_bool mean_load 0 then 0.70
    else
      let cv := std_load / mean_load in
      let confidence := Qmax 0.70 (Qmin 0.95 (1.0 - cv)) in
      let sample_size_factor := Qmin 1.0 (Py.len loads / 7) in
      confidence * sample_size_factor.

Definition is_weekend (day_of_week : Z) : bool :=
  ((day_of_week =? 5) || (day_of_week =? 6))%Z.

(** The loop variable [predicted_kw] after the day-of-week and temperature
    adjustments, before it is rounded into the prediction entry. *)
Definition predicted_kw_at (tr : Transformer.t)
           (historical_data : list TransformerLoad.t)
           (target_time : datetime) : Q :=
  let hourly_patterns := _calculate_hourly_patterns historical_data in
  let hour_of_day := Time.hour target_time in
  let day_of_week := Time.weekday target_time in
  let predicted_kw :=
    dict_get hourly_patterns hour_of_day (Transformer.rated_kw tr * 0.7) in
  let predicted_kw :=
    if is_weekend day_of_week then predicted_kw * 0.85 else predicted_kw in
  let temp_factor := _estimate_temperature_factor target_time historical_data in
  predicted_kw * temp_factor.

(** [predicted_pct]; for [rated_kw = 0] numpy yields inf or nan, a case
    the rationals do not cover. *)
Definition predicted_pct_at (tr : Transformer.t)
           (historical_data : list TransformerLoad.t)
           (target_time : datetime) : Q :=
  (predicted_kw_at tr historical_data target_time / Transformer.rated_kw tr) * 100.

(** The entry appended to [predictions] for one target time. *)
Definition prediction_at (tr : Transformer.t)
           (historical_data : list TransformerLoad.t)
           (target_time : datetime) : Prediction.t :=
  {| Prediction.timestamp := target_time;
     Prediction.predicted_kw :=
       Py.round (predicted_kw_at tr historical_data target_time) 2;
     Prediction.predicted_pct :=
       Py.round (predicted_pct_at tr historical_data target_time) 2;
     Prediction.confidence :=
       Py.round (_calculate_confidence (Time.hour target_time) historical_data) 3 |}.

(** Loop state: predictions so far, peak_kw, peak_time, peak_pct. *)
Record acc : Type := {
  predictions : list Prediction.t;
  peak_kw : Q;
  peak_time : datetime;
  peak_pct : Q
}.

(** Body of [for hour_offset in range(hours_ahead)]. *)
Definition step (tr : Transformer.t) (historical_data : list TransformerLoad.t)
           (now : datetime) (a : acc) (hour_offset : Z) : acc :=
  let target_time := (now + Time.hours hour_offset)%Z in
  let predicted_kw := predicted_kw_at tr historical_data target_time in
  let predicted_pct := predicted_pct_at tr historical_data target_time in
  let entry := prediction_at tr historical_data target_time in
  if Py.Qlt_bool (peak_kw a) predicted_kw
  then {| predictions := predictions a ++ [entry];
          peak_kw := predicted_kw;
          peak_time := target_time;
          peak_pct := predicted_pct |}
  else {| predictions := predictions a ++ [entry];
          peak_kw := peak_kw a;
          peak_time := peak_time a;
          peak_pct := peak_pct a |}.

Definition insufficient_data (tr : Transformer.t) (count : nat) : Py.exn :=
  Py.ValueError ("Insufficient data for " ++ Transformer.name tr
                 ++ ". Need at least 24 hours, have " ++ Py.string_of_nat count).

Definition forecast (self : t) (db : DB.t) (tr : Transformer.t)
           (hours_ahead : nat) : Py.Result LoadForecast.t :=
  let historical_data := historical_data self db tr in
  if (List.length historical_data <? 24)%nat
  then Py.Raise (insufficient_data tr (List.length historical_data))
  else
    let now := DB.now db in
    let final :=
      fold_left (step tr historical_data now) (range hours_ahead)
                {| predictions := []; peak_kw := 0; peak_time := now; peak_pct := 0 |} in
    Py.Ok {| LoadForecast.transformer := Transformer.id tr;
             LoadForecast.forecast_generated_at := now;
             LoadForecast.forecast_horizon_hours := hours_ahead;
             LoadForecast.predictions := predictions final;
             LoadForecast.peak_predicted_kw := Py.round (peak_kw final) 2;
             LoadForecast.peak_predicted_pct := Py.round (peak_pct final) 2;
             LoadForecast.peak_time := peak_time final |}.

End WithNumpy.
End LoadForecaster.

(* ================================================================= *)
(** ** apps/risk/services/risk_scorer.py : RiskScorer *)

Module RiskScorer.

Definition OVERLOAD_WEIGHT : Q := 0.6.
Definition THERMAL_WEIGHT : Q := 0.2.
Definition CASCADING_WEIGHT : Q := 0.2.

Definition _calculate_overload_score (load_pct : Q) : Q :=
  if Qle_bool load_pct 90 then 0.0
  else if Qle_bool load_pct 100 then 0.3 + ((load_pct - 90) * 0.04)
  else Qmin (0.7 + ((load_pct - 100) * 0.015)) 1.0.

(** [latest_temp]: the temperature of the most recent reading that has
    one, or [None]. *)
Definition latest_temp (db : DB.t) (transformer : Transformer.t) : option Q :=
  match DB.latest_temp_reading db transformer with
  | Some latest_reading => TransformerLoad.temp_c latest_reading
  | None => None
  end.

(** [not latest_temp]: true for [None] and for the float 0.0. *)
Definition falsy (latest_temp : option Q) : bool :=
  match latest_temp with
  | None => true
  | Some c => Qeq_bool c 0
  end.

Definition temp_score (latest_temp : Q) : Q :=
  if Qle_bool latest_temp 25 then 0.0
  else if Qle_bool latest_temp 30 then (latest_temp - 25) * 0.06
  else if Qle_bool latest_temp 35 then 0.3 + ((latest_temp - 30) * 0.06)
  else if Qle_bool latest_temp 40 then 0.6 + ((latest_temp - 35) * 0.06)
  else Qmin (0.9 + ((latest_temp - 40) * 0.02)) 1.0.

Definition age_factor (age : Z) : Q :=
  if (25 <? age)%Z then 1.3
  else if (15 <? age)%Z then 1.1
  else 1.0.

Definition cooling_factor (cooling_type : string) : Q :=
  if String.eqb cooling_type "ONAF" then 0.8 else 1.0.

Definition _calculate_thermal_score (db : DB.t) (forecast : LoadForecast.t)
           (transformer : Transformer.t) : Q :=
  let latest_temp := latest_temp db transformer in
  if falsy latest_temp then 0.2
  else
    let t := Py.get latest_temp 0 in
    let age := (DB.year db - Transformer.install_year transformer)%Z in
    Qmin (temp_score t * age_factor age
          * cooling_factor (Transformer.cooling_type transformer))
         1.0.

(** [latest and float(latest.load_pct) > 85] for one neighbor *)
Definition neighbor_overloaded (db : DB.t) (neighbor : Transformer.t) : bool :=
  match DB.latest_load db neighbor with
  | Some latest => Py.Qlt_bool 85 (TransformerLoad.load_pct latest)
  | None => false
  end.

Definition _calculate_cascading_score (db : DB.t) (transformer : Transformer.t) : Q :=
  let outgoing_links := DB.outgoing_links db transformer in
  match outgoing_links with
  | [] => 0.5
  | _ =>
      let neighbors_overloaded :=
        List.length (filter (fun link =>
                               neighbor_overloaded db (TopologyLink.to_transformer link))
                            outgoing_links) in
      let total_neighbors := List.length outgoing_links in
      let overload_ratio :=
        inject_Z (Z.of_nat neighbors_overloaded) / inject_Z (Z.of_nat total_neighbors) in
      if Qeq_bool overload_ratio 0 then 0.0
      else if Py.Qlt_bool overload_ratio 0.5 then 0.3
      else 0.7
  end.

Definition _calculate_assessment_confidence (forecast : LoadForecast.t) : Q :=
  match LoadForecast.predictions forecast with
  | [] => 0.5
  | ps =>
      let confidences := map Prediction.confidence ps in
      Py.round (Py.sum confidences / Py.len confidences) 3
  end.

(** The weighted combination of the three components. *)
Definition weighted (overload_score thermal_score cascading_score : Q) : Q :=
  OVERLOAD_WEIGHT * overload_score
  + THERMAL_WEIGHT * thermal_score
  + CASCADING_WEIGHT * cascading_score.

(** [total_score] of [score_transformer]. *)
Definition total_score (db : DB.t) (transformer : Transformer.t)
           (forecast : LoadForecast.t) : Q :=
  weighted (_calculate_overload_score (LoadForecast.peak_predicted_pct forecast))
           (_calculate_thermal_score db forecast transformer)
           (_calculate_cascading_score db transformer).

Definition no_predictions (transformer : Transformer.t) : Py.exn :=
  Py.ValueError ("Forecast for " ++ Transformer.name transformer
                 ++ " has no predictions").

(** [score_transformer]: the assessment is built, saved (which fills in
    its level and adds a row to the table) and returned.  The forecast is a
    saved one, as the callers pass it (the latest row of the forecast
    table).  The explanation strings ([reasons_json]) are left out of the
    record. *)
Definition score_transformer (db : DB.t) (transformer : Transformer.t)
           (forecast : LoadForecast.t) : Py.Result (DB.t * RiskAssessment.t) :=
  match LoadForecast.predictions forecast with
  | [] => Py.Raise (no_predictions transformer)
  | first :: _ =>
      let overload_score :=
        _calculate_overload_score (LoadForecast.peak_predicted_pct forecast) in
      let thermal_score := _calculate_thermal_score db forecast transformer in
      let cascading_score := _calculate_cascading_score db transformer in
      let total_score := weighted overload_score thermal_score cascading_score in
      let assessment :=
        {| RiskAssessment.transformer := transformer;
           RiskAssessment.forecast := forecast;
           RiskAssessment.time_window_start := Prediction.timestamp first;
           RiskAssessment.time_window_end :=
             Prediction.timestamp (last (LoadForecast.predictions forecast) first);
           RiskAssessment.risk_score := Py.round total_score 3;
           RiskAssessment.overload_pct := LoadForecast.peak_predicted_pct forecast;
           RiskAssessment.confidence := _calculate_assessment_confidence forecast;
           RiskAssessment.risk_components :=
             {| RiskComponents.overload := Py.round overload_score 3;
                RiskComponents.thermal := Py.round thermal_score 3;
                RiskComponents.cascading := Py.round cascading_score 3 |};
           RiskAssessment.risk_level := Some ""%string |} in
      let saved := RiskAssessment.save assessment in
      Py.Ok (DB.save_assessment db saved, saved)
  end.

(** The dict {'primary': ..., 'bullets': [...], 'recommendations': [...]}
    stored in [reasons_json]. *)
Record reasons : Type := {
  primary : string;
  bullets : list string;
  recommendations : list string
}.

Section WithFormatting.

(** [str(d)] of a stored decimal number, and
    [t.strftime('%Y-%m-%d %H:%M')]. *)
Variable str_decimal : Q -> string.
Variable strftime : datetime -> string.

Definition _generate_reasons (db : DB.t) (transformer : Transformer.t)
           (forecast : LoadForecast.t)
           (overload_score thermal_score cascading_score : Q) : reasons :=
  let max_score := Qmax (Qmax overload_score thermal_score) cascading_score in
  if Qeq_bool max_score overload_score && Py.Qlt_bool 0.5 overload_score then
    let peak_predicted_pct := LoadForecast.peak_predicted_pct forecast in
    let peak_bullet :=
      ("Peak load predicted at " ++ strftime (LoadForecast.peak_time forecast))%string in
    if Py.Qlt_bool 100 peak_predicted_pct then
      {| primary := ("Predicted overload: " ++ str_decimal peak_predicted_pct
                     ++ "% of rated capacity")%string;
         bullets :=
           [ peak_bullet;
             ("CRITICAL: Load exceeds transformer rating by "
              ++ Py.format_f 1 (peak_predicted_pct - 100) ++ "%")%string ];
         recommendations := [ "Generate mitigation plan immediately"%string ] |}
    else
      {| primary := ("Predicted overload: " ++ str_decimal peak_predicted_pct
                     ++ "% of rated capacity")%string;
         bullets :=
           [ peak_bullet;
             ("WARNING: Operating near capacity limit ("
              ++ Py.string_of_Z (Transformer.max_load_pct transformer) ++ "%)")%string ];
         recommendations := [ "Monitor closely and prepare contingency plan"%string ] |}
  else if Qeq_bool max_score thermal_score && Py.Qlt_bool 0.5 thermal_score then
    let age := (DB.year db - Transformer.install_year transformer)%Z in
    {| primary := "Elevated thermal risk";
       bullets :=
         "High ambient temperature affecting transformer cooling"%string
         :: (if (25 <? age)%Z
             then [ ("Transformer age: " ++ Py.string_of_Z age
                     ++ " years (aging equipment more vulnerable)")%string ]
             else []);
       recommendations :=
         [ "Consider load reduction during hot hours"%string;
           "Verify cooling system operation"%string ] |}
  else if Qeq_bool max_score cascading_score && Py.Qlt_bool 0.5 cascading_score then
    {| primary := "High cascading failure risk";
       bullets :=
         [ "Neighbor transformers also heavily loaded"%string;
           "Limited load transfer options available"%string ];
       recommendations :=
         [ "Review regional load distribution"%string;
           "Consider demand response program"%string ] |}
  else
    {| primary := "Normal operation with elevated monitoring";
       bullets := [ "Multiple minor risk factors detected"%string ];
       recommendations := [ "Continue standard monitoring procedures"%string ] |}.

(** The [reasons] that [score_transformer] stores with its assessment. *)
Definition reasons_of (db : DB.t) (transformer : Transformer.t)
           (forecast : LoadForecast.t) : reasons :=
  _generate_reasons db transformer forecast
    (_calculate_overload_score (LoadForecast.peak_predicted_pct forecast))
    (_calculate_thermal_score db forecast transformer)
    (_calculate_cascading_score db transformer).

End WithFormatting.

End RiskScorer.

(* ================================================================= *)
(** ** apps/planning/services/mitigation_simulator.py *)

Module MitigationSimulator.

Record t : Type := {
  safety_margin : Q;
  max_transfer_pct : Q
}.

(** [MitigationSimulator()] *)
Definition default : t := {| safety_margin := 0.8; max_transfer_pct := 0.3 |}.

(** The three [ValueError]s of [generate_plans]. *)
Definition NotOverloadedError (name : string) : Py.exn :=
  Py.ValueError ("Transformer " ++ name ++ " is not overloaded").
Definition NoNeighborsError (name : string) : Py.exn :=
  Py.ValueError ("Transformer " ++ name
                 ++ " has no topology neighbors for load transfer").
Definition NoViablePlanError (name : string) : Py.exn :=
  Py.ValueError ("No viable mitigation plans for " ++ name
                 ++ " (neighbors at capacity)").

(** [rated_kw * (max_load_pct / 100.0)] *)
Definition safe_capacity (transformer : Transformer.t) : Q :=
  Transformer.rated_kw transformer
  * (inject_Z (Transformer.max_load_pct transformer) / 100.0).

Definition _calculate_overload_kw (risk_assessment : RiskAssessment.t) : Q :=
  let transformer := RiskAssessment.transformer risk_assessment in
  let forecast := RiskAssessment.forecast risk_assessment in
  let peak_kw := LoadForecast.peak_predicted_kw forecast in
  let safe_kw := safe_capacity transformer in
  let overload_kw := peak_kw - safe_kw in
  Qmax 0 overload_kw.

(** The dict {'transformer': ..., 'link': ...}. *)
Record neighbor_info : Type := {
  transformer : Transformer.t;
  link : TopologyLink.t
}.

Definition _get_neighbors (db : DB.t) (tr : Transformer.t) : list neighbor_info :=
  map (fun link => {| transformer := TopologyLink.to_transformer link;
                       link := link |})
      (DB.outgoing_links db tr).

(** Latest reading, else latest forecast peak, else 70% of rated. *)
Definition current_load_kw (db : DB.t) (tr : Transformer.t) : Q :=
  match DB.latest_load db tr with
  | Some latest_load => TransformerLoad.load_kw latest_load
  | None =>
      match DB.latest_forecast db tr with
      | Some forecast => LoadForecast.peak_predicted_kw forecast
      | None => Transformer.rated_kw tr * 0.7
      end
  end.

Definition _get_available_capacity (db : DB.t) (tr : Transformer.t)
           (time_window_start : datetime) : Q :=
  let available_kw := safe_capacity tr - current_load_kw db tr in
  Qmax 0 available_kw.

Definition _simulate_transfer (db : DB.t) (from_transformer to_transformer : Transformer.t)
           (transfer_kw : Q) (forecast : LoadForecast.t) : Py.Result Q :=
  let new_peak_kw := LoadForecast.peak_predicted_kw forecast - transfer_kw in
  ratio <- Py.div new_peak_kw (Transformer.rated_kw from_transformer) ;;
  let new_peak_pct := ratio * 100 in
  let overload_score := RiskScorer._calculate_overload_score new_peak_pct in
  let thermal_score := RiskScorer._calculate_thermal_score db forecast from_transformer in
  let cascading_score := RiskScorer._calculate_cascading_score db from_transformer in
  let simulated_risk := 0.6 * overload_score + 0.2 * thermal_score + 0.2 * cascading_score in
  Py.Ok (Py.round simulated_risk 3).

(** [link.switch.name if link.switch else alt] *)
Definition switch_name_or (l : TopologyLink.t) (alt : string) : string :=
  match TopologyLink.switch l with
  | Some sw => Switch.name sw
  | None => alt
  end.

(** The transfer a neighbor could take, before the 50 kW test. *)
Definition transfer_kw_for (self : t) (risk_assessment : RiskAssessment.t)
           (available_kw : Q) (l : TopologyLink.t) : Q :=
  let forecast := RiskAssessment.forecast risk_assessment in
  let overload_kw := _calculate_overload_kw risk_assessment in
  let max_transfer_by_link := TopologyLink.max_transfer_kw l in
  let max_transfer_by_capacity := available_kw * safety_margin self in
  let max_transfer_by_source :=
    LoadForecast.peak_predicted_kw forecast * max_transfer_pct self in
  Py.min4 overload_kw max_transfer_by_link max_transfer_by_capacity
          max_transfer_by_source.

(** The plan built for a neighbor that passed both 50 kW tests. *)
Definition build_plan (risk_assessment : RiskAssessment.t) (info : neighbor_info)
           (transfer_kw simulated_risk load_after : Q) : MitigationPlan.t :=
  let transformer := RiskAssessment.transformer risk_assessment in
  let forecast := RiskAssessment.forecast risk_assessment in
  let neighbor := MitigationSimulator.transformer info in
  let l := link info in
  let risk_reduction := RiskAssessment.risk_score risk_assessment - simulated_risk in
  let plan_data :=
    {| PlanData.from_transformer := Some (Transformer.id transformer);
       PlanData.from_transformer_name := Some (Transformer.name transformer);
       PlanData.to_transformer := Some (Transformer.id neighbor);
       PlanData.to_transformer_name := Some (Transformer.name neighbor);
       PlanData.transfer_kw := Some (Json.Num (Py.round transfer_kw 2));
       PlanData.switch_id := option_map Switch.id (TopologyLink.switch l);
       PlanData.switch_name := Some (switch_name_or l "direct");
       PlanData.link_capacity_kw := Some (TopologyLink.max_transfer_kw l);
       PlanData.risk_before := Some (Json.Num (RiskAssessment.risk_score risk_assessment));
       PlanData.risk_after := Some (Json.Num simulated_risk);
       PlanData.risk_reduction := Some (Json.Num (Py.round risk_reduction 3));
       PlanData.expected_operations :=
         Some (match TopologyLink.switch l with Some _ => 1 | None => 0 end)%Z;
       PlanData.load_before_pct :=
         Some (Json.Num (LoadForecast.peak_predicted_pct forecast));
       PlanData.load_after_pct := Some (Json.Num (Py.round load_after 2)) |} in
  {| MitigationPlan.assessment := risk_assessment;
     MitigationPlan.plan_json := plan_data;
     MitigationPlan.expected_risk_after := simulated_risk;
     MitigationPlan.expected_load_reduction_kw := transfer_kw;
     MitigationPlan.executive_summary :=
       ("Transfer " ++ Py.format_f 0 transfer_kw ++ " kW from "
        ++ Transformer.name transformer ++ " to " ++ Transformer.name neighbor)%string;
     MitigationPlan.operator_steps :=
       Json.strs
         [ ("1. Verify " ++ switch_name_or l "tie line" ++ " is operational")%string;
           ("2. Close " ++ switch_name_or l "connection" ++ " to transfer load")%string;
           "3. Monitor both transformers for 10 minutes"%string;
           ("4. Verify " ++ Transformer.name transformer ++ " load drops below 90%")%string ];
     MitigationPlan.field_checklist :=
       Json.strs
         [ "PPE verification"%string;
           "Lockout/tagout procedures followed"%string;
           "Communication equipment functional"%string ];
     MitigationPlan.rollback_steps :=
       Json.strs
         [ ("1. If voltage deviation > 1.05 pu, reopen "
            ++ switch_name_or l "connection")%string;
           "2. Notify control room immediately"%string;
           "3. Record outcome in work order notes"%string ];
     MitigationPlan.assumptions :=
       Json.strs
         [ ("Forecast error margin " ++ Py.plus_minus ++ "6%")%string;
           "Weather conditions remain stable"%string;
           "No concurrent outages in area"%string ];
     MitigationPlan.llm_confidence := 0.0 |}.

(** One turn of [for neighbor_info in neighbors]: [Ok None] is
    [continue], [Ok (Some plan)] is [candidate_plans.append(plan)]. *)
Definition candidate (self : t) (db : DB.t) (risk_assessment : RiskAssessment.t)
           (info : neighbor_info) : Py.Result (option MitigationPlan.t) :=
  let transformer := RiskAssessment.transformer risk_assessment in
  let forecast := RiskAssessment.forecast risk_assessment in
  let neighbor := MitigationSimulator.transformer info in
  let available_kw :=
    _get_available_capacity db neighbor
      (RiskAssessment.time_window_start risk_assessment) in
  if Py.Qlt_bool available_kw 50 then Py.Ok None
  else
    let transfer_kw := transfer_kw_for self risk_assessment available_kw (link info) in
    if Py.Qlt_bool transfer_kw 50 then Py.Ok None
    else
      simulated_risk <- _simulate_transfer db transformer neighbor transfer_kw forecast ;;
      ratio <- Py.div (LoadForecast.peak_predicted_kw forecast - transfer_kw)
                      (Transformer.rated_kw transformer) ;;
      Py.Ok (Some (build_plan risk_assessment info transfer_kw simulated_risk
                              (ratio * 100))).

(** The two [continue] tests of the loop, for one neighbor. *)
Definition skipped (self : t) (db : DB.t) (risk_assessment : RiskAssessment.t)
           (info : neighbor_info) : bool :=
  let available_kw :=
    _get_available_capacity db (MitigationSimulator.transformer info)
      (RiskAssessment.time_window_start risk_assessment) in
  Py.Qlt_bool available_kw 50
  || Py.Qlt_bool (transfer_kw_for self risk_assessment available_kw (link info)) 50.

(** [new_peak_pct] of [_simulate_transfer], where [rated_kw] is not 0. *)
Definition new_peak_pct (from_transformer : Transformer.t) (forecast : LoadForecast.t)
           (transfer_kw : Q) : Q :=
  (LoadForecast.peak_predicted_kw forecast - transfer_kw)
  / Transformer.rated_kw from_transformer * 100.

(** The plan the loop appends for a neighbor it does not skip, where
    [rated_kw] is not 0. *)
Definition plan_for (self : t) (db : DB.t) (risk_assessment : RiskAssessment.t)
           (info : neighbor_info) : MitigationPlan.t :=
  let transformer := RiskAssessment.transformer risk_assessment in
  let forecast := RiskAssessment.forecast risk_assessment in
  let available_kw :=
    _get_available_capacity db (MitigationSimulator.transformer info)
      (RiskAssessment.time_window_start risk_assessment) in
  let transfer_kw := transfer_kw_for self risk_assessment available_kw (link info) in
  let new_peak_pct := new_peak_pct transformer forecast transfer_kw in
  let simulated_risk :=
    Py.round (0.6 * RiskScorer._calculate_overload_score new_peak_pct
              + 0.2 * RiskScorer._calculate_thermal_score db forecast transformer
              + 0.2 * RiskScorer._calculate_cascading_score db transformer) 3 in
  build_plan risk_assessment info transfer_kw simulated_risk new_peak_pct.

(** The whole loop: the candidates in the order of the links. *)
Fixpoint candidate_plans (self : t) (db : DB.t) (risk_assessment : RiskAssessment.t)
         (neighbors : list neighbor_info) : Py.Result (list MitigationPlan.t) :=
  match neighbors with
  | [] => Py.Ok []
  | info :: rest =>
      c <- candidate self db risk_assessment info ;;
      plans <- candidate_plans self db risk_assessment rest ;;
      Py.Ok (match c with
             | Some plan => plan :: plans
             | None => plans
             end)
  end.

(** [p.plan_json['risk_reduction']]; every candidate carries the key, with
    the number [generate_plans] wrote. *)
Definition sort_key (p : MitigationPlan.t) : Q :=
  match PlanData.risk_reduction (MitigationPlan.plan_json p) with
  | Some (Json.Num risk_reduction) => risk_reduction
  | _ => 0
  end.

(** [sorted(l, key=key, reverse=True)]: a stable sort, larger keys first,
    equal keys in their original order. *)
Fixpoint insert_desc {A} (key : A -> Q) (x : A) (l : list A) : list A :=
  match l with
  | [] => [x]
  | y :: rest =>
      if Py.Qlt_bool (key x) (key y) then y :: insert_desc key x rest
      else x :: y :: rest
  end.

Definition sorted_reverse {A} (key : A -> Q) (l : list A) : list A :=
  fold_right (insert_desc key) [] l.

(** [x] may stand before [y] in a descending order: its key is not
    smaller. *)
Definition desc {A} (key : A -> Q) (x y : A) : Prop := key y <= key x.

(** The elements of a list whose key equals [k], in their order. *)
Definition with_key {A} (key : A -> Q) (k : Q) (l : list A) : list A :=
  filter (fun x => Qeq_bool (key x) k) l.

(** [generate_plans]; [max_plans] is a number of plans, a natural number,
    and [ranked_plans[:max_plans]] the first [max_plans] of the ranking. *)
Definition generate_plans (self : t) (db : DB.t) (risk_assessment : RiskAssessment.t)
           (max_plans : nat) : Py.Result (list MitigationPlan.t) :=
  let transformer := RiskAssessment.transformer risk_assessment in
  let overload_kw := _calculate_overload_kw risk_assessment in
  if Qle_bool overload_kw 0
  then Py.Raise (NotOverloadedError (Transformer.name transformer))
  else
    let neighbors := _get_neighbors db transformer in
    match neighbors with
    | [] => Py.Raise (NoNeighborsError (Transformer.name transformer))
    | _ =>
        candidate_plans <- candidate_plans self db risk_assessment neighbors ;;
        match candidate_plans with
        | [] => Py.Raise (NoViablePlanError (Transformer.name transformer))
        | _ =>
            let ranked_plans := sorted_reverse sort_key candidate_plans in
            Py.Ok (firstn max_plans ranked_plans)
        end
    end.

End MitigationSimulator.

Module BulkMitigationPlanner.

(** The dict {'assessment': assessment, 'plans': plans}. *)
Module Planned.
Record t : Type := {
  assessment : RiskAssessment.t;
  plans : list MitigationPlan.t
}.
End Planned.

(** The dict {'assessment': assessment, 'error': str(e)}. *)
Module Failure.
Record t : Type := {
  assessment : RiskAssessment.t;
  error : string
}.
End Failure.

(** The dict [plan_all_high_risk] returns. *)
Record result : Type := {
  successful : list Planned.t;
  failed : list Failure.t;
  total_attempted : nat;
  success_count : nat;
  failure_count : nat
}.

Record t : Type := { simulator : MitigationSimulator.t }.

(** [BulkMitigationPlanner()] *)
Definition default : t := {| simulator := MitigationSimulator.default |}.

(** [RiskAssessment.objects.filter(risk_score__gte=min_risk_score)
       .order_by('-risk_score')], for a [min_risk_score] that the score
    column can hold (a multiple of 0.001 of at most four digits), which the
    query compares with the stored scores as it is; the field converts any
    other threshold into a decimal of four significant digits before the
    query.  Rows of equal score come in the order of the table. *)
Definition high_risk_assessments (db : DB.t) (min_risk_score : Q)
  : list RiskAssessment.t :=
  MitigationSimulator.sorted_reverse RiskAssessment.risk_score
    (filter (fun a => Qle_bool min_risk_score (RiskAssessment.risk_score a))
            (DB.risk_assessments db)).

(** [for assessment in high_risk_assessments: try: ... except ...], with
    the table of saved plans and the two accumulators; [plan.save()] adds
    the plan to the table. *)
Fixpoint loop (self : t) (db : DB.t) (assessments : list RiskAssessment.t)
         (plan_table : list MitigationPlan.t)
         (successful : list Planned.t) (failed : list Failure.t)
  : list MitigationPlan.t * (list Planned.t * list Failure.t) :=
  match assessments with
  | [] => (plan_table, (successful, failed))
  | assessment :: rest =>
      match MitigationSimulator.generate_plans (simulator self) db assessment 3 with
      | Py.Ok plans =>
          loop self db rest (plan_table ++ plans)
               (successful ++ [{| Planned.assessment := assessment;
                                  Planned.plans := plans |}])
               failed
      | Py.Raise e =>
          loop self db rest plan_table successful
               (failed ++ [{| Failure.assessment := assessment;
                              Failure.error := Py.str e |}])
      end
  end.

Definition plan_all_high_risk (self : t) (db : DB.t)
           (plan_table : list MitigationPlan.t) (min_risk_score : Q)
  : list MitigationPlan.t * result :=
  let high_risk_assessments := high_risk_assessments db min_risk_score in
  let '(plan_table', (successful, failed)) :=
    loop self db high_risk_assessments plan_table [] [] in
  (plan_table',
   {| successful := successful;
      failed := failed;
      total_attempted := List.length high_risk_assessments;
      success_count := List.length successful;
      failure_count := List.length failed |}).

(** [sum(len(item['plans']) for item in result['successful'])], the
    [plans_created] of the [generate_all] endpoint. *)
Definition plans_created (r : result) : nat :=
  list_sum (map (fun item => List.length (Planned.plans item)) (successful r)).

End BulkMitigationPlanner.

(* ================================================================= *)
(** ** apps/llm/services/claude_service.py *)

Module Bundle.
(** The dict an action plan is returned as, with its six keys. *)
Record t : Type := {
  executive_summary : string;
  operator_steps : list Json.t;
  field_checklist : list Json.t;
  rollback_steps : list Json.t;
  assumptions : list Json.t;
  confidence : Q
}.

(** The same dict as a JSON object. *)
Definition to_json (b : t) : Json.t :=
  Json.Obj
    [ ("executive_summary"%string, Json.Str (executive_summary b));
      ("operator_steps"%string, Json.List (operator_steps b));
      ("field_checklist"%string, Json.List (field_checklist b));
      ("rollback_steps"%string, Json.List (rollback_steps b));
      ("assumptions"%string, Json.List (assumptions b));
      ("confidence"%string, Json.Num (confidence b)) ].
End Bundle.

Module ClaudeExplainer.
Section WithBuiltins.

(** [float(s)] on a string: [None] when Python raises [ValueError] or the
    value is not finite (a non-finite confidence fails the range test). *)
Variable float_of_string : string -> option Q.

(** What one call of the text backend comes to: the API call raises, the
    text is not JSON, or [json.loads] returns a value. *)
Inductive reply : Type :=
| ApiError (e : Py.exn)
| InvalidJson (msg : string)
| Parsed (output : Json.t).

(** [enabled] and the backend: [client n plan_data] is the reply to the
    [n]-th call, whose prompt is built from [plan_data] alone. *)
Record t : Type := {
  enabled : bool;
  client : nat -> PlanData.t -> reply
}.

Definition required_keys : list string :=
  [ "executive_summary"; "operator_steps"; "field_checklist"; "rollback_steps";
    "assumptions"; "confidence" ]%string.

(** [for key in required_keys: if key not in output: raise ...] *)
Fixpoint check_keys (members : list (string * Json.t)) (keys : list string)
  : Py.Result unit :=
  match keys with
  | [] => Py.Ok tt
  | key :: rest =>
      match Json.lookup members key with
      | None => Py.Raise (Py.ValueError ("Missing required key: " ++ key))
      | Some _ => check_keys members rest
      end
  end.

(** [output[key]] checked with [isinstance(..., list)] *)
Definition get_list (members : list (string * Json.t)) (key : string)
  : Py.Result (list Json.t) :=
  match Json.lookup members key with
  | Some (Json.List items) => Py.Ok items
  | _ => Py.Raise (Py.ValueError (key ++ " must be array"))
  end.

(** [float(output['confidence'])] *)
Definition to_float (v : option Json.t) : option Q :=
  match v with
  | Some (Json.Num q) => Some q
  | Some (Json.Bool b) => Some (if b then 1 else 0)
  | Some (Json.Str s) => float_of_string s
  | _ => None
  end.

Definition non_empty (key : string) (items : list Json.t) : Py.Result unit :=
  match items with
  | [] => Py.Raise (Py.ValueError (key ++ " cannot be empty"))
  | _ => Py.Ok tt
  end.

Definition _validate_schema (output : Json.t) : Py.Result Bundle.t :=
  match output with
  | Json.Obj members =>
      _ <- check_keys members required_keys ;;
      summary <- match Json.lookup members "executive_summary" with
                 | Some (Json.Str s) => Py.Ok s
                 | _ => Py.Raise (Py.ValueError "executive_summary must be string")
                 end ;;
      steps <- get_list members "operator_steps" ;;
      checklist <- get_list members "field_checklist" ;;
      rollback <- get_list members "rollback_steps" ;;
      assumptions <- get_list members "assumptions" ;;
      confidence <- match to_float (Json.lookup members "confidence") with
                    | Some c =>
                        if Qle_bool 0.0 c && Qle_bool c 1.0 then Py.Ok c
                        else Py.Raise (Py.ValueError
                               "confidence must be numeric 0.0-1.0: confidence must be 0.0-1.0")
                    | None => Py.Raise (Py.ValueError "confidence must be numeric 0.0-1.0")
                    end ;;
      _ <- non_empty "operator_steps" steps ;;
      _ <- non_empty "field_checklist" checklist ;;
      _ <- non_empty "rollback_steps" rollback ;;
      if (String.length summary <? 50)%nat
      then Py.Raise (Py.ValueError "executive_summary too short (min 50 chars)")
      else Py.Ok {| Bundle.executive_summary := summary;
                    Bundle.operator_steps := steps;
                    Bundle.field_checklist := checklist;
                    Bundle.rollback_steps := rollback;
                    Bundle.assumptions := assumptions;
                    Bundle.confidence := confidence |}
  | _ => Py.Raise (Py.TypeError "output is not a dict")
  end.

(** [plan_data.get(key, 0)] of one of the formatted values. *)
Definition get_number (field : option Json.t) : Json.t := Py.get field (Json.Num 0).



(** [_build_prompt]: the fields of the f-string are evaluated from left to
    right, so the first value that has no float format decides the
    exception. *)
Definition _build_prompt (plan_data : PlanData.t) : Py.Result string :=
  let source := Py.get (PlanData.from_transformer_name plan_data) "Unknown"%string in
  let destination := Py.get (PlanData.to_transformer_name plan_data) "Unknown"%string in
  transfer <- Json.format_f 0 (get_number (PlanData.transfer_kw plan_data)) ;;
  let switch := Py.get (PlanData.switch_name plan_data) "Unknown"%string in
  load_before <- Json.format_f 1 (get_number (PlanData.load_before_pct plan_data)) ;;
  risk_before <- Json.format_f 3 (get_number (PlanData.risk_before plan_data)) ;;
  load_after <- Json.format_f 1 (get_number (PlanData.load_after_pct plan_data)) ;;
  risk_after <- Json.format_f 3 (get_number (PlanData.risk_after plan_data)) ;;
  risk_reduction <- Json.format_f 3 (get_number (PlanData.risk_reduction plan_data)) ;;
  Py.Ok
    (Py.lines
       [ "Generate a detailed action plan for this load transfer operation:";
         "";
         "TRANSFORMER INFORMATION:";
         "- Source: " ++ source;
         "- Destination: " ++ destination;
         "- Transfer amount: " ++ transfer ++ " kW";
         "- Via switch: " ++ switch;
         "";
         "CURRENT STATE:";
         "- Source load: " ++ load_before ++ "% of rated capacity";
         "- Risk score: " ++ risk_before ++ " (HIGH)";
         "";
         "EXPECTED OUTCOME:";
         "- Source load after transfer: " ++ load_after ++ "%";
         "- Risk score after transfer: " ++ risk_after ++ " (LOW)";
         "- Risk reduction: " ++ risk_reduction;
         "";
         "OBJECTIVE:";
         "Prevent transformer overload by safely transferring " ++ transfer
           ++ " kW to a neighbor transformer with available capacity.";
         "";
         "Generate a complete action plan with:";
         "1. Executive summary (why this transfer is necessary, what it achieves)";
         "2. Operator steps (5-8 steps for control room, including pre-checks, switching sequence, monitoring)";
         "3. Field checklist (safety procedures: PPE, lockout/tagout, voltage verification, etc.)";
         "4. Rollback steps (what to do if voltage deviates, customer complaints, or unexpected behavior)";
         "5. Assumptions (forecast accuracy, weather stability, no concurrent outages, etc.)";
         "6. Confidence score (0.0-1.0 based on data completeness and operation complexity)";
         "";
         "Return ONLY valid JSON matching the schema. No additional text." ]%string).

(** [generate_action_plan], for the [call]-th call of the backend.  The
    prompt is built before the [try]: an exception of [_build_prompt]
    leaves as it is, every later failure leaves as an [Exception]. *)
Definition generate_action_plan (self : t) (call : nat) (plan_data : PlanData.t)
  : Py.Result Bundle.t :=
  if negb (enabled self) then Py.Raise (Py.Exception "Claude API not available")
  else
    prompt <- _build_prompt plan_data ;;
    match client self call plan_data with
    | ApiError e => Py.Raise (Py.Exception ("LLM API error: " ++ Py.str e))
    | InvalidJson msg => Py.Raise (Py.Exception ("LLM JSON parsing failed: " ++ msg))
    | Parsed output =>
        match _validate_schema output with
        | Py.Ok validated => Py.Ok validated
        | Py.Raise e => Py.Raise (Py.Exception ("LLM API error: " ++ Py.str e))
        end
    end.

(** The dict [generate_template_fallback] returns, from the three names
    and the four formatted numbers. *)
Definition template (from_name to_name switch_name : string)
           (load_before transfer_kw load_after risk_reduction : string) : Bundle.t :=
  {| Bundle.executive_summary :=
       ("Transformer " ++ from_name ++ " is predicted to reach "
        ++ load_before ++ "% load, "
        ++ "exceeding safe operating limits. Transferring "
        ++ transfer_kw ++ " kW to " ++ to_name ++ " "
        ++ "via " ++ switch_name ++ " will reduce load to "
        ++ load_after ++ "% and decrease risk by "
        ++ risk_reduction ++ ". "
        ++ "This is a standard load balancing operation following JEPCO procedures.")%string;
     Bundle.operator_steps :=
       Json.strs
         [ ("1. Verify " ++ switch_name ++ " is available and not under maintenance")%string;
           ("2. Confirm " ++ to_name
            ++ " has sufficient capacity (check current load < 85%)")%string;
           "3. Notify field crew and obtain confirmation of readiness"%string;
           ("4. Close " ++ switch_name ++ " to enable load transfer")%string;
           ("5. Monitor voltage and load on both " ++ from_name ++ " and " ++ to_name
            ++ " for 10 minutes")%string;
           ("6. Verify " ++ from_name ++ " load drops to expected level")%string;
           "7. Confirm no customer complaints or voltage issues"%string;
           "8. Document operation in system logs"%string ];
     Bundle.field_checklist :=
       Json.strs
         [ "Personal Protective Equipment (PPE) verified and worn"%string;
           "Lockout/tagout procedures followed per JEPCO standards"%string;
           "Voltage verification performed before switch operation"%string;
           "Communication equipment functional and tested"%string;
           "Emergency contacts and rollback plan reviewed"%string;
           "Weather conditions checked (avoid operations during storms)"%string;
           "Backup crew notified and on standby"%string ];
     Bundle.rollback_steps :=
       Json.strs
         [ ("1. If voltage deviation exceeds 1.05 per-unit, immediately reopen "
            ++ switch_name)%string;
           "2. If customer complaints received within 5 minutes, revert operation"%string;
           ("3. If " ++ to_name ++ " load exceeds 90%, partial rollback may be required")%string;
           "4. Notify control room supervisor of any abnormal conditions"%string;
           "5. Document all observations and actions taken"%string;
           "6. Await further instructions before re-attempting transfer"%string ];
     Bundle.assumptions :=
       Json.strs
         [ ("Forecast accuracy " ++ Py.plus_minus
            ++ "6% based on historical performance")%string;
           "Weather conditions remain stable during operation"%string;
           "No concurrent outages or maintenance in the area"%string;
           (to_name ++ " transformer is operating normally")%string;
           "Communication systems remain functional"%string;
           "Standard JEPCO safety procedures are followed"%string ];
     Bundle.confidence := 0.75 |}.

(** [generate_template_fallback]: the summary is the first entry of the
    dict, and its four formats, taken in the order of the f-string, are the
    only places where the function can raise. *)
Definition generate_template_fallback (plan_data : PlanData.t) : Py.Result Bundle.t :=
  let from_name := Py.get (PlanData.from_transformer_name plan_data) "source"%string in
  let to_name := Py.get (PlanData.to_transformer_name plan_data) "destination"%string in
  let transfer_kw := get_number (PlanData.transfer_kw plan_data) in
  let switch_name := Py.get (PlanData.switch_name plan_data) "tie switch"%string in
  let load_before := get_number (PlanData.load_before_pct plan_data) in
  let load_after := get_number (PlanData.load_after_pct plan_data) in
  let risk_reduction := get_number (PlanData.risk_reduction plan_data) in
  load_before <- Json.format_f 1 load_before ;;
  transfer_kw <- Json.format_f 0 transfer_kw ;;
  load_after <- Json.format_f 1 load_after ;;
  risk_reduction <- Json.format_f 3 risk_reduction ;;
  Py.Ok (template from_name to_name switch_name
                  load_before transfer_kw load_after risk_reduction).

End WithBuiltins.
End ClaudeExplainer.

Module PlanEnhancer.
Section WithBuiltins.

Variable float_of_string : string -> option Q.

(** [max_retries] is a number of retries, a natural number. *)
Record t : Type := {
  explainer : ClaudeExplainer.t;
  max_retries : nat
}.

(** The six assignments to the narrative fields of the plan. *)
Definition update (mitigation_plan : MitigationPlan.t) (b : Bundle.t)
  : MitigationPlan.t :=
  {| MitigationPlan.assessment := MitigationPlan.assessment mitigation_plan;
     MitigationPlan.plan_json := MitigationPlan.plan_json mitigation_plan;
     MitigationPlan.expected_risk_after :=
       MitigationPlan.expected_risk_after mitigation_plan;
     MitigationPlan.expected_load_reduction_kw :=
       MitigationPlan.expected_load_reduction_kw mitigation_plan;
     MitigationPlan.executive_summary := Bundle.executive_summary b;
     MitigationPlan.operator_steps := Bundle.operator_steps b;
     MitigationPlan.field_checklist := Bundle.field_checklist b;
     MitigationPlan.rollback_steps := Bundle.rollback_steps b;
     MitigationPlan.assumptions := Bundle.assumptions b;
     MitigationPlan.llm_confidence := Bundle.confidence b |}.

(** [for attempt in range(self.max_retries + 1)], from [attempt] on with
    [remaining] turns left; falling out of the loop returns the plan as it
    is.  The template is built inside the [except] handler of the last
    attempt, before the six assignments: what it raises leaves
    [enhance_plan], and the plan is as it was. *)
Fixpoint attempts (self : t) (mitigation_plan : MitigationPlan.t)
         (remaining attempt : nat) : Py.Result MitigationPlan.t :=
  let plan_data := MitigationPlan.plan_json mitigation_plan in
  match remaining with
  | O => Py.Ok mitigation_plan
  | S remaining' =>
      match ClaudeExplainer.generate_action_plan float_of_string
              (explainer self) attempt plan_data with
      | Py.Ok enhanced => Py.Ok (update mitigation_plan enhanced)
      | Py.Raise _ =>
          if (attempt =? max_retries self)%nat
          then
            fallback <- ClaudeExplainer.generate_template_fallback plan_data ;;
            Py.Ok (update mitigation_plan fallback)
          else attempts self mitigation_plan remaining' (S attempt)
      end
  end.

Definition enhance_plan (self : t) (mitigation_plan : MitigationPlan.t)
  : Py.Result MitigationPlan.t :=
  attempts self mitigation_plan (max_retries self + 1) 0.

End WithBuiltins.
End PlanEnhancer.

(* ================================================================= *)
(** ** The bulk stages: [BulkForecaster], [BulkRiskScorer] *)

Module Bulk.

(** The dict {'transformer': transformer, 'error': str(e)}. *)
Record failure : Type := {
  transformer : Transformer.t;
  error : string
}.

(** The dict a bulk stage returns. *)
Record result (V : Type) : Type := {
  successful : list V;
  failed : list failure;
  total_attempted : nat;
  success_count : nat;
  failure_count : nat
}.
Arguments successful {V} r.
Arguments failed {V} r.
Arguments total_attempted {V} r.
Arguments success_count {V} r.
Arguments failure_count {V} r.

Section Loop.

Context {V : Type}.

(** The body of the [try] block for one transformer: it raises, or it
    returns its value and the state it leaves. *)
Variable body : DB.t -> Transformer.t -> Py.Result (DB.t * V).

(** [for transformer in transformers: try: ... except Exception as e: ...]
    with the two accumulators. *)
Fixpoint loop (db : DB.t) (transformers : list Transformer.t)
         (successful : list V) (failed : list failure)
  : DB.t * (list V * list failure) :=
  match transformers with
  | [] => (db, (successful, failed))
  | tr :: rest =>
      match body db tr with
      | Py.Ok (db', v) => loop db' rest (successful ++ [v]) failed
      | Py.Raise e =>
          loop db rest successful
               (failed ++ [{| transformer := tr; error := Py.str e |}])
      end
  end.

Definition run (db : DB.t) (transformers : list Transformer.t)
  : DB.t * result V :=
  let '(db', (successful, failed)) := loop db transformers [] [] in
  (db', {| successful := successful;
           failed := failed;
           total_attempted := List.length transformers;
           success_count := List.length successful;
           failure_count := List.length failed |}).

End Loop.

Section Outcomes.

Context {V : Type}.

(** What the computation of one transformer comes to, taken on its own. *)
Variable outcome : Transformer.t -> Py.Result V.

(** The values of the transformers whose computation returns, in order. *)
Definition successes (transformers : list Transformer.t) : list V :=
  flat_map (fun tr => match outcome tr with
                      | Py.Ok v => [v]
                      | Py.Raise _ => []
                      end)
           transformers.

(** One record for each transformer whose computation raises, in order. *)
Definition failures (transformers : list Transformer.t) : list failure :=
  flat_map (fun tr => match outcome tr with
                      | Py.Ok _ => []
                      | Py.Raise e => [{| transformer := tr; error := Py.str e |}]
                      end)
           transformers.

(** A bulk stage [stage] treats its transformers one by one, as [outcome]
    does: its two lists are the successes and the failures of the
    transformers, its counts are the lengths, and a transformer that raises
    adds its one record to [failed] and changes nothing else. *)
Definition isolated (stage : list Transformer.t -> result V) : Prop :=
  (forall transformers,
     successful (stage transformers) = successes transformers
     /\ failed (stage transformers) = failures transformers
     /\ total_attempted (stage transformers) = List.length transformers
     /\ success_count (stage transformers) = List.length (successful (stage transformers))
     /\ failure_count (stage transformers) = List.length (failed (stage transformers))
     /\ (success_count (stage transformers) + failure_count (stage transformers)
         = total_attempted (stage transformers))%nat)
  /\ (forall before tr after e,
        outcome tr = Py.Raise e ->
        successful (stage (before ++ tr :: after)) = successful (stage (before ++ after))
        /\ failed (stage (before ++ tr :: after))
           = failed (stage before)
             ++ {| transformer := tr; error := Py.str e |} :: failed (stage after)).

End Outcomes.
End Bulk.

Module BulkForecaster.
Section WithNumpy.

Variable np_sqrt : Q -> Q.

Record t : Type := {
  forecaster : LoadForecaster.t;
  hours_ahead : nat
}.

(** [BulkForecaster()] *)
Definition default : t :=
  {| forecaster := LoadForecaster.default; hours_ahead := 72 |}.

(** The [try] block of [forecast_all_transformers]. *)
Definition body (self : t) (save : bool) (db : DB.t) (transformer : Transformer.t)
  : Py.Result (DB.t * LoadForecast.t) :=
  forecast <- LoadForecaster.forecast np_sqrt (forecaster self) db transformer
                (hours_ahead self) ;;
  Py.Ok (if save then DB.save_forecast db forecast else db, forecast).

Definition forecast_all_transformers (self : t) (db : DB.t)
           (transformers : option (list Transformer.t)) (save : bool)
  : DB.t * Bulk.result LoadForecast.t :=
  let transformers := Py.get transformers (DB.active_transformers db) in
  Bulk.run (body self save) db transformers.

End WithNumpy.
End BulkForecaster.

Module BulkRiskScorer.

Definition no_forecast (transformer : Transformer.t) : Py.exn :=
  Py.ValueError ("No forecast available for " ++ Transformer.name transformer).

(** The [try] block of [score_all_transformers]. *)
Definition body (db : DB.t) (transformer : Transformer.t)
  : Py.Result (DB.t * RiskAssessment.t) :=
  match DB.latest_forecast db transformer with
  | None => Py.Raise (no_forecast transformer)
  | Some forecast => RiskScorer.score_transformer db transformer forecast
  end.

(** What the [try] block comes to for one transformer: the assessment it
    returns, or the exception it raises. *)
Definition outcome (db : DB.t) (transformer : Transformer.t)
  : Py.Result RiskAssessment.t :=
  match body db transformer with
  | Py.Ok (_, assessment) => Py.Ok assessment
  | Py.Raise e => Py.Raise e
  end.

Definition score_all_transformers (db : DB.t)
           (transformers : option (list Transformer.t))
  : DB.t * Bulk.result RiskAssessment.t :=
  let transformers := Py.get transformers (DB.active_transformers db) in
  Bulk.run body db transformers.

End BulkRiskScorer.

(* ================================================================= *)
(** ** apps/risk/views.py *)

Module RiskAssessmentViewSet.

(** The dict [explanation_data] of the [explain] endpoint; the stored
    explanation strings are left out, as in [RiskAssessment.t]. *)
Record explanation_data : Type := {
  transformer_name : string;
  risk_score : Q;
  risk_level : option string;
  overload_component : Q;
  thermal_component : Q;
  cascading_component : Q;
  overload_contribution : Q;
  thermal_contribution : Q;
  cascading_contribution : Q
}.

Definition explain (assessment : RiskAssessment.t) : explanation_data :=
  let components := RiskAssessment.risk_components assessment in
  {| transformer_name := Transformer.name (RiskAssessment.transformer assessment);
     risk_score := RiskAssessment.risk_score assessment;
     risk_level := RiskAssessment.risk_level assessment;
     overload_component := RiskComponents.overload components;
     thermal_component := RiskComponents.thermal components;
     cascading_component := RiskComponents.cascading components;
     overload_contribution := RiskComponents.overload components * 0.6;
     thermal_contribution := RiskComponents.thermal components * 0.2;
     cascading_contribution := RiskComponents.cascading components * 0.2 |}.

(** [len([a for a in result['successful'] if a.is_high_risk])] of the
    [run] endpoint. *)
Definition high_risk_count (successful : list RiskAssessment.t) : nat :=
  List.length (filter RiskAssessment.is_high_risk successful).

End RiskAssessmentViewSet.

(* ================================================================= *)
(** ** A small network used in the examples *)

Module Example.

Definition T07 : Transformer.t :=
  {| Transformer.id := 7; Transformer.name := "T-07";
     Transformer.rated_kva := 499.99; Transformer.max_load_pct := 90;
     Transformer.cooling_type := "ONAN"; Transformer.install_year := 2010;
     Transformer.is_active := true |}.

Definition T09 : Transformer.t :=
  {| Transformer.id := 9; Transformer.name := "T-09";
     Transformer.rated_kva := 500; Transformer.max_load_pct := 90;
     Transformer.cooling_type := "ONAF"; Transformer.install_year := 2015;
     Transformer.is_active := true |}.

Definition SW03 : Switch.t := {| Switch.id := 3; Switch.name := "SW-03" |}.

Definition tie : TopologyLink.t :=
  {| TopologyLink.from_transformer := 7; TopologyLink.to_transformer := T09;
     TopologyLink.max_transfer_kw := 300; TopologyLink.switch := Some SW03;
     TopologyLink.is_active := true |}.

(** The latest reading of T-09: 200 kW, no temperature. *)
Definition reading09 : TransformerLoad.t :=
  {| TransformerLoad.transformer := 9; TransformerLoad.timestamp := 6000;
     TransformerLoad.load_kw := 200; TransformerLoad.load_pct := 44.44;
     TransformerLoad.temp_c := None |}.

(** A forecast of T-07 peaking at 455 kW. *)
Definition forecast07 : LoadForecast.t :=
  {| LoadForecast.transformer := 7;
     LoadForecast.forecast_generated_at := 6000;
     LoadForecast.forecast_horizon_hours := 1;
     LoadForecast.predictions :=
       [ {| Prediction.timestamp := 6000; Prediction.predicted_kw := 455;
            Prediction.predicted_pct := 101.11; Prediction.confidence := 0.9 |} ];
     LoadForecast.peak_predicted_kw := 455;
     LoadForecast.peak_predicted_pct := 101.11;
     LoadForecast.peak_time := 6000 |}.

Definition db : DB.t :=
  {| DB.transformers := [T07; T09];
     DB.topology_links := [tie];
     DB.transformer_loads := [reading09];
     DB.load_forecasts := [forecast07];
     DB.risk_assessments := [];
     DB.now := 6000;
     DB.year := 2026 |}.

(** T-09 as the neighbor of T-07 over the tie. *)
Definition neighbor09 : MitigationSimulator.neighbor_info :=
  {| MitigationSimulator.transformer := T09; MitigationSimulator.link := tie |}.

(** The same network on a freezing day: the latest reading of T-07 carries a
    temperature of exactly 0.0 degrees. *)
Definition reading07_frost : TransformerLoad.t :=
  {| TransformerLoad.transformer := 7; TransformerLoad.timestamp := 6000;
     TransformerLoad.load_kw := 300; TransformerLoad.load_pct := 66.67;
     TransformerLoad.temp_c := Some 0.0 |}.

Definition db_frost : DB.t :=
  {| DB.transformers := [T07; T09];
     DB.topology_links := [tie];
     DB.transformer_loads := [reading09; reading07_frost];
     DB.load_forecasts := [forecast07];
     DB.risk_assessments := [];
     DB.now := 6000;
     DB.year := 2026 |}.

(** The assessment [score_transformer] makes of T-07 from that forecast. *)
Definition assessment07 : RiskAssessment.t :=
  match RiskScorer.score_transformer db T07 forecast07 with
  | Py.Ok (_, a) => a
  | Py.Raise _ =>
      {| RiskAssessment.transformer := T07; RiskAssessment.forecast := forecast07;
         RiskAssessment.time_window_start := 0; RiskAssessment.time_window_end := 0;
         RiskAssessment.risk_score := 0; RiskAssessment.overload_pct := 0;
         RiskAssessment.confidence := 0;
         RiskAssessment.risk_components :=
           {| RiskComponents.overload := 0; RiskComponents.thermal := 0;
              RiskComponents.cascading := 0 |};
         RiskAssessment.risk_level := None |}
  end.

(** A rational square root for the examples, by a few Newton steps. *)
Definition np_sqrt (x : Q) : Q :=
  if Qle_bool x 0 then 0
  else
    let step := fun y => Qred ((y + x / y) / 2) in
    step (step (step (step (step 1)))).

(** A very large unit, T-20 (20 000 000 kVA, forced-air cooling, 11 years
    old), tied to T-09 by a link of 50 kW; its latest reading shows 26.3
    degrees.  Its forecast peaks at 18 000 720 kW, that is 100.004% of the
    rated 18 000 000 kW, recorded as 100.00%. *)
Definition T20 : Transformer.t :=
  {| Transformer.id := 20; Transformer.name := "T-20";
     Transformer.rated_kva := 20000000; Transformer.max_load_pct := 90;
     Transformer.cooling_type := "ONAF"; Transformer.install_year := 2015;
     Transformer.is_active := true |}.

Definition tie20 : TopologyLink.t :=
  {| TopologyLink.from_transformer := 20; TopologyLink.to_transformer := T09;
     TopologyLink.max_transfer_kw := 50; TopologyLink.switch := Some SW03;
     TopologyLink.is_active := true |}.

Definition reading20 : TransformerLoad.t :=
  {| TransformerLoad.transformer := 20; TransformerLoad.timestamp := 6000;
     TransformerLoad.load_kw := 17000000; TransformerLoad.load_pct := 94.44;
     TransformerLoad.temp_c := Some 26.3 |}.

Definition forecast20 : LoadForecast.t :=
  {| LoadForecast.transformer := 20;
     LoadForecast.forecast_generated_at := 6000;
     LoadForecast.forecast_horizon_hours := 1;
     LoadForecast.predictions :=
       [ {| Prediction.timestamp := 6000; Prediction.predicted_kw := 18000720;
            Prediction.predicted_pct := 100.00; Prediction.confidence := 0.9 |} ];
     LoadForecast.peak_predicted_kw := 18000720;
     LoadForecast.peak_predicted_pct := 100.00;
     LoadForecast.peak_time := 6000 |}.

Definition db_large : DB.t :=
  {| DB.transformers := [T20; T09];
     DB.topology_links := [tie20];
     DB.transformer_loads := [reading09; reading20];
     DB.load_forecasts := [forecast20];
     DB.risk_assessments := [];
     DB.now := 6000;
     DB.year := 2026 |}.

Definition neighbor09_of_20 : MitigationSimulator.neighbor_info :=
  {| MitigationSimulator.transformer := T09; MitigationSimulator.link := tie20 |}.

(** The assessment [score_transformer] makes of T-20 in that state. *)
Definition assessment20 : RiskAssessment.t :=
  {| RiskAssessment.transformer := T20;
     RiskAssessment.forecast := forecast20;
     RiskAssessment.time_window_start := 6000;
     RiskAssessment.time_window_end := 6000;
     RiskAssessment.risk_score :=
       Py.round (RiskScorer.total_score db_large T20 forecast20) 3;
     RiskAssessment.overload_pct := 100.00;
     RiskAssessment.confidence := RiskScorer._calculate_assessment_confidence forecast20;
     RiskAssessment.risk_components :=
       {| RiskComponents.overload :=
            Py.round (RiskScorer._calculate_overload_score 100.00) 3;
          RiskComponents.thermal :=
            Py.round (RiskScorer._calculate_thermal_score db_large forecast20 T20) 3;
          RiskComponents.cascading :=
            Py.round (RiskScorer._calculate_cascading_score db_large T20) 3 |};
     RiskAssessment.risk_level := Some "MEDIUM"%string |}.

(** A narrator whose backend is not configured, and a plan whose
    [plan_json] is the empty dict. *)
Definition float_of_string (s : string) : option Q := None.

Definition offline : PlanEnhancer.t :=
  {| PlanEnhancer.explainer :=
       {| ClaudeExplainer.enabled := false;
          ClaudeExplainer.client :=
            fun _ _ => ClaudeExplainer.ApiError (Py.Exception "connection refused") |};
     PlanEnhancer.max_retries := 2 |}.

Definition empty_plan : MitigationPlan.t :=
  {| MitigationPlan.assessment := assessment07;
     MitigationPlan.plan_json := PlanData.empty;
     MitigationPlan.expected_risk_after := 0;
     MitigationPlan.expected_load_reduction_kw := 0;
     MitigationPlan.executive_summary := "";
     MitigationPlan.operator_steps := [];
     MitigationPlan.field_checklist := [];
     MitigationPlan.rollback_steps := [];
     MitigationPlan.assumptions := [];
     MitigationPlan.llm_confidence := 0.0 |}.

(** T-07 with a second neighbor, T-11, behind a direct link of 50.005 kW
    that comes first in the table of links. *)
Definition T11 : Transformer.t :=
  {| Transformer.id := 11; Transformer.name := "T-11";
     Transformer.rated_kva := 500; Transformer.max_load_pct := 90;
     Transformer.cooling_type := "ONAN"; Transformer.install_year := 2018;
     Transformer.is_active := true |}.

Definition tie11 : TopologyLink.t :=
  {| TopologyLink.from_transformer := 7; TopologyLink.to_transformer := T11;
     TopologyLink.max_transfer_kw := 50.005; TopologyLink.switch := None;
     TopologyLink.is_active := true |}.

Definition reading11 : TransformerLoad.t :=
  {| TransformerLoad.transformer := 11; TransformerLoad.timestamp := 6000;
     TransformerLoad.load_kw := 150; TransformerLoad.load_pct := 33.33;
     TransformerLoad.temp_c := None |}.

Definition db_two : DB.t :=
  {| DB.transformers := [T07; T09; T11];
     DB.topology_links := [tie11; tie];
     DB.transformer_loads := [reading09; reading11];
     DB.load_forecasts := [forecast07];
     DB.risk_assessments := [];
     DB.now := 6000;
     DB.year := 2026 |}.

Definition neighbor11 : MitigationSimulator.neighbor_info :=
  {| MitigationSimulator.transformer := T11; MitigationSimulator.link := tie11 |}.

(** T-07 with a third neighbor, T-13, behind another direct link of
    50.005 kW that comes last in the table of links: the links lead to
    T-11, T-09 and T-13, in this order. *)
Definition T13 : Transformer.t :=
  {| Transformer.id := 13; Transformer.name := "T-13";
     Transformer.rated_kva := 500; Transformer.max_load_pct := 90;
     Transformer.cooling_type := "ONAN"; Transformer.install_year := 2018;
     Transformer.is_active := true |}.

Definition tie13 : TopologyLink.t :=
  {| TopologyLink.from_transformer := 7; TopologyLink.to_transformer := T13;
     TopologyLink.max_transfer_kw := 50.005; TopologyLink.switch := None;
     TopologyLink.is_active := true |}.

Definition reading13 : TransformerLoad.t :=
  {| TransformerLoad.transformer := 13; TransformerLoad.timestamp := 6000;
     TransformerLoad.load_kw := 150; TransformerLoad.load_pct := 33.33;
     TransformerLoad.temp_c := None |}.

Definition db_three : DB.t :=
  {| DB.transformers := [T07; T09; T11; T13];
     DB.topology_links := [tie11; tie; tie13];
     DB.transformer_loads := [reading09; reading11; reading13];
     DB.load_forecasts := [forecast07];
     DB.risk_assessments := [];
     DB.now := 6000;
     DB.year := 2026 |}.

Definition neighbor13 : MitigationSimulator.neighbor_info :=
  {| MitigationSimulator.transformer := T13; MitigationSimulator.link := tie13 |}.

(** The same network with the assessment of T-07 in the table. *)
Definition db_assessed : DB.t := DB.save_assessment db_three assessment07.

(** An isolated unit, T-30, without readings, whose forecast peaks at 125%
    of its rating, beside T-07 and its neighbor. *)
Definition T30 : Transformer.t :=
  {| Transformer.id := 30; Transformer.name := "T-30";
     Transformer.rated_kva := 400; Transformer.max_load_pct := 90;
     Transformer.cooling_type := "ONAN"; Transformer.install_year := 2012;
     Transformer.is_active := true |}.

Definition forecast30 : LoadForecast.t :=
  {| LoadForecast.transformer := 30;
     LoadForecast.forecast_generated_at := 6000;
     LoadForecast.forecast_horizon_hours := 1;
     LoadForecast.predictions :=
       [ {| Prediction.timestamp := 6000; Prediction.predicted_kw := 450;
            Prediction.predicted_pct := 125.00; Prediction.confidence := 0.9 |} ];
     LoadForecast.peak_predicted_kw := 450;
     LoadForecast.peak_predicted_pct := 125.00;
     LoadForecast.peak_time := 6000 |}.

Definition db_hot : DB.t :=
  {| DB.transformers := [T30; T07; T09];
     DB.topology_links := [tie];
     DB.transformer_loads := [reading09];
     DB.load_forecasts := [forecast30; forecast07];
     DB.risk_assessments := [];
     DB.now := 6000;
     DB.year := 2026 |}.

(** A well-formed bundle. *)
Definition bundle : Bundle.t :=
  ClaudeExplainer.template "T-07" "T-09" "SW-03" "101.1" "50" "90.0" "0.252".

(** A narrator whose backend answers the first call with text that is not
    JSON and every later call with that bundle. *)
Definition flaky : PlanEnhancer.t :=
  {| PlanEnhancer.explainer :=
       {| ClaudeExplainer.enabled := true;
          ClaudeExplainer.client :=
            fun call plan_data =>
              match call with
              | O => ClaudeExplainer.InvalidJson "Expecting value: line 1 column 1 (char 0)"
              | S _ => ClaudeExplainer.Parsed (Bundle.to_json bundle)
              end |};
     PlanEnhancer.max_retries := 2 |}.



(** A week for the forecaster: "now" is a Friday, 00:00, and T-07 has one
    reading of 100.01 kW for each hour of the Thursday before, without
    temperature. *)
Definition thursday_readings : list TransformerLoad.t :=
  map (fun h => {| TransformerLoad.transformer := 7;
                   TransformerLoad.timestamp := 4320 + 60 * h;
                   TransformerLoad.load_kw := 100.01;
                   TransformerLoad.load_pct := 22.22;
                   TransformerLoad.temp_c := None |})
      (range 24).

Definition db_week : DB.t :=
  {| DB.transformers := [T07; T09];
     DB.topology_links := [tie];
     DB.transformer_loads := thursday_readings;
     DB.load_forecasts := [];
     DB.risk_assessments := [];
     DB.now := 5760;
     DB.year := 2026 |}.

(** The same week, with a forecast of T-07 made on the Thursday in the
    table. *)
Definition forecast07_thursday : LoadForecast.t :=
  {| LoadForecast.transformer := 7;
     LoadForecast.forecast_generated_at := 4320;
     LoadForecast.forecast_horizon_hours := 1;
     LoadForecast.predictions :=
       [ {| Prediction.timestamp := 4320; Prediction.predicted_kw := 455;
            Prediction.predicted_pct := 101.11; Prediction.confidence := 0.9 |} ];
     LoadForecast.peak_predicted_kw := 455;
     LoadForecast.peak_predicted_pct := 101.11;
     LoadForecast.peak_time := 4320 |}.

Definition db_week_forecasted : DB.t := DB.save_forecast db_week forecast07_thursday.

(** Friday 12:00 and Saturday 12:00 of that week. *)
Definition friday_noon : datetime := 5760 + 720.
Definition saturday_noon : datetime := 5760 + 1440 + 720.

End Example.

(* ================================================================= *)
(** * Properties *)

(** ** Numbers: comparisons and rounding *)

Lemma Qlt_bool_true (a b : Q) : Py.Qlt_bool a b = true <-> a < b.
Proof.
  unfold Py.Qlt_bool. rewrite negb_true_iff.
  split; intro H.
  - apply Qnot_le_lt. intro Hle. apply Qle_bool_iff in Hle. congruence.
  - destruct (Qle_bool b a) eqn:E; [|reflexivity].
    apply Qle_bool_iff in E. exfalso. apply (Qlt_not_le _ _ H E).
Qed.

Lemma Qlt_bool_false (a b : Q) : Py.Qlt_bool a b = false <-> b <= a.
Proof.
  unfold Py.Qlt_bool. rewrite negb_false_iff. apply Qle_bool_iff.
Qed.

Lemma Qle_bool_false (a b : Q) : Qle_bool a b = false <-> b < a.
Proof.
  split; intro H.
  - apply Qnot_le_lt. intro Hle. apply Qle_bool_iff in Hle. congruence.
  - destruct (Qle_bool a b) eqn:E; [|reflexivity].
    apply Qle_bool_iff in E. exfalso. apply (Qlt_not_le _ _ H E).
Qed.

Lemma Qeq_bool_false (a b : Q) : Qeq_bool a b = false <-> ~ a == b.
Proof.
  split.
  - apply Qeq_bool_neq.
  - intro H. destruct (Qeq_bool a b) eqn:E; [|reflexivity].
    apply Qeq_bool_iff in E. contradiction.
Qed.

(** Case analysis on the boolean tests of the embedding. *)
Ltac qcase c :=
  let E := fresh "E" in
  destruct c eqn:E;
  [ first [ apply Qle_bool_iff in E | apply Qlt_bool_true in E
          | apply Qeq_bool_iff in E ]
  | first [ apply Qle_bool_false in E | apply Qlt_bool_false in E
          | apply Qeq_bool_false in E ] ].

Lemma round_half_even_near (x : Q) :
  x - (1 # 2) <= inject_Z (Py.round_half_even x)
  /\ inject_Z (Py.round_half_even x) <= x + (1 # 2).
Proof.
  unfold Py.round_half_even.
  pose proof (Qfloor_le x) as Hlo.
  pose proof (Qlt_floor x) as Hhi.
  rewrite inject_Z_plus in Hhi. change (inject_Z 1) with 1 in Hhi.
  destruct (Qcompare_spec (x - inject_Z (Qfloor x)) (1 # 2)) as [He|Hl|Hg].
  - destruct (Z.even (Qfloor x)).
    + split; lra.
    + rewrite inject_Z_plus. change (inject_Z 1) with 1. split; lra.
  - split; lra.
  - rewrite inject_Z_plus. change (inject_Z 1) with 1. split; lra.
Qed.

Lemma round_half_even_range (x : Q) :
  (Qfloor x <= Py.round_half_even x <= Qfloor x + 1)%Z.
Proof.
  unfold Py.round_half_even.
  destruct (Qcompare (x - inject_Z (Qfloor x)) (1 # 2)); try lia.
  destruct (Z.even (Qfloor x)); lia.
Qed.

Lemma round_half_even_mono (x y : Q) :
  x <= y -> (Py.round_half_even x <= Py.round_half_even y)%Z.
Proof.
  intro Hxy.
  pose proof (Qfloor_resp_le _ _ Hxy) as Hf.
  destruct (Z.eq_dec (Qfloor x) (Qfloor y)) as [Heq|Hne].
  - unfold Py.round_half_even. rewrite <- Heq.
    destruct (Qcompare_spec (x - inject_Z (Qfloor x)) (1 # 2)) as [He|Hl|Hg];
      destruct (Qcompare_spec (y - inject_Z (Qfloor x)) (1 # 2)) as [He'|Hl'|Hg'];
      try destruct (Z.even (Qfloor x)); try lia; exfalso; lra.
  - pose proof (round_half_even_range x). pose proof (round_half_even_range y). lia.
Qed.

Lemma round_half_even_Z (z : Z) : Py.round_half_even (inject_Z z) = z.
Proof.
  unfold Py.round_half_even. rewrite Qfloor_Z.
  destruct (Qcompare_spec (inject_Z z - inject_Z z) (1 # 2)) as [He|Hl|Hg].
  - exfalso. lra.
  - reflexivity.
  - exfalso. lra.
Qed.

Lemma round_half_even_comp (x y : Q) :
  x == y -> Py.round_half_even x = Py.round_half_even y.
Proof.
  intro H. apply Z.le_antisymm; apply round_half_even_mono; rewrite H; apply Qle_refl.
Qed.

Lemma pow10_pos (n : nat) : 0 < inject_Z (Py.pow10 n).
Proof.
  unfold Py.pow10. change 0 with (inject_Z 0). rewrite <- Zlt_Qlt.
  apply Z.pow_pos_nonneg; lia.
Qed.

(** [round] is monotone. *)
Lemma round_mono (x y : Q) (n : nat) : x <= y -> Py.round x n <= Py.round y n.
Proof.
  intro Hxy. unfold Py.round.
  pose proof (pow10_pos n) as Hp.
  apply Qmult_le_compat_r.
  - rewrite <- Zle_Qle. apply round_half_even_mono.
    apply Qmult_le_compat_r; [assumption | apply Qlt_le_weak; assumption].
  - apply Qlt_le_weak. apply Qinv_lt_0_compat. assumption.
Qed.

Instance round_Proper : Proper (Qeq ==> eq ==> Qeq) Py.round.
Proof.
  intros x y Hxy n m <-. unfold Py.round.
  rewrite (round_half_even_comp (x * inject_Z (Py.pow10 n)) (y * inject_Z (Py.pow10 n))).
  - reflexivity.
  - rewrite Hxy. reflexivity.
Qed.

(** A value with at most [n] decimals is left as it is. *)
Lemma round_on_grid (z : Z) (n : nat) :
  Py.round (inject_Z z / inject_Z (Py.pow10 n)) n == inject_Z z / inject_Z (Py.pow10 n).
Proof.
  unfold Py.round.
  pose proof (pow10_pos n) as Hp.
  rewrite (round_half_even_comp _ (inject_Z z)).
  - rewrite round_half_even_Z. reflexivity.
  - field. intro H0. rewrite H0 in Hp. apply (Qlt_irrefl _ Hp).
Qed.

(** Rounding to [n] decimals moves a value by at most half a unit of the
    last decimal. *)
Lemma round_near (x : Q) (n : nat) :
  x - (1 # 2) / inject_Z (Py.pow10 n) <= Py.round x n
  /\ Py.round x n <= x + (1 # 2) / inject_Z (Py.pow10 n).
Proof.
  unfold Py.round.
  pose proof (pow10_pos n) as Hp.
  destruct (round_half_even_near (x * inject_Z (Py.pow10 n))) as [Hlo Hhi].
  set (p := inject_Z (Py.pow10 n)) in *.
  set (r := inject_Z (Py.round_half_even (x * p))) in *.
  assert (Hinv : 0 < / p) by (apply Qinv_lt_0_compat; assumption).
  assert (Hpne : ~ p == 0) by (intro H0; rewrite H0 in Hp; apply (Qlt_irrefl _ Hp)).
  split.
  - setoid_replace (x - (1 # 2) / p) with ((x * p - (1 # 2)) * / p) by (field; assumption).
    apply Qmult_le_compat_r; [assumption | apply Qlt_le_weak; assumption].
  - setoid_replace (x + (1 # 2) / p) with ((x * p + (1 # 2)) * / p) by (field; assumption).
    apply Qmult_le_compat_r; [assumption | apply Qlt_le_weak; assumption].
Qed.

Lemma round2_near (x : Q) : x - (1 # 200) <= Py.round x 2 /\ Py.round x 2 <= x + (1 # 200).
Proof.
  destruct (round_near x 2) as [Hlo Hhi].
  assert (E : (1 # 2) / inject_Z (Py.pow10 2) == 1 # 200) by reflexivity.
  rewrite E in Hlo, Hhi. split; assumption.
Qed.

(** 50 has no decimals, so rounding cannot take a value below it. *)
Lemma round3_near (x : Q) :
  x - (1 # 2000) <= Py.round x 3 /\ Py.round x 3 <= x + (1 # 2000).
Proof.
  destruct (round_near x 3) as [Hlo Hhi].
  assert (E : (1 # 2) / inject_Z (Py.pow10 3) == 1 # 2000) by reflexivity.
  rewrite E in Hlo, Hhi. split; assumption.
Qed.

Lemma round2_ge_50 (x : Q) : 50 <= x -> 50 <= Py.round x 2.
Proof.
  intro H.
  assert (E : Py.round 50 2 == 50) by reflexivity.
  rewrite <- E. apply round_mono. assumption.
Qed.

(* ================================================================= *)
(** ** Risk scoring *)

Lemma Qmin_cases (a b : Q) : (a <= b /\ Qmin a b == a) \/ (b <= a /\ Qmin a b == b).
Proof. apply Q.min_spec_le. Qed.

(** C3. The overload component as a function of [peak_pct]: 0 up to 90;
    the line from 0.30 to 0.70 over (90, 100], hence 0.70 at 100; the line
    from 0.70 to 1.00 over (100, 120], hence 1.0 at 120; 1.0 above 120. *)
Theorem overload_score_piecewise (peak_pct : Q) :
  (peak_pct <= 90 -> RiskScorer._calculate_overload_score peak_pct == 0)
  /\ (90 < peak_pct -> peak_pct <= 100 ->
      RiskScorer._calculate_overload_score peak_pct
      == 0.30 + (peak_pct - 90) / (100 - 90) * (0.70 - 0.30))
  /\ (100 < peak_pct -> peak_pct <= 120 ->
      RiskScorer._calculate_overload_score peak_pct
      == 0.70 + (peak_pct - 100) / (120 - 100) * (1.00 - 0.70))
  /\ (120 < peak_pct -> RiskScorer._calculate_overload_score peak_pct == 1.0)
  /\ RiskScorer._calculate_overload_score 100 == 0.70
  /\ RiskScorer._calculate_overload_score 120 == 1.0.
Proof.
  unfold RiskScorer._calculate_overload_score.
  repeat split; try reflexivity; intros.
  - qcase (Qle_bool peak_pct 90); [lra | exfalso; lra].
  - qcase (Qle_bool peak_pct 90); [exfalso; lra|].
    qcase (Qle_bool peak_pct 100); [|exfalso; lra].
    field.
  - qcase (Qle_bool peak_pct 90); [exfalso; lra|].
    qcase (Qle_bool peak_pct 100); [exfalso; lra|].
    assert (E1 : 0.70 + (peak_pct - 100) / (120 - 100) * (1.00 - 0.70)
                 == 0.7 + (peak_pct - 100) * 0.015) by field.
    rewrite E1.
    destruct (Qmin_cases (0.7 + (peak_pct - 100) * 0.015) 1.0) as [[Hle ->]|[Hle ->]].
    + reflexivity.
    + lra.
  - qcase (Qle_bool peak_pct 90); [exfalso; lra|].
    qcase (Qle_bool peak_pct 100); [exfalso; lra|].
    destruct (Qmin_cases (0.7 + (peak_pct - 100) * 0.015) 1.0) as [[Hle ->]|[Hle ->]].
    + lra.
    + reflexivity.
Qed.

Lemma overload_score_piecewise_witness :
  90 < 95 /\ 95 <= 100
  /\ RiskScorer._calculate_overload_score 95
     == 0.30 + (95 - 90) / (100 - 90) * (0.70 - 0.30).
Proof.
  assert (H1 : 90 < 95) by (unfold Qlt; simpl; lia).
  assert (H2 : 95 <= 100) by (unfold Qle; simpl; lia).
  split; [exact H1 | split; [exact H2 |]].
  exact (proj1 (proj2 (overload_score_piecewise 95)) H1 H2).
Defined.

(** The overload component never decreases when the peak grows. *)
Lemma overload_score_mono (p q : Q) :
  p <= q -> RiskScorer._calculate_overload_score p <= RiskScorer._calculate_overload_score q.
Proof.
  intro Hpq. unfold RiskScorer._calculate_overload_score.
  qcase (Qle_bool p 90); qcase (Qle_bool q 90); try (exfalso; lra);
    qcase (Qle_bool p 100); qcase (Qle_bool q 100); try (exfalso; lra);
    try destruct (Qmin_cases (0.7 + (q - 100) * 0.015) 1.0) as [[Hq ->]|[Hq ->]];
    try destruct (Qmin_cases (0.7 + (p - 100) * 0.015) 1.0) as [[Hp ->]|[Hp ->]];
    lra.
Qed.

Instance overload_score_Proper : Proper (Qeq ==> Qeq) RiskScorer._calculate_overload_score.
Proof.
  intros p q H. apply Qle_antisym; apply overload_score_mono; rewrite H; apply Qle_refl.
Qed.

(** C7. An assessment saved without a level gets LOW exactly when its score
    is below 0.30, MEDIUM exactly when it is at least 0.30 and below 0.70,
    HIGH exactly when it is at least 0.70. *)
Theorem risk_level_step_function (a : RiskAssessment.t) :
  RiskAssessment.level_unset a = true ->
  let level := RiskAssessment.risk_level (RiskAssessment.save a) in
  let score := RiskAssessment.risk_score a in
  (level = Some "LOW"%string <-> score < 0.30)
  /\ (level = Some "MEDIUM"%string <-> 0.30 <= score /\ score < 0.70)
  /\ (level = Some "HIGH"%string <-> 0.70 <= score).
Proof.
  intros Hunset level score. subst level score.
  unfold RiskAssessment.save. rewrite Hunset.
  qcase (Py.Qlt_bool (RiskAssessment.risk_score a) 0.3);
    [| qcase (Py.Qlt_bool (RiskAssessment.risk_score a) 0.7)];
    cbn; repeat split; intros;
    repeat match goal with H : _ /\ _ |- _ => destruct H end;
    try discriminate; try reflexivity; try lra; exfalso; lra.
Qed.

Lemma risk_level_step_function_witness :
  RiskAssessment.level_unset (RiskAssessment.with_risk_level Example.assessment07 "") = true
  /\ RiskAssessment.risk_level
       (RiskAssessment.save (RiskAssessment.with_risk_level Example.assessment07 ""))
     = Some "MEDIUM"%string.
Proof.
  split; [reflexivity|].
  apply (proj2 (proj1 (proj2 (risk_level_step_function
           (RiskAssessment.with_risk_level Example.assessment07 "") eq_refl)))).
  split; [vm_compute; intro; discriminate | reflexivity].
Defined.

(** The piecewise-linear temperature map at its breakpoints. *)
Lemma temp_score_breakpoints :
  (forall T, T <= 25 -> RiskScorer.temp_score T == 0)
  /\ RiskScorer.temp_score 30 == 0.3
  /\ RiskScorer.temp_score 35 == 0.6
  /\ RiskScorer.temp_score 40 == 0.9
  /\ (forall T, 40 < T -> 0.9 < RiskScorer.temp_score T /\ RiskScorer.temp_score T <= 1)
  /\ (forall T, 45 <= T -> RiskScorer.temp_score T == 1).
Proof.
  assert (Hhot : forall T, 40 < T ->
            RiskScorer.temp_score T == Qmin (0.9 + (T - 40) * 0.02) 1.0).
  { intros T HT. unfold RiskScorer.temp_score.
    do 4 (match goal with |- context [Qle_bool T ?c] =>
            qcase (Qle_bool T c); [exfalso; lra|] end).
    reflexivity. }
  split; [|split; [|split; [|split; [|split]]]]; try reflexivity.
  - intros T HT. unfold RiskScorer.temp_score.
    qcase (Qle_bool T 25); [reflexivity | exfalso; lra].
  - intros T HT. rewrite (Hhot T HT).
    destruct (Qmin_cases (0.9 + (T - 40) * 0.02) 1.0) as [[Hle ->]|[Hle ->]]; split; lra.
  - intros T HT. rewrite (Hhot T) by lra.
    destruct (Qmin_cases (0.9 + (T - 40) * 0.02) 1.0) as [[Hle ->]|[Hle ->]]; lra.
Qed.

(** A unit without any temperature reading scores the fixed 0.20. *)
Lemma thermal_score_no_reading (db : DB.t) (fc : LoadForecast.t) (tr : Transformer.t) :
  RiskScorer.latest_temp db tr = None ->
  RiskScorer._calculate_thermal_score db fc tr == 0.20.
Proof.
  intro H. unfold RiskScorer._calculate_thermal_score. rewrite H. reflexivity.
Qed.

(** A unit whose latest temperature [T] is not 0 scores the temperature map
    times the age and cooling factors, clamped to 1. *)
Lemma thermal_score_with_reading (db : DB.t) (fc : LoadForecast.t) (tr : Transformer.t)
      (T : Q) :
  RiskScorer.latest_temp db tr = Some T ->
  ~ T == 0 ->
  RiskScorer._calculate_thermal_score db fc tr
  == Qmin (RiskScorer.temp_score T
           * RiskScorer.age_factor (DB.year db - Transformer.install_year tr)
           * RiskScorer.cooling_factor (Transformer.cooling_type tr))
          1.0.
Proof.
  intros H HT. unfold RiskScorer._calculate_thermal_score. rewrite H. cbn.
  apply Qeq_bool_false in HT. rewrite HT. reflexivity.
Qed.

(** C6, on the code as it is.  The latest reading of T-07 has temperature
    0.0: the thermal component should be the temperature map of 0 (which is
    0) times the factors, but the test [not latest_temp] takes the reading
    for a missing one and the component is the fixed 0.20. *)
Theorem thermal_score_zero_celsius_reading :
  RiskScorer.latest_temp Example.db_frost Example.T07 = Some 0.0
  /\ RiskScorer._calculate_thermal_score Example.db_frost Example.forecast07 Example.T07
     == 0.20
  /\ Qmin (RiskScorer.temp_score 0.0
           * RiskScorer.age_factor
               (DB.year Example.db_frost - Transformer.install_year Example.T07)
           * RiskScorer.cooling_factor (Transformer.cooling_type Example.T07))
          1.0
     == 0.
Proof.
  repeat split.
Qed.

(* ================================================================= *)
(** ** Ranking: the stable descending sort *)

Lemma In_firstn {A} (x : A) (n : nat) (l : list A) : In x (firstn n l) -> In x l.
Proof.
  revert n. induction l as [|y rest IH]; intros [|n] H; cbn in *; try contradiction.
  destruct H as [H|H]; [left; exact H | right; eapply IH; exact H].
Qed.

Section Ranking.

Context {A : Type}.
Variable key : A -> Q.

Local Abbreviation desc := (MitigationSimulator.desc key).
Local Abbreviation with_key := (MitigationSimulator.with_key key).

Lemma insert_desc_perm (x : A) (l : list A) :
  Permutation (MitigationSimulator.insert_desc key x l) (x :: l).
Proof.
  induction l as [|y rest IH]; cbn.
  - apply Permutation_refl.
  - destruct (Py.Qlt_bool (key x) (key y)).
    + apply perm_trans with (y :: x :: rest).
      * apply perm_skip. exact IH.
      * apply perm_swap.
    + apply Permutation_refl.
Qed.

Lemma sorted_reverse_perm (l : list A) :
  Permutation (MitigationSimulator.sorted_reverse key l) l.
Proof.
  induction l as [|x rest IH]; cbn.
  - apply perm_nil.
  - apply perm_trans with (x :: MitigationSimulator.sorted_reverse key rest).
    + apply insert_desc_perm.
    + apply perm_skip. exact IH.
Qed.

Lemma insert_desc_sorted (x : A) (l : list A) :
  StronglySorted desc l ->
  StronglySorted desc (MitigationSimulator.insert_desc key x l).
Proof.
  induction 1 as [|y rest Hs IH Hy]; cbn.
  - constructor; constructor.
  - qcase (Py.Qlt_bool (key x) (key y)).
    + constructor; [exact IH|].
      apply (Permutation_Forall (Permutation_sym (insert_desc_perm x rest))).
      constructor; [|exact Hy].
      unfold MitigationSimulator.desc. apply Qlt_le_weak. exact E.
    + constructor.
      * constructor; assumption.
      * constructor; [exact E|].
        eapply Forall_impl; [|exact Hy].
        intros z Hz. unfold MitigationSimulator.desc in *. eapply Qle_trans; eassumption.
Qed.

Lemma sorted_reverse_sorted (l : list A) :
  StronglySorted desc (MitigationSimulator.sorted_reverse key l).
Proof.
  induction l as [|x rest IH]; cbn.
  - constructor.
  - apply insert_desc_sorted. exact IH.
Qed.

(** Inserting [x] puts it in front of the elements that share its key and
    leaves the others where they were. *)
Lemma with_key_insert_desc (k : Q) (x : A) (l : list A) :
  with_key k (MitigationSimulator.insert_desc key x l) = with_key k (x :: l).
Proof.
  unfold MitigationSimulator.with_key.
  induction l as [|y rest IH]; cbn.
  - reflexivity.
  - qcase (Py.Qlt_bool (key x) (key y)); cbn.
    + rewrite IH. cbn.
      destruct (Qeq_bool (key x) k) eqn:Hx; [|reflexivity].
      destruct (Qeq_bool (key y) k) eqn:Hy; [|reflexivity].
      apply Qeq_bool_iff in Hx, Hy. exfalso.
      rewrite Hx, Hy in E. apply (Qlt_irrefl _ E).
    + reflexivity.
Qed.

(** Stability: for each key, the elements carrying it come out in the order
    they went in. *)
Lemma sorted_reverse_stable (k : Q) (l : list A) :
  with_key k (MitigationSimulator.sorted_reverse key l) = with_key k l.
Proof.
  induction l as [|x rest IH].
  - reflexivity.
  - change (MitigationSimulator.sorted_reverse key (x :: rest))
      with (MitigationSimulator.insert_desc key x
              (MitigationSimulator.sorted_reverse key rest)).
    rewrite with_key_insert_desc. unfold MitigationSimulator.with_key in *. cbn. rewrite IH. reflexivity.
Qed.

Lemma firstn_sorted (n : nat) (l : list A) :
  StronglySorted desc l -> StronglySorted desc (firstn n l).
Proof.
  intro Hs. revert n.
  induction Hs as [|x rest Hs IH Hx]; intros [|n]; cbn; try constructor.
  - apply IH.
  - rewrite Forall_forall in *. intros y Hy. apply Hx.
    eapply In_firstn. exact Hy.
Qed.

End Ranking.

(** A filtered prefix is a prefix of the filtered list. *)
Lemma filter_firstn_prefix {A} (f : A -> bool) (n : nat) (l : list A) :
  exists m, filter f (firstn n l) = firstn m (filter f l).
Proof.
  revert n. induction l as [|x rest IH]; intros [|n]; cbn.
  - exists 0%nat. reflexivity.
  - exists 0%nat. reflexivity.
  - exists 0%nat. reflexivity.
  - destruct (IH n) as [m Hm]. destruct (f x).
    + exists (S m). cbn. rewrite Hm. reflexivity.
    + exists m. exact Hm.
Qed.

(* ================================================================= *)
(** ** The mitigation simulator *)

Section Simulator.

Variable self : MitigationSimulator.t.
Variable db : DB.t.
Variable a : RiskAssessment.t.

Local Abbreviation tr := (RiskAssessment.transformer a).
Local Abbreviation fc := (RiskAssessment.forecast a).
Local Abbreviation viable :=
  (fun info => negb (MitigationSimulator.skipped self db a info)).

Lemma div_nonzero (x y : Q) : ~ y == 0 -> Py.div x y = Py.Ok (x / y).
Proof.
  intro H. unfold Py.div. apply Qeq_bool_false in H. rewrite H. reflexivity.
Qed.

Lemma div_zero (x y : Q) :
  y == 0 -> Py.div x y = Py.Raise (Py.ZeroDivisionError "float division by zero").
Proof.
  intro H. unfold Py.div. apply Qeq_bool_iff in H. rewrite H. reflexivity.
Qed.

Lemma candidate_skipped (info : MitigationSimulator.neighbor_info) :
  MitigationSimulator.skipped self db a info = true ->
  MitigationSimulator.candidate self db a info = Py.Ok None.
Proof.
  unfold MitigationSimulator.skipped, MitigationSimulator.candidate.
  intro H. apply orb_true_iff in H.
  destruct (Py.Qlt_bool _ 50) eqn:E1; [reflexivity|].
  destruct H as [H|H]; [discriminate|]. rewrite H. reflexivity.
Qed.

Lemma candidate_viable (info : MitigationSimulator.neighbor_info) :
  MitigationSimulator.skipped self db a info = false ->
  ~ Transformer.rated_kw tr == 0 ->
  MitigationSimulator.candidate self db a info
  = Py.Ok (Some (MitigationSimulator.plan_for self db a info)).
Proof.
  unfold MitigationSimulator.skipped, MitigationSimulator.candidate,
    MitigationSimulator.plan_for, MitigationSimulator._simulate_transfer,
    MitigationSimulator.new_peak_pct.
  intros H Hr. apply orb_false_iff in H. destruct H as [H1 H2].
  rewrite H1, H2. rewrite !(div_nonzero _ _ Hr). reflexivity.
Qed.

Lemma candidate_viable_zero (info : MitigationSimulator.neighbor_info) :
  MitigationSimulator.skipped self db a info = false ->
  Transformer.rated_kw tr == 0 ->
  MitigationSimulator.candidate self db a info
  = Py.Raise (Py.ZeroDivisionError "float division by zero").
Proof.
  unfold MitigationSimulator.skipped, MitigationSimulator.candidate,
    MitigationSimulator._simulate_transfer.
  intros H Hr. apply orb_false_iff in H. destruct H as [H1 H2].
  rewrite H1, H2. rewrite (div_zero _ _ Hr). reflexivity.
Qed.

(** With a rated capacity other than 0 the loop yields one plan for each
    neighbor it does not skip, in the order of the links. *)
Lemma candidate_plans_nonzero (neighbors : list MitigationSimulator.neighbor_info) :
  ~ Transformer.rated_kw tr == 0 ->
  MitigationSimulator.candidate_plans self db a neighbors
  = Py.Ok (map (MitigationSimulator.plan_for self db a) (filter viable neighbors)).
Proof.
  intro Hr. induction neighbors as [|info rest IH]; cbn.
  - reflexivity.
  - destruct (MitigationSimulator.skipped self db a info) eqn:E; cbn.
    + rewrite (candidate_skipped _ E). cbn. rewrite IH. reflexivity.
    + rewrite (candidate_viable _ E Hr). cbn. rewrite IH. reflexivity.
Qed.

Lemma candidate_plans_all_skipped (neighbors : list MitigationSimulator.neighbor_info) :
  filter viable neighbors = [] ->
  MitigationSimulator.candidate_plans self db a neighbors = Py.Ok [].
Proof.
  induction neighbors as [|info rest IH]; cbn; intro H.
  - reflexivity.
  - destruct (MitigationSimulator.skipped self db a info) eqn:E; cbn in H.
    + rewrite (candidate_skipped _ E). cbn. rewrite (IH H). reflexivity.
    + discriminate.
Qed.

Lemma candidate_plans_zero (neighbors : list MitigationSimulator.neighbor_info) :
  Transformer.rated_kw tr == 0 ->
  filter viable neighbors <> [] ->
  MitigationSimulator.candidate_plans self db a neighbors
  = Py.Raise (Py.ZeroDivisionError "float division by zero").
Proof.
  intro Hr. induction neighbors as [|info rest IH]; cbn; intro H.
  - contradiction.
  - destruct (MitigationSimulator.skipped self db a info) eqn:E; cbn in H.
    + rewrite (candidate_skipped _ E). cbn. rewrite (IH H). reflexivity.
    + rewrite (candidate_viable_zero _ E Hr). reflexivity.
Qed.

(** Whenever the loop ends without raising, its candidates are the plans of
    the neighbors it did not skip. *)
Lemma candidate_plans_ok (neighbors : list MitigationSimulator.neighbor_info)
      (cands : list MitigationPlan.t) :
  MitigationSimulator.candidate_plans self db a neighbors = Py.Ok cands ->
  cands = map (MitigationSimulator.plan_for self db a) (filter viable neighbors)
  /\ (cands <> [] -> ~ Transformer.rated_kw tr == 0).
Proof.
  intro H.
  destruct (Qeq_bool (Transformer.rated_kw tr) 0) eqn:Hr.
  - apply Qeq_bool_iff in Hr.
    destruct (filter viable neighbors) eqn:Hv.
    + rewrite (candidate_plans_all_skipped _ Hv) in H. inversion H.
      split; [reflexivity | intro Hne; contradiction].
    + rewrite (candidate_plans_zero neighbors Hr) in H; [discriminate|].
      rewrite Hv. discriminate.
  - apply Qeq_bool_false in Hr.
    rewrite (candidate_plans_nonzero _ Hr) in H. inversion H.
    split; [reflexivity | intros _; exact Hr].
Qed.

(** What a successful call of [generate_plans] went through. *)
Lemma generate_plans_ok (max_plans : nat) (plans : list MitigationPlan.t) :
  MitigationSimulator.generate_plans self db a max_plans = Py.Ok plans ->
  0 < MitigationSimulator._calculate_overload_kw a
  /\ ~ Transformer.rated_kw tr == 0
  /\ MitigationSimulator.candidate_plans self db a (MitigationSimulator._get_neighbors db tr)
     = Py.Ok (map (MitigationSimulator.plan_for self db a)
                  (filter viable (MitigationSimulator._get_neighbors db tr)))
  /\ plans = firstn max_plans
               (MitigationSimulator.sorted_reverse MitigationSimulator.sort_key
                  (map (MitigationSimulator.plan_for self db a)
                       (filter viable (MitigationSimulator._get_neighbors db tr)))).
Proof.
  unfold MitigationSimulator.generate_plans.
  qcase (Qle_bool (MitigationSimulator._calculate_overload_kw a) 0); [discriminate|].
  destruct (MitigationSimulator._get_neighbors db tr) as [|n ns] eqn:Hn; [discriminate|].
  destruct (MitigationSimulator.candidate_plans self db a (n :: ns)) as [cands|e] eqn:Hc;
    unfold Py.bind; [|discriminate].
  destruct (candidate_plans_ok _ _ Hc) as [Hcands Hrated].
  destruct cands as [|c cs]; [discriminate|].
  intro H. inversion H. subst plans.
  assert (Hr : ~ Transformer.rated_kw tr == 0) by (apply Hrated; discriminate).
  split; [exact E | split; [exact Hr | split]].
  - f_equal. exact Hcands.
  - rewrite <- Hcands. reflexivity.
Qed.

(** Every returned plan is the plan of a neighbor that was not skipped. *)
Lemma generate_plans_In (max_plans : nat) (plans : list MitigationPlan.t)
      (p : MitigationPlan.t) :
  MitigationSimulator.generate_plans self db a max_plans = Py.Ok plans ->
  In p plans ->
  exists info,
    In info (MitigationSimulator._get_neighbors db tr)
    /\ MitigationSimulator.skipped self db a info = false
    /\ p = MitigationSimulator.plan_for self db a info.
Proof.
  intros H Hin.
  destruct (generate_plans_ok _ _ H) as (_ & _ & _ & ->).
  apply In_firstn in Hin.
  apply (Permutation_in _ (sorted_reverse_perm _ _)) in Hin.
  apply in_map_iff in Hin. destruct Hin as (info & <- & Hinfo).
  apply filter_In in Hinfo. destruct Hinfo as [Hin Hv].
  exists info. repeat split; try assumption.
  apply negb_true_iff. exact Hv.
Qed.

(** What [generate_plans] returns is the head of the ranking of the
    candidates, and the ranking is their stable sort by decreasing key: a
    rearrangement of the candidates, in descending order, in which the
    candidates of one key stand in the order of the loop. *)
Lemma generate_plans_ranking (max_plans : nat) (plans : list MitigationPlan.t) :
  MitigationSimulator.generate_plans self db a max_plans = Py.Ok plans ->
  let candidates :=
    map (MitigationSimulator.plan_for self db a)
        (filter viable (MitigationSimulator._get_neighbors db tr)) in
  MitigationSimulator.candidate_plans self db a (MitigationSimulator._get_neighbors db tr)
  = Py.Ok candidates
  /\ exists ranked,
       Permutation ranked candidates
       /\ StronglySorted (MitigationSimulator.desc MitigationSimulator.sort_key) ranked
       /\ (forall k,
             MitigationSimulator.with_key MitigationSimulator.sort_key k ranked
             = MitigationSimulator.with_key MitigationSimulator.sort_key k candidates)
       /\ plans = firstn max_plans ranked.
Proof.
  intros H candidates.
  destruct (generate_plans_ok _ _ H) as (_ & _ & Hc & Hplans).
  split; [exact Hc|].
  exists (MitigationSimulator.sorted_reverse MitigationSimulator.sort_key candidates).
  split; [apply sorted_reverse_perm|].
  split; [apply sorted_reverse_sorted|].
  split; [intro k; apply sorted_reverse_stable | exact Hplans].
Qed.

End Simulator.

Lemma string_app_inv_head (s a b : string) : (s ++ a)%string = (s ++ b)%string -> a = b.
Proof.
  induction s as [|c s IH]; cbn; intro H.
  - exact H.
  - injection H as H. apply IH. exact H.
Qed.

(** The three errors of [generate_plans] carry different messages. *)
Lemma simulator_errors_distinct (name : string) :
  MitigationSimulator.NotOverloadedError name <> MitigationSimulator.NoNeighborsError name
  /\ MitigationSimulator.NotOverloadedError name <> MitigationSimulator.NoViablePlanError name
  /\ MitigationSimulator.NoNeighborsError name <> MitigationSimulator.NoViablePlanError name.
Proof.
  unfold MitigationSimulator.NotOverloadedError, MitigationSimulator.NoNeighborsError,
    MitigationSimulator.NoViablePlanError.
  repeat split; intro H; injection H as H.
  - apply string_app_inv_head in H. try apply string_app_inv_head in H. discriminate.
  - cbn in H. discriminate.
  - cbn in H. discriminate.
Qed.

Section SimulatorOutcomes.

Variable self : MitigationSimulator.t.
Variable db : DB.t.
Variable a : RiskAssessment.t.

Local Abbreviation tr := (RiskAssessment.transformer a).
Local Abbreviation viable :=
  (fun info => negb (MitigationSimulator.skipped self db a info)).

Lemma all_skipped_iff (neighbors : list MitigationSimulator.neighbor_info) :
  Forall (fun info => MitigationSimulator.skipped self db a info = true) neighbors
  <-> filter viable neighbors = [].
Proof.
  induction neighbors as [|info rest IH]; cbn.
  - split; [reflexivity | constructor].
  - destruct (MitigationSimulator.skipped self db a info) eqn:E; cbn.
    + rewrite <- IH. split; intro H.
      * inversion H. assumption.
      * constructor; assumption.
    + split; intro H; [|discriminate].
      inversion H. congruence.
Qed.

(** The outcome of [generate_plans], branch by branch. *)
Lemma generate_plans_cases (max_plans : nat) :
  let name := Transformer.name tr in
  let neighbors := MitigationSimulator._get_neighbors db tr in
  let candidates :=
    map (MitigationSimulator.plan_for self db a) (filter viable neighbors) in
  (MitigationSimulator._calculate_overload_kw a <= 0
   /\ MitigationSimulator.generate_plans self db a max_plans
      = Py.Raise (MitigationSimulator.NotOverloadedError name))
  \/ (0 < MitigationSimulator._calculate_overload_kw a
      /\ neighbors = []
      /\ MitigationSimulator.generate_plans self db a max_plans
         = Py.Raise (MitigationSimulator.NoNeighborsError name))
  \/ (0 < MitigationSimulator._calculate_overload_kw a
      /\ neighbors <> []
      /\ filter viable neighbors = []
      /\ MitigationSimulator.generate_plans self db a max_plans
         = Py.Raise (MitigationSimulator.NoViablePlanError name))
  \/ (0 < MitigationSimulator._calculate_overload_kw a
      /\ neighbors <> []
      /\ filter viable neighbors <> []
      /\ Transformer.rated_kw tr == 0
      /\ MitigationSimulator.generate_plans self db a max_plans
         = Py.Raise (Py.ZeroDivisionError "float division by zero"))
  \/ (0 < MitigationSimulator._calculate_overload_kw a
      /\ neighbors <> []
      /\ filter viable neighbors <> []
      /\ ~ Transformer.rated_kw tr == 0
      /\ MitigationSimulator.generate_plans self db a max_plans
         = Py.Ok (firstn max_plans
                    (MitigationSimulator.sorted_reverse MitigationSimulator.sort_key
                       candidates))).
Proof.
  intros name neighbors candidates. subst name neighbors candidates.
  unfold MitigationSimulator.generate_plans.
  qcase (Qle_bool (MitigationSimulator._calculate_overload_kw a) 0).
  { left. split; [assumption | reflexivity]. }
  right.
  destruct (MitigationSimulator._get_neighbors db tr) as [|n ns] eqn:Hn.
  { left. repeat split; assumption. }
  right.
  destruct (filter viable (n :: ns)) as [|v vs] eqn:Hv.
  { left. rewrite (candidate_plans_all_skipped self db a _ Hv).
    repeat split; try assumption; discriminate. }
  right.
  destruct (Qeq_bool (Transformer.rated_kw tr) 0) eqn:Hr.
  - left. apply Qeq_bool_iff in Hr.
    rewrite (candidate_plans_zero self db a (n :: ns) Hr) by (rewrite Hv; discriminate).
    repeat split; try assumption; discriminate.
  - right. apply Qeq_bool_false in Hr.
    rewrite (candidate_plans_nonzero self db a (n :: ns) Hr). rewrite Hv.
    repeat split; try assumption; discriminate.
Qed.

End SimulatorOutcomes.

Lemma Ok_inj {A} (x y : A) : Py.Ok x = Py.Ok y -> x = y.
Proof. intro H. injection H as H. exact H. Qed.

Lemma Raise_inj {A} (e1 e2 : Py.exn) : @Py.Raise A e1 = Py.Raise e2 -> e1 = e2.
Proof. intro H. injection H as H. exact H. Qed.

(** C5, as the code has it.  [generate_plans] raises the not-overloaded
    error exactly when [overload_kw = max(0, peak_kw - rated_kw *
    max_load_pct / 100)] is at most 0, before any other test; otherwise it
    raises the no-neighbors error exactly when the unit has no active
    outgoing link; otherwise it raises the no-viable-plan error exactly when
    every neighbor is skipped (available capacity below 50 kW, or transfer
    below 50 kW); otherwise, for a unit whose rated capacity is not 0, it
    returns the top [min(max_plans, number of neighbors not skipped)] plans:
    the first [max_plans] of the plans of the neighbors not skipped, taken
    in descending order of [risk_reduction]; this is at least one plan
    whenever [max_plans] is at least 1. *)
Theorem generate_plans_outcomes
        (self : MitigationSimulator.t) (db : DB.t) (a : RiskAssessment.t)
        (max_plans : nat) :
  let tr := RiskAssessment.transformer a in
  let name := Transformer.name tr in
  let overload_kw :=
    Qmax 0 (LoadForecast.peak_predicted_kw (RiskAssessment.forecast a)
            - Transformer.rated_kw tr * (inject_Z (Transformer.max_load_pct tr) / 100.0)) in
  let neighbors := MitigationSimulator._get_neighbors db tr in
  let all_skipped :=
    Forall (fun info => MitigationSimulator.skipped self db a info = true) neighbors in
  let not_skipped :=
    filter (fun info => negb (MitigationSimulator.skipped self db a info)) neighbors in
  let result := MitigationSimulator.generate_plans self db a max_plans in
  (result = Py.Raise (MitigationSimulator.NotOverloadedError name) <-> overload_kw <= 0)
  /\ (0 < overload_kw ->
      (result = Py.Raise (MitigationSimulator.NoNeighborsError name)
       <-> DB.outgoing_links db tr = []))
  /\ (0 < overload_kw -> DB.outgoing_links db tr <> [] ->
      (result = Py.Raise (MitigationSimulator.NoViablePlanError name) <-> all_skipped))
  /\ (0 < overload_kw -> DB.outgoing_links db tr <> [] -> ~ all_skipped ->
      ~ Transformer.rated_kw tr == 0 ->
      exists plans ranked,
        result = Py.Ok plans
        /\ Permutation ranked (map (MitigationSimulator.plan_for self db a) not_skipped)
        /\ StronglySorted (MitigationSimulator.desc MitigationSimulator.sort_key) ranked
        /\ (forall p, In p ranked ->
              PlanData.risk_reduction (MitigationPlan.plan_json p)
              = Some (Json.Num (MitigationSimulator.sort_key p)))
        /\ plans = firstn max_plans ranked
        /\ List.length plans = Nat.min max_plans (List.length not_skipped)
        /\ ((1 <= max_plans)%nat -> (1 <= List.length plans)%nat)).
Proof.
  intros tr name overload_kw neighbors all_skipped not_skipped result.
  change overload_kw with (MitigationSimulator._calculate_overload_kw a).
  clear overload_kw. subst result all_skipped not_skipped neighbors name tr.
  assert (Hnil : MitigationSimulator._get_neighbors db (RiskAssessment.transformer a) = []
                 <-> DB.outgoing_links db (RiskAssessment.transformer a) = []).
  { unfold MitigationSimulator._get_neighbors.
    destruct (DB.outgoing_links db (RiskAssessment.transformer a)); cbn;
      split; intro H; try reflexivity; discriminate. }
  assert (Hskip := all_skipped_iff self db a
                     (MitigationSimulator._get_neighbors db (RiskAssessment.transformer a))).
  destruct (simulator_errors_distinct (Transformer.name (RiskAssessment.transformer a)))
    as (D1 & D2 & D3).
  destruct (generate_plans_cases self db a max_plans)
    as [(Hov & Hres) | [(Hov & Hn & Hres) | [(Hov & Hn & Hv & Hres)
       | [(Hov & Hn & Hv & Hr & Hres) | (Hov & Hn & Hv & Hr & Hres)]]]];
    rewrite Hres.
  - (* not overloaded *)
    split; [split; [intros _; exact Hov | reflexivity]|].
    repeat split; intros; exfalso; lra.
  - (* no neighbors *)
    split; [split; [intro H; apply Raise_inj in H; symmetry in H; contradiction
                   | intro H; exfalso; lra]|].
    split; [intros _; split; [intros _; apply Hnil; exact Hn | reflexivity]|].
    split; intros; exfalso; apply Hnil in Hn; contradiction.
  - (* every neighbor skipped *)
    apply Hskip in Hv.
    split; [split; [intro H; apply Raise_inj in H; symmetry in H; contradiction
                   | intro H; exfalso; lra]|].
    split; [intros _; split; [intro H; apply Raise_inj in H; symmetry in H; contradiction
                             | intro H; apply Hnil in H; contradiction]|].
    split; [intros _ _; split; [intros _; exact Hv | reflexivity]|].
    intros; contradiction.
  - (* a viable neighbor, rated capacity 0 *)
    split; [split; [discriminate | intro H; exfalso; lra]|].
    split; [intros _; split; [discriminate | intro H; apply Hnil in H; contradiction]|].
    split; [intros _ _; split; [discriminate | intro H; apply Hskip in H; contradiction]|].
    intros; contradiction.
  - (* plans *)
    split; [split; [discriminate | intro H; exfalso; lra]|].
    split; [intros _; split; [discriminate | intro H; apply Hnil in H; contradiction]|].
    split; [intros _ _; split; [discriminate | intro H; apply Hskip in H; contradiction]|].
    intros _ _ _ _. eexists. eexists. split; [reflexivity|].
    split; [apply sorted_reverse_perm|].
    split; [apply sorted_reverse_sorted|].
    split.
    { intros p Hp. apply (Permutation_in _ (sorted_reverse_perm _ _)) in Hp.
      apply in_map_iff in Hp. destruct Hp as (info & <- & _). reflexivity. }
    split; [reflexivity|].
    rewrite length_firstn.
    rewrite (Permutation_length (sorted_reverse_perm _ _)), length_map.
    split; [reflexivity|].
    intro Hmax.
    destruct (filter (fun info => negb (MitigationSimulator.skipped self db a info))
                     (MitigationSimulator._get_neighbors db (RiskAssessment.transformer a)));
      [contradiction | cbn; lia].
Qed.

Lemma generate_plans_outcomes_witness :
  0 < MitigationSimulator._calculate_overload_kw Example.assessment07
  /\ DB.outgoing_links Example.db_three Example.T07 <> []
  /\ ~ Transformer.rated_kw Example.T07 == 0
  /\ exists plans,
       MitigationSimulator.generate_plans MitigationSimulator.default Example.db_three
         Example.assessment07 2 = Py.Ok plans
       /\ List.length plans = 2%nat.
Proof.
  assert (H1 : 0 < MitigationSimulator._calculate_overload_kw Example.assessment07)
    by reflexivity.
  assert (H2 : DB.outgoing_links Example.db_three Example.T07 <> [])
    by (vm_compute; discriminate).
  assert (H3 : ~ Forall (fun info =>
                  MitigationSimulator.skipped MitigationSimulator.default Example.db_three
                    Example.assessment07 info = true)
                 (MitigationSimulator._get_neighbors Example.db_three Example.T07)).
  { intro H. rewrite Forall_forall in H.
    specialize (H Example.neighbor11 (or_introl eq_refl)).
    vm_compute in H. discriminate. }
  assert (H4 : ~ Transformer.rated_kw Example.T07 == 0)
    by (vm_compute; discriminate).
  split; [exact H1 | split; [exact H2 | split; [exact H4|]]].
  destruct (proj2 (proj2 (proj2
              (generate_plans_outcomes MitigationSimulator.default Example.db_three
                 Example.assessment07 2))) H1 H2 H3 H4)
    as (plans & ranked & Hres & _ & _ & _ & _ & Hlen & _).
  exists plans. split; [exact Hres|].
  rewrite Hlen. vm_compute. reflexivity.
Defined.

(** C5 as stated fails: T-07 is overloaded, has an active link to T-09 and
    T-09 is not skipped, yet with [max_plans = 0] the call returns the empty
    list instead of at least one plan. *)
Lemma generate_plans_may_return_no_plan :
  0 < MitigationSimulator._calculate_overload_kw Example.assessment07
  /\ DB.outgoing_links Example.db Example.T07 <> []
  /\ ~ Forall (fun info =>
                 MitigationSimulator.skipped MitigationSimulator.default Example.db
                   Example.assessment07 info = true)
              (MitigationSimulator._get_neighbors Example.db Example.T07)
  /\ MitigationSimulator.generate_plans MitigationSimulator.default Example.db
       Example.assessment07 0 = Py.Ok [].
Proof.
  split; [reflexivity|].
  split; [vm_compute; discriminate|].
  split.
  { intro H. rewrite Forall_forall in H.
    specialize (H Example.neighbor09 (or_introl eq_refl)).
    vm_compute in H. discriminate. }
  vm_compute. reflexivity.
Qed.

(** C1, as the code has it.  Every returned plan belongs to a neighbor of
    the unit; the amount it transfers, kept unrounded in
    [expected_load_reduction_kw], is the minimum of the overload, the link
    capacity, the neighbor's available capacity times the safety margin and
    the source peak times the transfer share, and is at least 50 kW; the
    [transfer_kw] recorded in [plan_json] is that amount rounded to two
    decimals, hence at least 50 kW and at most 0.005 kW above the minimum. *)
Theorem recorded_transfer_kw_bounds
        (self : MitigationSimulator.t) (db : DB.t) (a : RiskAssessment.t)
        (max_plans : nat) (plans : list MitigationPlan.t) (p : MitigationPlan.t) :
  MitigationSimulator.generate_plans self db a max_plans = Py.Ok plans ->
  In p plans ->
  exists info,
    let tr := RiskAssessment.transformer a in
    let neighbor := MitigationSimulator.transformer info in
    let peak_kw := LoadForecast.peak_predicted_kw (RiskAssessment.forecast a) in
    let overload_kw :=
      Qmax 0 (peak_kw - Transformer.rated_kw tr
                        * (inject_Z (Transformer.max_load_pct tr) / 100.0)) in
    let available_capacity :=
      Qmax 0 (MitigationSimulator.safe_capacity neighbor
              - MitigationSimulator.current_load_kw db neighbor) in
    let limit :=
      Py.min4 overload_kw
              (TopologyLink.max_transfer_kw (MitigationSimulator.link info))
              (available_capacity * MitigationSimulator.safety_margin self)
              (peak_kw * MitigationSimulator.max_transfer_pct self) in
    In info (MitigationSimulator._get_neighbors db tr)
    /\ PlanData.to_transformer (MitigationPlan.plan_json p)
       = Some (Transformer.id neighbor)
    /\ MitigationPlan.expected_load_reduction_kw p == limit
    /\ 50 <= limit
    /\ exists recorded,
         PlanData.transfer_kw (MitigationPlan.plan_json p) = Some (Json.Num recorded)
         /\ recorded == Py.round limit 2
         /\ 50 <= recorded
         /\ recorded <= limit + 0.005.
Proof.
  intros Hres Hin.
  destruct (generate_plans_In self db a max_plans plans p Hres Hin)
    as (info & Hinfo & Hskip & ->).
  exists info. cbv zeta.
  unfold MitigationSimulator.skipped in Hskip.
  apply orb_false_iff in Hskip. destruct Hskip as [_ Htransfer].
  apply Qlt_bool_false in Htransfer.
  split; [exact Hinfo|].
  split; [reflexivity|].
  split; [reflexivity|].
  split; [exact Htransfer|].
  eexists. split; [reflexivity|].
  split; [reflexivity|].
  split.
  - apply round2_ge_50. exact Htransfer.
  - eapply Qle_trans; [apply round2_near|].
    apply Qplus_le_r. unfold Qle; simpl; lia.
Qed.

Lemma recorded_transfer_kw_bounds_witness :
  exists p info,
    MitigationSimulator.generate_plans MitigationSimulator.default Example.db
      Example.assessment07 3 = Py.Ok [p]
    /\ In p [p]
    /\ In info (MitigationSimulator._get_neighbors Example.db Example.T07)
    /\ 50 <= MitigationPlan.expected_load_reduction_kw p.
Proof.
  set (p := MitigationSimulator.plan_for MitigationSimulator.default Example.db
              Example.assessment07
              Example.neighbor09).
  assert (Hres : MitigationSimulator.generate_plans MitigationSimulator.default Example.db
                   Example.assessment07 3 = Py.Ok [p]) by (vm_compute; reflexivity).
  assert (Hin : In p [p]) by (left; reflexivity).
  destruct (recorded_transfer_kw_bounds _ _ _ _ _ _ Hres Hin)
    as (info & Hinfo & _ & Heq & Hge & _).
  exists p, info.
  split; [exact Hres | split; [exact Hin | split; [exact Hinfo|]]].
  rewrite Heq. exact Hge.
Defined.

(** C1 as stated fails.  For T-07 (499.99 kVA, safe limit 90%) with a peak
    of 455 kW the overload is 50.0081 kW, the smallest of the four limits;
    the plan records [transfer_kw = 50.01], above that minimum. *)
Lemma recorded_transfer_kw_exceeds_min :
  let p := MitigationSimulator.plan_for MitigationSimulator.default Example.db
             Example.assessment07 Example.neighbor09 in
  let limit :=
    Py.min4
      (Qmax 0 (455 - Transformer.rated_kw Example.T07 * (inject_Z 90 / 100.0)))
      (TopologyLink.max_transfer_kw Example.tie)
      (Qmax 0 (MitigationSimulator.safe_capacity Example.T09
               - MitigationSimulator.current_load_kw Example.db Example.T09) * 0.8)
      (455 * 0.3) in
  MitigationSimulator.generate_plans MitigationSimulator.default Example.db
    Example.assessment07 3 = Py.Ok [p]
  /\ PlanData.transfer_kw (MitigationPlan.plan_json p) = Some (Json.Num 50.01)
  /\ limit == 50.0081
  /\ ~ 50.01 <= limit.
Proof.
  cbv zeta.
  split; [vm_compute; reflexivity|].
  split; [vm_compute; reflexivity|].
  split; [vm_compute; reflexivity|].
  intro H. vm_compute in H. apply H. reflexivity.
Qed.

(** C4. When [generate_plans] succeeds, the returned list is the first
    [max_plans] plans of the ranking of the candidates of the loop over the
    links, and the ranking is the stable sort of the candidates by
    decreasing [risk_reduction]: it holds the same plans as the list of
    candidates, it is in descending order of [risk_reduction], and the
    candidates of one [risk_reduction] stand in it in the order of the
    links.  So the returned list is in descending order, holds
    [min(max_plans, number of candidates)] plans, at most [max_plans], and
    for each value of [risk_reduction] its plans are the first candidates
    of that value, in the order of the links. *)
Theorem generate_plans_ranked
        (self : MitigationSimulator.t) (db : DB.t) (a : RiskAssessment.t)
        (max_plans : nat) (plans : list MitigationPlan.t) :
  MitigationSimulator.generate_plans self db a max_plans = Py.Ok plans ->
  exists candidates ranked,
    MitigationSimulator.candidate_plans self db a
      (MitigationSimulator._get_neighbors db (RiskAssessment.transformer a))
    = Py.Ok candidates
    /\ Permutation ranked candidates
    /\ StronglySorted (MitigationSimulator.desc MitigationSimulator.sort_key) ranked
    /\ (forall k,
          MitigationSimulator.with_key MitigationSimulator.sort_key k ranked
          = MitigationSimulator.with_key MitigationSimulator.sort_key k candidates)
    /\ plans = firstn max_plans ranked
    /\ StronglySorted (MitigationSimulator.desc MitigationSimulator.sort_key) plans
    /\ List.length plans = Nat.min max_plans (List.length candidates)
    /\ (List.length plans <= max_plans)%nat
    /\ (forall p, In p plans ->
          In p candidates
          /\ PlanData.risk_reduction (MitigationPlan.plan_json p)
             = Some (Json.Num (MitigationSimulator.sort_key p)))
    /\ (forall k, exists m,
          MitigationSimulator.with_key MitigationSimulator.sort_key k plans
          = firstn m (MitigationSimulator.with_key MitigationSimulator.sort_key k
                        candidates)).
Proof.
  intro Hres.
  destruct (generate_plans_ranking self db a max_plans plans Hres)
    as (Hc & ranked & Hperm & Hsorted & Hstable & ->).
  eexists. exists ranked. split; [exact Hc|].
  split; [exact Hperm|]. split; [exact Hsorted|]. split; [exact Hstable|].
  split; [reflexivity|].
  split; [apply firstn_sorted; exact Hsorted|].
  split; [rewrite length_firstn, (Permutation_length Hperm); reflexivity|].
  split; [apply firstn_le_length|].
  split.
  - intros p Hp. apply In_firstn in Hp.
    apply (Permutation_in _ Hperm) in Hp.
    split; [exact Hp|].
    apply in_map_iff in Hp. destruct Hp as (info & <- & _). reflexivity.
  - intro k. unfold MitigationSimulator.with_key at 1.
    destruct (filter_firstn_prefix
                (fun x => Qeq_bool (MitigationSimulator.sort_key x) k) max_plans ranked)
      as [m Hm].
    exists m. rewrite Hm. f_equal. apply Hstable.
Qed.

(** T-07 with its links to T-11, T-09 and T-13: the plans over the first
    and the last link transfer 50.005 kW and have the same
    [risk_reduction], the plan over the second transfers the whole overload
    and has a larger one.  Asked for two plans, [generate_plans] returns the
    plan of T-09 and then the plan of T-11: the larger reduction first, the
    earlier link of the two equal ones next, and the third plan cut off. *)
Lemma generate_plans_ranked_witness :
  let p11 := MitigationSimulator.plan_for MitigationSimulator.default Example.db_three
               Example.assessment07 Example.neighbor11 in
  let p09 := MitigationSimulator.plan_for MitigationSimulator.default Example.db_three
               Example.assessment07 Example.neighbor09 in
  let p13 := MitigationSimulator.plan_for MitigationSimulator.default Example.db_three
               Example.assessment07 Example.neighbor13 in
  MitigationSimulator.generate_plans MitigationSimulator.default Example.db_three
    Example.assessment07 2 = Py.Ok [p09; p11]
  /\ MitigationSimulator.candidate_plans MitigationSimulator.default Example.db_three
       Example.assessment07
       (MitigationSimulator._get_neighbors Example.db_three Example.T07)
     = Py.Ok [p11; p09; p13]
  /\ MitigationSimulator.sort_key p11 == MitigationSimulator.sort_key p13
  /\ MitigationSimulator.sort_key p11 < MitigationSimulator.sort_key p09
  /\ exists ranked,
       Permutation ranked [p11; p09; p13]
       /\ [p09; p11] = firstn 2 ranked
       /\ MitigationSimulator.with_key MitigationSimulator.sort_key
            (MitigationSimulator.sort_key p11) ranked
          = [p11; p13].
Proof.
  intros p11 p09 p13.
  assert (Hres : MitigationSimulator.generate_plans MitigationSimulator.default
                   Example.db_three Example.assessment07 2 = Py.Ok [p09; p11])
    by (vm_compute; reflexivity).
  assert (Hcands : MitigationSimulator.candidate_plans MitigationSimulator.default
                     Example.db_three Example.assessment07
                     (MitigationSimulator._get_neighbors Example.db_three Example.T07)
                   = Py.Ok [p11; p09; p13])
    by (vm_compute; reflexivity).
  split; [exact Hres|]. split; [exact Hcands|].
  split; [vm_compute; reflexivity|]. split; [vm_compute; reflexivity|].
  destruct (generate_plans_ranked _ _ _ _ _ Hres)
    as (candidates & ranked & Hc & Hperm & _ & Hstable & Hcut & _).
  assert (E : Py.Ok candidates = Py.Ok [p11; p09; p13])
    by (rewrite <- Hc; exact Hcands).
  apply Ok_inj in E. subst candidates.
  exists ranked. split; [exact Hperm|]. split; [exact Hcut|].
  rewrite Hstable. vm_compute. reflexivity.
Defined.

(** The simulated score is the rounded weighted sum in which only the
    overload component is recomputed, on the reduced peak. *)
Lemma plan_for_risk_after (self : MitigationSimulator.t) (db : DB.t)
      (a : RiskAssessment.t) (info : MitigationSimulator.neighbor_info) :
  let p := MitigationSimulator.plan_for self db a info in
  let tr := RiskAssessment.transformer a in
  let fc := RiskAssessment.forecast a in
  MitigationPlan.expected_risk_after p
  = Py.round
      (RiskScorer.weighted
         (RiskScorer._calculate_overload_score
            (MitigationSimulator.new_peak_pct tr fc
               (MitigationPlan.expected_load_reduction_kw p)))
         (RiskScorer._calculate_thermal_score db fc tr)
         (RiskScorer._calculate_cascading_score db tr)) 3.
Proof. reflexivity. Qed.

(** C10, as the code has it.  Take a plan returned by [generate_plans] for
    an assessment whose [risk_score] is the score of the state the
    simulation reads, rounded to three decimals (a multiple of 0.001 within
    0.0005 of that score: either neighbor when the score lies exactly
    between two), and suppose that the percentage of the reduced peak,
    [(peak_kw - transfer_kw) / rated_kw * 100], is below the
    [peak_predicted_pct] the assessment was scored from.  The score before
    and the score after are rounded separately, so that [risk_after] can
    stand one step above [risk_before], and no more: [risk_after] is at most
    [risk_before + 0.001], and [risk_reduction], their difference, is
    -0.001 or not negative. *)
Theorem risk_after_le_risk_before
        (self : MitigationSimulator.t) (db : DB.t) (a : RiskAssessment.t)
        (max_plans : nat) (plans : list MitigationPlan.t) (p : MitigationPlan.t) :
  let tr := RiskAssessment.transformer a in
  let fc := RiskAssessment.forecast a in
  let reduced_pct :=
    MitigationSimulator.new_peak_pct tr fc (MitigationPlan.expected_load_reduction_kw p) in
  MitigationSimulator.generate_plans self db a max_plans = Py.Ok plans ->
  In p plans ->
  (exists thousandths : Z, RiskAssessment.risk_score a == inject_Z thousandths / 1000) ->
  Qabs (RiskAssessment.risk_score a - RiskScorer.total_score db tr fc) <= 0.0005 ->
  reduced_pct < LoadForecast.peak_predicted_pct fc ->
  exists risk_before risk_after risk_reduction,
    PlanData.risk_before (MitigationPlan.plan_json p) = Some (Json.Num risk_before)
    /\ PlanData.risk_after (MitigationPlan.plan_json p) = Some (Json.Num risk_after)
    /\ PlanData.risk_reduction (MitigationPlan.plan_json p) = Some (Json.Num risk_reduction)
    /\ risk_before == RiskAssessment.risk_score a
    /\ risk_after == MitigationPlan.expected_risk_after p
    /\ risk_reduction == risk_before - risk_after
    /\ risk_after <= risk_before + 0.001
    /\ -0.001 <= risk_reduction
    /\ (risk_reduction == -0.001 \/ 0 <= risk_reduction).
Proof.
  intros tr fc reduced_pct Hres Hin [k Hgrid] Hscored Hreduced.
  apply Qlt_le_weak in Hreduced.
  destruct (generate_plans_In self db a max_plans plans p Hres Hin)
    as (info & _ & _ & Hp).
  apply Qabs_Qle_condition in Hscored. destruct Hscored as [Hs1 Hs2].
  set (after := MitigationPlan.expected_risk_after p) in *.
  set (total_after :=
         RiskScorer.weighted
           (RiskScorer._calculate_overload_score reduced_pct)
           (RiskScorer._calculate_thermal_score db fc tr)
           (RiskScorer._calculate_cascading_score db tr)).
  assert (Hafter : after = Py.round total_after 3).
  { unfold after, total_after, reduced_pct. rewrite Hp at 1.
    rewrite plan_for_risk_after. cbv zeta. rewrite <- Hp. reflexivity. }
  assert (Htotal : total_after
                   == RiskScorer.total_score db tr fc
                      - 0.6 * (RiskScorer._calculate_overload_score
                                 (LoadForecast.peak_predicted_pct fc)
                               - RiskScorer._calculate_overload_score reduced_pct)).
  { unfold total_after, RiskScorer.total_score, RiskScorer.weighted,
      RiskScorer.OVERLOAD_WEIGHT, RiskScorer.THERMAL_WEIGHT, RiskScorer.CASCADING_WEIGHT.
    ring. }
  pose proof (overload_score_mono _ _ Hreduced) as Hmono.
  destruct (round3_near total_after) as [Hn1 Hn2]. rewrite <- Hafter in Hn1, Hn2.
  (* the difference of the two recorded scores, a multiple of 0.001 *)
  assert (Hdiff : exists m : Z,
             RiskAssessment.risk_score a - after == inject_Z m / 1000).
  { exists (k - Py.round_half_even (total_after * inject_Z (Py.pow10 3)))%Z.
    rewrite Hgrid, Hafter. unfold Py.round.
    change (inject_Z (Py.pow10 3)) with 1000.
    unfold Zminus. rewrite inject_Z_plus, inject_Z_opp. field. }
  destruct Hdiff as [m Hm].
  assert (Hround : Py.round (RiskAssessment.risk_score a - after) 3
                   == RiskAssessment.risk_score a - after).
  { rewrite Hm. change 1000 with (inject_Z (Py.pow10 3)). apply round_on_grid. }
  subst p.
  exists (RiskAssessment.risk_score a), after,
    (Py.round (RiskAssessment.risk_score a - after) 3).
  split; [reflexivity|]. split; [reflexivity|]. split; [reflexivity|].
  split; [reflexivity|]. split; [reflexivity|]. split; [exact Hround|].
  split; [lra|]. split; [rewrite Hround; lra|].
  rewrite Hround, Hm.
  assert (Hm1 : -0.001 <= inject_Z m / 1000) by (rewrite <- Hm; lra).
  change (inject_Z m / 1000) with (inject_Z m * (1 # 1000)) in *.
  destruct (Z_le_gt_dec 0 m) as [Hpos | Hneg].
  - right. assert (H0 : inject_Z 0 <= inject_Z m) by (rewrite <- Zle_Qle; exact Hpos).
    change (inject_Z 0) with 0 in H0.
    set (x := inject_Z m) in *. lra.
  - left. assert (Hge : (-1 <= m)%Z).
    { rewrite Zle_Qle. change (inject_Z (-1)) with (-1).
      set (x := inject_Z m) in *. lra. }
    assert (m = (-1)%Z) as -> by lia. reflexivity.
Qed.

Lemma risk_after_le_risk_before_witness :
  exists p risk_before risk_after,
    MitigationSimulator.generate_plans MitigationSimulator.default Example.db
      Example.assessment07 3 = Py.Ok [p]
    /\ In p [p]
    /\ RiskAssessment.risk_score Example.assessment07 == inject_Z 470 / 1000
    /\ Qabs (RiskAssessment.risk_score Example.assessment07
             - RiskScorer.total_score Example.db Example.T07 Example.forecast07)
       <= 0.0005
    /\ MitigationSimulator.new_peak_pct Example.T07 Example.forecast07
         (MitigationPlan.expected_load_reduction_kw p)
       < LoadForecast.peak_predicted_pct Example.forecast07
    /\ PlanData.risk_before (MitigationPlan.plan_json p) = Some (Json.Num risk_before)
    /\ PlanData.risk_after (MitigationPlan.plan_json p) = Some (Json.Num risk_after)
    /\ risk_after <= risk_before + 0.001.
Proof.
  set (p := MitigationSimulator.plan_for MitigationSimulator.default Example.db
              Example.assessment07
              Example.neighbor09).
  assert (Hres : MitigationSimulator.generate_plans MitigationSimulator.default Example.db
                   Example.assessment07 3 = Py.Ok [p]) by (vm_compute; reflexivity).
  assert (Hin : In p [p]) by (left; reflexivity).
  assert (Hgrid : RiskAssessment.risk_score Example.assessment07 == inject_Z 470 / 1000)
    by (vm_compute; reflexivity).
  assert (Hscored : Qabs (RiskAssessment.risk_score Example.assessment07
                          - RiskScorer.total_score Example.db Example.T07
                              Example.forecast07)
                    <= 0.0005)
    by (vm_compute; intro; discriminate).
  assert (Hreduced : MitigationSimulator.new_peak_pct Example.T07 Example.forecast07
                       (MitigationPlan.expected_load_reduction_kw p)
                     < LoadForecast.peak_predicted_pct Example.forecast07)
    by (vm_compute; reflexivity).
  destruct (risk_after_le_risk_before _ _ _ _ _ _ Hres Hin
              (ex_intro _ 470%Z Hgrid) Hscored Hreduced)
    as (rb & ra & rr & Hb & Ha & _ & _ & _ & _ & Hle & _).
  exists p, rb, ra.
  repeat (split; [assumption|]). exact Hle.
Defined.

(** C10 as stated fails.  T-20 is scored from the state the simulation
    reads, and its forecast records the peak as the forecaster does (18 000
    720 kW, and 100.00% for 100.004%).  The only plan moves 50 kW; the
    reduced peak is 100.0037% of the rating, above the recorded 100.00%, so
    the recomputed overload component is larger and the plan has
    [risk_after = 0.433] above [risk_before = 0.432], with
    [risk_reduction = -0.001]. *)
Lemma risk_after_may_exceed_risk_before :
  let p := MitigationSimulator.plan_for MitigationSimulator.default Example.db_large
             Example.assessment20 Example.neighbor09_of_20 in
  RiskScorer.score_transformer Example.db_large Example.T20 Example.forecast20
  = Py.Ok (DB.save_assessment Example.db_large Example.assessment20, Example.assessment20)
  /\ LoadForecast.peak_predicted_pct Example.forecast20
     == Py.round (LoadForecast.peak_predicted_kw Example.forecast20
                  / Transformer.rated_kw Example.T20 * 100) 2
  /\ MitigationSimulator.generate_plans MitigationSimulator.default Example.db_large
       Example.assessment20 3 = Py.Ok [p]
  /\ PlanData.risk_before (MitigationPlan.plan_json p) = Some (Json.Num 0.432)
  /\ PlanData.risk_after (MitigationPlan.plan_json p) = Some (Json.Num 0.433)
  /\ PlanData.risk_reduction (MitigationPlan.plan_json p) = Some (Json.Num (-0.001))
  /\ ~ 0.433 <= 0.432.
Proof.
  cbv zeta.
  split; [vm_compute; reflexivity|].
  split; [vm_compute; reflexivity|].
  split; [vm_compute; reflexivity|].
  split; [vm_compute; reflexivity|].
  split; [vm_compute; reflexivity|].
  split; [vm_compute; reflexivity|].
  intro H. vm_compute in H. apply H. reflexivity.
Qed.

(** The premise of C10 on the forecast holds for what the forecaster
    produces: when [peak_predicted_kw] and [peak_predicted_pct] are the
    two-decimal roundings of one peak and of its percentage of a rated
    capacity below 999900 kW, every transfer of at least 50 kW leaves a
    percentage that is below [peak_predicted_pct]. *)
Lemma reduced_peak_of_forecaster_rounding
      (tr : Transformer.t) (fc : LoadForecast.t) (peak_kw transfer_kw : Q) :
  0 < Transformer.rated_kw tr ->
  Transformer.rated_kw tr < 999900 ->
  LoadForecast.peak_predicted_kw fc == Py.round peak_kw 2 ->
  LoadForecast.peak_predicted_pct fc
  == Py.round (peak_kw / Transformer.rated_kw tr * 100) 2 ->
  50 <= transfer_kw ->
  MitigationSimulator.new_peak_pct tr fc transfer_kw
  < LoadForecast.peak_predicted_pct fc.
Proof.
  intros Hpos Hmax Hkw Hpct Htransfer.
  unfold MitigationSimulator.new_peak_pct. rewrite Hkw, Hpct.
  set (r := Transformer.rated_kw tr) in *.
  destruct (round2_near peak_kw) as [_ Hup].
  destruct (round2_near (peak_kw / r * 100)) as [Hlo _].
  eapply Qlt_le_trans; [|exact Hlo].
  assert (Hr : ~ r == 0) by (intro H0; rewrite H0 in Hpos; apply (Qlt_irrefl _ Hpos)).
  set (X := peak_kw - Py.round peak_kw 2 + transfer_kw).
  assert (HX : 49.995 <= X) by (unfold X; lra).
  assert (Hgap : (1 # 200) < X * 100 / r).
  { apply Qlt_shift_div_l; [exact Hpos|]. lra. }
  setoid_replace ((Py.round peak_kw 2 - transfer_kw) / r * 100)
    with (peak_kw / r * 100 - X * 100 / r) by (unfold X; field; exact Hr).
  lra.
Qed.

(* ================================================================= *)
(** ** The forecaster *)

Section Forecaster.

Variable np_sqrt : Q -> Q.

Lemma fold_step_predictions (tr : Transformer.t) (hist : list TransformerLoad.t)
      (now : datetime) (offsets : list Z) (acc0 : LoadForecaster.acc) :
  LoadForecaster.predictions
    (fold_left (LoadForecaster.step np_sqrt tr hist now) offsets acc0)
  = LoadForecaster.predictions acc0
    ++ map (fun k => LoadForecaster.prediction_at np_sqrt tr hist (now + Time.hours k)%Z)
           offsets.
Proof.
  revert acc0. induction offsets as [|k rest IH]; intro acc0; cbn [fold_left map].
  - rewrite app_nil_r. reflexivity.
  - rewrite IH.
    assert (E : LoadForecaster.predictions
                  (LoadForecaster.step np_sqrt tr hist now acc0 k)
                = LoadForecaster.predictions acc0
                  ++ [LoadForecaster.prediction_at np_sqrt tr hist (now + Time.hours k)%Z]).
    { unfold LoadForecaster.step. destruct (Py.Qlt_bool _ _); reflexivity. }
    rewrite E, <- app_assoc. reflexivity.
Qed.

(** The predictions of a forecast are the entries [prediction_at] gives for
    the hours [now], [now + 1h], ..., one for each hour of the horizon. *)
Lemma forecast_predictions (self : LoadForecaster.t) (db : DB.t) (tr : Transformer.t)
      (hours_ahead : nat) (f : LoadForecast.t) :
  LoadForecaster.forecast np_sqrt self db tr hours_ahead = Py.Ok f ->
  LoadForecast.predictions f
  = map (fun k => LoadForecaster.prediction_at np_sqrt tr
                    (LoadForecaster.historical_data self db tr)
                    (DB.now db + Time.hours k)%Z)
        (range hours_ahead).
Proof.
  unfold LoadForecaster.forecast.
  destruct (List.length (LoadForecaster.historical_data self db tr) <? 24)%nat;
    [discriminate|].
  intro H. injection H as <-. cbn [LoadForecast.predictions].
  rewrite fold_step_predictions. reflexivity.
Qed.

(** The recorded weekend value stays within 0.00925 kW of 0.85 times the
    recorded weekday value: 0.005 for its own rounding and 0.85 times 0.005
    for the rounding of the weekday value. *)
Lemma recorded_weekend_prediction_near
      (tr : Transformer.t) (historical_data : list TransformerLoad.t)
      (weekend weekday : datetime) :
  Time.hour weekend = Time.hour weekday ->
  Time.weekday weekend = 5%Z \/ Time.weekday weekend = 6%Z ->
  (0 <= Time.weekday weekday <= 4)%Z ->
  Qabs (Prediction.predicted_kw
          (LoadForecaster.prediction_at np_sqrt tr historical_data weekend)
        - 0.85 * Prediction.predicted_kw
                   (LoadForecaster.prediction_at np_sqrt tr historical_data weekday))
  <= 0.00925.
Proof.
  intros Hhour Hwe Hwd.
  unfold LoadForecaster.prediction_at. cbn [Prediction.predicted_kw].
  assert (Hkw : LoadForecaster.predicted_kw_at tr historical_data weekend
                == 0.85 * LoadForecaster.predicted_kw_at tr historical_data weekday).
  { unfold LoadForecaster.predicted_kw_at, LoadForecaster._estimate_temperature_factor.
    rewrite Hhour.
    assert (E1 : LoadForecaster.is_weekend (Time.weekday weekend) = true).
    { unfold LoadForecaster.is_weekend. destruct Hwe as [-> | ->]; reflexivity. }
    assert (E2 : LoadForecaster.is_weekend (Time.weekday weekday) = false).
    { unfold LoadForecaster.is_weekend. apply orb_false_iff. split; apply Z.eqb_neq; lia. }
    rewrite E1, E2. ring. }
  rewrite Hkw.
  set (w := LoadForecaster.predicted_kw_at tr historical_data weekday).
  destruct (round2_near w) as [H1 H2].
  destruct (round2_near (0.85 * w)) as [H3 H4].
  apply Qabs_Qle_condition. split; lra.
Qed.

(** C9, as the code has it.  For two target times with the same hour of
    day, one on a Saturday or Sunday and one on a weekday, and the same
    historical window, the factor 0.85 is applied before each entry is
    rounded to two decimals: the [predicted_kw] recorded for the weekend
    time is 0.85 times the one recorded for the weekday time up to these
    roundings, the two differing by less than 0.01 kW; the two entries
    carry the same confidence.  The bound leaves a margin of 0.00075 kW
    over the two roundings, far more than the last binary digit of the
    products costs. *)
Theorem weekend_prediction_is_085_of_weekday
        (tr : Transformer.t) (historical_data : list TransformerLoad.t)
        (weekend weekday : datetime) :
  Time.hour weekend = Time.hour weekday ->
  Time.weekday weekend = 5%Z \/ Time.weekday weekend = 6%Z ->
  (0 <= Time.weekday weekday <= 4)%Z ->
  let entry_weekend := LoadForecaster.prediction_at np_sqrt tr historical_data weekend in
  let entry_weekday := LoadForecaster.prediction_at np_sqrt tr historical_data weekday in
  Qabs (Prediction.predicted_kw entry_weekend
        - 0.85 * Prediction.predicted_kw entry_weekday) < 0.01
  /\ Prediction.predicted_kw entry_weekend
     < 0.85 * Prediction.predicted_kw entry_weekday + 0.01
  /\ 0.85 * Prediction.predicted_kw entry_weekday - 0.01
     < Prediction.predicted_kw entry_weekend
  /\ Prediction.confidence entry_weekend = Prediction.confidence entry_weekday.
Proof.
  intros Hhour Hwe Hwd entry_weekend entry_weekday.
  pose proof (recorded_weekend_prediction_near tr historical_data weekend weekday
                Hhour Hwe Hwd) as Hnear.
  fold entry_weekend entry_weekday in Hnear.
  assert (Hlt : Qabs (Prediction.predicted_kw entry_weekend
                      - 0.85 * Prediction.predicted_kw entry_weekday) < 0.01).
  { eapply Qle_lt_trans; [exact Hnear|]. reflexivity. }
  apply Qabs_Qle_condition in Hnear. destruct Hnear as [H1 H2].
  split; [exact Hlt|].
  split; [lra|]. split; [lra|].
  unfold entry_weekend, entry_weekday, LoadForecaster.prediction_at.
  cbn [Prediction.confidence]. rewrite Hhour. reflexivity.
Qed.

End Forecaster.

Lemma weekend_prediction_is_085_of_weekday_witness :
  Time.hour Example.saturday_noon = Time.hour Example.friday_noon
  /\ (Time.weekday Example.saturday_noon = 5%Z \/ Time.weekday Example.saturday_noon = 6%Z)
  /\ (0 <= Time.weekday Example.friday_noon <= 4)%Z
  /\ Qabs (Prediction.predicted_kw
             (LoadForecaster.prediction_at Example.np_sqrt Example.T07
                Example.thursday_readings Example.saturday_noon)
           - 0.85 * Prediction.predicted_kw
                      (LoadForecaster.prediction_at Example.np_sqrt Example.T07
                         Example.thursday_readings Example.friday_noon))
     < 0.01.
Proof.
  assert (H1 : Time.hour Example.saturday_noon = Time.hour Example.friday_noon)
    by reflexivity.
  assert (H2 : Time.weekday Example.saturday_noon = 5%Z
               \/ Time.weekday Example.saturday_noon = 6%Z) by (left; reflexivity).
  assert (H3 : (0 <= Time.weekday Example.friday_noon <= 4)%Z) by (vm_compute; split; discriminate).
  split; [exact H1 | split; [exact H2 | split; [exact H3|]]].
  exact (proj1 (weekend_prediction_is_085_of_weekday Example.np_sqrt Example.T07
                  Example.thursday_readings _ _ H1 H2 H3)).
Defined.

(** C9 as stated fails on what the forecaster records.  In a 48-hour
    forecast made on a Friday at 00:00 from readings of 100.01 kW, the entry
    for Friday 12:00 records 110.01 kW and the entry for Saturday 12:00
    records 93.51 kW, which is not 0.85 times 110.01 (that is 93.5085). *)
Lemma recorded_weekend_prediction_not_085 :
  exists f friday saturday,
    LoadForecaster.forecast Example.np_sqrt LoadForecaster.default Example.db_week Example.T07 48
    = Py.Ok f
    /\ nth_error (LoadForecast.predictions f) 12 = Some friday
    /\ nth_error (LoadForecast.predictions f) 36 = Some saturday
    /\ Prediction.timestamp friday = Example.friday_noon
    /\ Prediction.timestamp saturday = Example.saturday_noon
    /\ Time.hour Example.saturday_noon = Time.hour Example.friday_noon
    /\ Time.weekday Example.friday_noon = 4%Z
    /\ Time.weekday Example.saturday_noon = 5%Z
    /\ Prediction.predicted_kw friday == 110.01
    /\ Prediction.predicted_kw saturday == 93.51
    /\ ~ Prediction.predicted_kw saturday == 0.85 * Prediction.predicted_kw friday.
Proof.
  destruct (LoadForecaster.forecast Example.np_sqrt LoadForecaster.default Example.db_week
              Example.T07 48) as [f|e] eqn:Hf.
  2: { exfalso. vm_compute in Hf. discriminate. }
  pose proof (forecast_predictions _ _ _ _ _ _ Hf) as Hp.
  exists f.
  exists (LoadForecaster.prediction_at Example.np_sqrt Example.T07
            (LoadForecaster.historical_data LoadForecaster.default Example.db_week Example.T07)
            Example.friday_noon).
  exists (LoadForecaster.prediction_at Example.np_sqrt Example.T07
            (LoadForecaster.historical_data LoadForecaster.default Example.db_week Example.T07)
            Example.saturday_noon).
  split; [reflexivity|].
  split; [rewrite Hp; reflexivity|].
  split; [rewrite Hp; reflexivity|].
  do 5 (split; [reflexivity|]).
  split; [vm_compute; reflexivity|].
  split; [vm_compute; reflexivity|].
  intro H. vm_compute in H. discriminate.
Qed.


(* ================================================================= *)
(** ** The plan narrator *)

Lemma string_length_app (s1 s2 : string) :
  String.length (s1 ++ s2) = (String.length s1 + String.length s2)%nat.
Proof.
  induction s1 as [|c s1 IH]; cbn.
  - reflexivity.
  - rewrite IH. reflexivity.
Qed.

(** The summary of the template is never shorter than 50 characters,
    whatever the names and the formatted numbers are. *)
Lemma template_summary_length
      (from_name to_name switch_name load_before transfer_kw load_after risk_reduction
       : string) :
  (50 <= String.length
           (Bundle.executive_summary
              (ClaudeExplainer.template from_name to_name switch_name
                 load_before transfer_kw load_after risk_reduction)))%nat.
Proof.
  unfold ClaudeExplainer.template. cbn [Bundle.executive_summary].
  repeat rewrite string_length_app. cbn [String.length]. lia.
Qed.



Lemma fallback_is_template (plan_data : PlanData.t) (b : Bundle.t) :
  ClaudeExplainer.generate_template_fallback plan_data = Py.Ok b ->
  exists load_before transfer_kw load_after risk_reduction,
    b = ClaudeExplainer.template
          (Py.get (PlanData.from_transformer_name plan_data) "source"%string)
          (Py.get (PlanData.to_transformer_name plan_data) "destination"%string)
          (Py.get (PlanData.switch_name plan_data) "tie switch"%string)
          load_before transfer_kw load_after risk_reduction.
Proof.
  unfold ClaudeExplainer.generate_template_fallback.
  destruct (Json.format_f 1 _) as [s1|e1]; cbn [Py.bind]; [|discriminate].
  destruct (Json.format_f 0 _) as [s2|e2]; cbn [Py.bind]; [|discriminate].
  destruct (Json.format_f 1 _) as [s3|e3]; cbn [Py.bind]; [|discriminate].
  destruct (Json.format_f 3 _) as [s4|e4]; cbn [Py.bind]; [|discriminate].
  intro H. injection H as <-. exists s1, s2, s3, s4. reflexivity.
Qed.

Section Narrator.

Variable float_of_string : string -> option Q.

(** A bundle that meets the schema passes [_validate_schema] unchanged. *)
Lemma validate_schema_to_json (b : Bundle.t) :
  Bundle.operator_steps b <> [] ->
  Bundle.field_checklist b <> [] ->
  Bundle.rollback_steps b <> [] ->
  (50 <= String.length (Bundle.executive_summary b))%nat ->
  0 <= Bundle.confidence b ->
  Bundle.confidence b <= 1 ->
  ClaudeExplainer._validate_schema float_of_string (Bundle.to_json b) = Py.Ok b.
Proof.
  destruct b as [summary steps checklist rollback assumptions confidence].
  cbn [Bundle.operator_steps Bundle.field_checklist Bundle.rollback_steps
       Bundle.executive_summary Bundle.confidence].
  intros Hs Hc Hr Hlen Hlo Hhi.
  unfold ClaudeExplainer._validate_schema, Bundle.to_json. cbn.
  assert (E0 : Qle_bool 0.0 confidence = true) by (apply Qle_bool_iff; lra).
  assert (E1 : Qle_bool confidence 1.0 = true) by (apply Qle_bool_iff; lra).
  rewrite E0, E1. cbn.
  destruct steps; [contradiction|].
  destruct checklist; [contradiction|].
  destruct rollback; [contradiction|].
  cbn.
  match goal with |- context [if ?c then _ else _] => destruct c eqn:E end;
    [|reflexivity].
  apply Nat.leb_le in E. lia.
Qed.

(** What the template returns passes the validation the backend output is
    put through: its three lists are not empty, its summary has at least 50
    characters and its confidence is 0.75. *)
Lemma fallback_schema_valid (plan_data : PlanData.t) (b : Bundle.t) :
  ClaudeExplainer.generate_template_fallback plan_data = Py.Ok b ->
  ClaudeExplainer._validate_schema float_of_string (Bundle.to_json b) = Py.Ok b
  /\ Bundle.operator_steps b <> []
  /\ Bundle.field_checklist b <> []
  /\ Bundle.rollback_steps b <> []
  /\ (50 <= String.length (Bundle.executive_summary b))%nat
  /\ Bundle.confidence b = 0.75.
Proof.
  intro H. destruct (fallback_is_template plan_data b H) as (s1 & s2 & s3 & s4 & ->).
  split.
  { apply validate_schema_to_json;
      try (cbn; discriminate);
      try apply template_summary_length;
      cbn; unfold Qle; simpl; lia. }
  split; [cbn; discriminate|].
  split; [cbn; discriminate|].
  split; [cbn; discriminate|].
  split; [apply template_summary_length | reflexivity].
Qed.

Variable self : PlanEnhancer.t.
Variable plan : MitigationPlan.t.

Local Abbreviation attempt_of :=
  (fun attempt =>
     ClaudeExplainer.generate_action_plan float_of_string (PlanEnhancer.explainer self)
       attempt (MitigationPlan.plan_json plan)).
Local Abbreviation fallback :=
  (ClaudeExplainer.generate_template_fallback (MitigationPlan.plan_json plan)).


(** The loop always ends inside the [try] of one attempt: with the
    validated bundle of the first attempt that returns, or, when no attempt
    returns, with what the template comes to. *)
Lemma attempts_terminal (remaining attempt : nat) :
  (attempt + remaining = PlanEnhancer.max_retries self + 1)%nat ->
  (1 <= remaining)%nat ->
  (exists i b,
     (attempt <= i <= PlanEnhancer.max_retries self)%nat
     /\ attempt_of i = Py.Ok b
     /\ PlanEnhancer.attempts float_of_string self plan remaining attempt
        = Py.Ok (PlanEnhancer.update plan b))
  \/ ((forall i, (attempt <= i <= PlanEnhancer.max_retries self)%nat ->
                 exists e, attempt_of i = Py.Raise e)
      /\ PlanEnhancer.attempts float_of_string self plan remaining attempt
         = (b <- fallback ;; Py.Ok (PlanEnhancer.update plan b))).
Proof.
  revert attempt. induction remaining as [|r IH]; intros attempt Hsum Hpos.
  - lia.
  - cbn [PlanEnhancer.attempts].
    destruct (attempt_of attempt) as [b|e] eqn:He.
    + left. exists attempt, b. split; [lia|]. split; [exact He | reflexivity].
    + destruct (attempt =? PlanEnhancer.max_retries self)%nat eqn:E.
      * apply Nat.eqb_eq in E. right. split; [|reflexivity].
        intros i Hi. assert (i = attempt) as -> by lia. exists e. exact He.
      * apply Nat.eqb_neq in E.
        destruct (IH (S attempt)) as [(i & b & Hi & Hb & Hres) | [Hall Hres]]; [lia | lia | |].
        -- left. exists i, b. split; [lia|]. split; [exact Hb | exact Hres].
        -- right. split; [|exact Hres].
           intros i Hi. destruct (Nat.eq_dec i attempt) as [->|Hne].
           ++ exists e. exact He.
           ++ apply Hall. lia.
Qed.

End Narrator.




(* ================================================================= *)
(** ** The bulk stages *)

Section BulkLoop.

Context {V : Type}.
Variable body : DB.t -> Transformer.t -> Py.Result (DB.t * V).
Variable outcome : Transformer.t -> Py.Result V.

(** What the loop may rely on in the state it threads. *)
Variable inv : DB.t -> Prop.

(** In such a state the body of the [try] does what [outcome] says, and
    leaves such a state. *)
Hypothesis body_outcome :
  forall db tr,
    inv db ->
    match body db tr with
    | Py.Ok (db', v) => inv db' /\ outcome tr = Py.Ok v
    | Py.Raise e => outcome tr = Py.Raise e
    end.

Lemma loop_outcomes (transformers : list Transformer.t) (db : DB.t)
      (successful : list V) (failed : list Bulk.failure) :
  inv db ->
  snd (Bulk.loop body db transformers successful failed)
  = (successful ++ Bulk.successes outcome transformers,
     failed ++ Bulk.failures outcome transformers).
Proof.
  revert db successful failed.
  induction transformers as [|tr rest IH]; intros db successful failed Hinv;
    cbn [Bulk.loop].
  - cbn. rewrite !app_nil_r. reflexivity.
  - pose proof (body_outcome db tr Hinv) as Hb.
    unfold Bulk.successes, Bulk.failures. cbn [flat_map].
    destruct (body db tr) as [[db' v]|e].
    + destruct Hb as [Hinv' ->]. rewrite (IH db' _ _ Hinv').
      cbn [app]. rewrite <- app_assoc. reflexivity.
    + rewrite Hb. rewrite (IH db _ _ Hinv).
      cbn [app]. rewrite <- app_assoc. reflexivity.
Qed.

Lemma successes_failures_length (transformers : list Transformer.t) :
  (List.length (Bulk.successes outcome transformers)
   + List.length (Bulk.failures outcome transformers)
   = List.length transformers)%nat.
Proof.
  unfold Bulk.successes, Bulk.failures.
  induction transformers as [|tr rest IH]; cbn [flat_map List.length].
  - reflexivity.
  - rewrite !length_app. destruct (outcome tr); cbn [List.length]; lia.
Qed.

Lemma run_isolated (db : DB.t) :
  inv db ->
  Bulk.isolated outcome (fun transformers => snd (Bulk.run body db transformers)).
Proof.
  intro Hinv.
  assert (Hrun : forall transformers,
            Bulk.successful (snd (Bulk.run body db transformers))
            = Bulk.successes outcome transformers
            /\ Bulk.failed (snd (Bulk.run body db transformers))
               = Bulk.failures outcome transformers
            /\ Bulk.total_attempted (snd (Bulk.run body db transformers))
               = List.length transformers
            /\ Bulk.success_count (snd (Bulk.run body db transformers))
               = List.length (Bulk.successes outcome transformers)
            /\ Bulk.failure_count (snd (Bulk.run body db transformers))
               = List.length (Bulk.failures outcome transformers)).
  { intro transformers. unfold Bulk.run.
    pose proof (loop_outcomes transformers db [] [] Hinv) as Hl.
    destruct (Bulk.loop body db transformers [] []) as [db' [s f]].
    cbn in Hl. injection Hl as -> ->. cbn. repeat split. }
  split.
  - intro transformers.
    destruct (Hrun transformers) as (Hs & Hf & Ht & Hsc & Hfc).
    rewrite Hs, Hf, Ht, Hsc, Hfc.
    repeat split. apply successes_failures_length.
  - intros before tr after e He.
    destruct (Hrun (before ++ tr :: after)) as (-> & -> & _).
    destruct (Hrun (before ++ after)) as (-> & _).
    destruct (Hrun before) as (_ & -> & _).
    destruct (Hrun after) as (_ & -> & _).
    unfold Bulk.successes, Bulk.failures.
    rewrite !flat_map_app. cbn [flat_map]. rewrite He. cbn [app].
    split; reflexivity.
Qed.

End BulkLoop.

(** The forecaster reads the readings and the clock only. *)
Lemma forecast_reads_loads (np_sqrt : Q -> Q) (self : LoadForecaster.t)
      (db db0 : DB.t) (tr : Transformer.t) (hours_ahead : nat) :
  DB.transformer_loads db = DB.transformer_loads db0 ->
  DB.now db = DB.now db0 ->
  LoadForecaster.forecast np_sqrt self db tr hours_ahead
  = LoadForecaster.forecast np_sqrt self db0 tr hours_ahead.
Proof.
  intros Hl Hn.
  unfold LoadForecaster.forecast, LoadForecaster.historical_data, DB.loads_of.
  rewrite Hl, Hn. reflexivity.
Qed.

(** The scorer does not read the assessments. *)
Lemma score_reads_inputs (db0 db : DB.t) (tr : Transformer.t) :
  DB.same_inputs db0 db -> BulkRiskScorer.outcome db tr = BulkRiskScorer.outcome db0 tr.
Proof.
  intros (Hl & Hr & Hf & Hy).
  destruct db as [ts links loads fcs ras now year].
  destruct db0 as [ts0 links0 loads0 fcs0 ras0 now0 year0].
  cbn in Hl, Hr, Hf, Hy. subst links loads fcs year.
  unfold BulkRiskScorer.outcome, BulkRiskScorer.body.
  change (DB.latest_forecast
            {| DB.transformers := ts; DB.topology_links := links0;
               DB.transformer_loads := loads0; DB.load_forecasts := fcs0;
               DB.risk_assessments := ras; DB.now := now; DB.year := year0 |} tr)
    with (DB.latest_forecast
            {| DB.transformers := ts0; DB.topology_links := links0;
               DB.transformer_loads := loads0; DB.load_forecasts := fcs0;
               DB.risk_assessments := ras0; DB.now := now0; DB.year := year0 |} tr).
  destruct (DB.latest_forecast _ tr) as [f|]; [|reflexivity].
  unfold RiskScorer.score_transformer.
  destruct (LoadForecast.predictions f); reflexivity.
Qed.

(** The state the scorer's [try] block leaves is the one it found plus the
    assessment it returns. *)
Lemma score_body_saves (db db' : DB.t) (tr : Transformer.t) (v : RiskAssessment.t) :
  BulkRiskScorer.body db tr = Py.Ok (db', v) -> db' = DB.save_assessment db v.
Proof.
  unfold BulkRiskScorer.body, RiskScorer.score_transformer.
  destruct (DB.latest_forecast db tr) as [f|]; [|discriminate].
  destruct (LoadForecast.predictions f); [discriminate|].
  intro H. injection H as <- <-. reflexivity.
Qed.

(** C8. Each of the two bulk stages treats its transformers one by one: its
    [successful] list holds the values of the transformers whose own
    computation returns, its [failed] list holds one {transformer, error}
    record for each transformer whose computation raises, both in the order
    of the input, so that every transformer lands in exactly one of the two
    lists and [success_count + failure_count = total_attempted]; a
    transformer that raises adds its record to [failed] and leaves the
    entries of the other transformers as they are without it.  Called
    without a collection, a stage takes the active transformers. *)
Theorem bulk_stages_isolate_failures :
  (forall (np_sqrt : Q -> Q) (self : BulkForecaster.t) (db : DB.t) (save : bool),
     Bulk.isolated
       (fun tr => LoadForecaster.forecast np_sqrt (BulkForecaster.forecaster self) db tr
                    (BulkForecaster.hours_ahead self))
       (fun transformers =>
          snd (BulkForecaster.forecast_all_transformers np_sqrt self db
                 (Some transformers) save)))
  /\ (forall (db : DB.t),
        Bulk.isolated
          (BulkRiskScorer.outcome db)
          (fun transformers =>
             snd (BulkRiskScorer.score_all_transformers db (Some transformers))))
  /\ (forall (V : Type) (outcome : Transformer.t -> Py.Result V) (tr : Transformer.t),
        (exists v, outcome tr = Py.Ok v
                   /\ Bulk.successes outcome [tr] = [v]
                   /\ Bulk.failures outcome [tr] = [])
        \/ (exists e, outcome tr = Py.Raise e
                      /\ Bulk.successes outcome [tr] = []
                      /\ Bulk.failures outcome [tr]
                         = [{| Bulk.transformer := tr; Bulk.error := Py.str e |}]))
  /\ (forall (np_sqrt : Q -> Q) (self : BulkForecaster.t) (db : DB.t) (save : bool),
        BulkForecaster.forecast_all_transformers np_sqrt self db None save
        = BulkForecaster.forecast_all_transformers np_sqrt self db
            (Some (DB.active_transformers db)) save)
  /\ (forall (db : DB.t),
        BulkRiskScorer.score_all_transformers db None
        = BulkRiskScorer.score_all_transformers db (Some (DB.active_transformers db))).
Proof.
  split; [|split; [|split; [|split; [reflexivity | reflexivity]]]].
  - intros np_sqrt self db save.
    unfold BulkForecaster.forecast_all_transformers. cbn [Py.get].
    apply (run_isolated _ _
             (fun d => DB.transformer_loads d = DB.transformer_loads db
                       /\ DB.now d = DB.now db)).
    + intros d tr [Hl Hn]. unfold BulkForecaster.body.
      rewrite (forecast_reads_loads np_sqrt _ d db tr _ Hl Hn).
      destruct (LoadForecaster.forecast np_sqrt (BulkForecaster.forecaster self) db tr
                  (BulkForecaster.hours_ahead self)) as [f|e]; cbn.
      * split; [|reflexivity]. destruct save; cbn; split; assumption.
      * reflexivity.
    + split; reflexivity.
  - intro db.
    unfold BulkRiskScorer.score_all_transformers. cbn [Py.get].
    apply (run_isolated _ _ (DB.same_inputs db)).
    + intros d tr Hinv.
      pose proof (score_reads_inputs db d tr Hinv) as Hout.
      unfold BulkRiskScorer.outcome in Hout at 1.
      destruct (BulkRiskScorer.body d tr) as [[d' v]|e] eqn:Hb.
      * split; [|symmetry; exact Hout].
        rewrite (score_body_saves _ _ _ _ Hb).
        destruct Hinv as (H1 & H2 & H3 & H4). repeat split; assumption.
      * symmetry. exact Hout.
    + repeat split.
  - intros V outcome tr. unfold Bulk.successes, Bulk.failures. cbn [flat_map].
    destruct (outcome tr) as [v|e].
    + left. exists v. repeat split.
    + right. exists e. repeat split.
Qed.

Lemma bulk_stages_isolate_failures_witness :
  let stage := fun transformers =>
    snd (BulkForecaster.forecast_all_transformers Example.np_sqrt BulkForecaster.default
           Example.db_week (Some transformers) true) in
  LoadForecaster.forecast Example.np_sqrt LoadForecaster.default Example.db_week
    Example.T09 72
  = Py.Raise (LoadForecaster.insufficient_data Example.T09 0)
  /\ Bulk.successful (stage [Example.T09; Example.T07])
     = Bulk.successful (stage [Example.T07])
  /\ Bulk.failed (stage [Example.T09; Example.T07])
     = {| Bulk.transformer := Example.T09;
          Bulk.error := "Insufficient data for T-09. Need at least 24 hours, have 0" |}
       :: Bulk.failed (stage [Example.T07]).
Proof.
  intro stage.
  assert (H : LoadForecaster.forecast Example.np_sqrt LoadForecaster.default
                Example.db_week Example.T09 72
              = Py.Raise (LoadForecaster.insufficient_data Example.T09 0))
    by reflexivity.
  split; [exact H|].
  exact (proj2 (proj1 bulk_stages_isolate_failures Example.np_sqrt BulkForecaster.default
                  Example.db_week true)
           [] Example.T09 [Example.T07] _ H).
Defined.

(* ================================================================= *)
(** * Further properties of the services *)

(** ** Risk scoring: level sets and ranges of the components *)

Lemma overload_score_range (load_pct : Q) :
  0 <= RiskScorer._calculate_overload_score load_pct <= 1.
Proof.
  unfold RiskScorer._calculate_overload_score.
  qcase (Qle_bool load_pct 90); [|qcase (Qle_bool load_pct 100)];
    try destruct (Qmin_cases (0.7 + (load_pct - 100) * 0.015) 1.0) as [[Hm ->]|[Hm ->]];
    split; lra.
Qed.

Lemma temp_score_range (T : Q) : 0 <= RiskScorer.temp_score T <= 1.
Proof.
  unfold RiskScorer.temp_score.
  qcase (Qle_bool T 25); [|qcase (Qle_bool T 30); [|qcase (Qle_bool T 35);
    [|qcase (Qle_bool T 40)]]];
    try destruct (Qmin_cases (0.9 + (T - 40) * 0.02) 1.0) as [[Hm ->]|[Hm ->]];
    split; lra.
Qed.

Lemma age_factor_range (age : Z) : 1 <= RiskScorer.age_factor age <= 1.3.
Proof.
  unfold RiskScorer.age_factor.
  destruct (25 <? age)%Z; [|destruct (15 <? age)%Z]; split; lra.
Qed.

Lemma cooling_factor_range (cooling_type : string) :
  0.8 <= RiskScorer.cooling_factor cooling_type <= 1.
Proof.
  unfold RiskScorer.cooling_factor.
  destruct (String.eqb cooling_type "ONAF"); split; lra.
Qed.

Lemma thermal_score_range (db : DB.t) (fc : LoadForecast.t) (tr : Transformer.t) :
  0 <= RiskScorer._calculate_thermal_score db fc tr <= 1.
Proof.
  unfold RiskScorer._calculate_thermal_score.
  destruct (RiskScorer.falsy (RiskScorer.latest_temp db tr)); [split; lra|].
  set (T := Py.get (RiskScorer.latest_temp db tr) 0).
  set (age := (DB.year db - Transformer.install_year tr)%Z).
  destruct (temp_score_range T) as [H1 _].
  destruct (age_factor_range age) as [H2 _].
  destruct (cooling_factor_range (Transformer.cooling_type tr)) as [H3 _].
  split.
  - apply Q.min_glb; [|lra].
    apply Qmult_le_0_compat; [apply Qmult_le_0_compat|]; lra.
  - eapply Qle_trans; [apply Q.le_min_r | lra].
Qed.

Lemma cascading_score_values (db : DB.t) (tr : Transformer.t) :
  RiskScorer._calculate_cascading_score db tr = 0.5
  \/ RiskScorer._calculate_cascading_score db tr = 0.0
  \/ RiskScorer._calculate_cascading_score db tr = 0.3
  \/ RiskScorer._calculate_cascading_score db tr = 0.7.
Proof.
  unfold RiskScorer._calculate_cascading_score.
  destruct (DB.outgoing_links db tr); [left; reflexivity|].
  destruct (Qeq_bool _ 0); [right; left; reflexivity|].
  destruct (Py.Qlt_bool _ 0.5); [right; right; left | right; right; right]; reflexivity.
Qed.

Lemma cascading_score_range (db : DB.t) (tr : Transformer.t) :
  0 <= RiskScorer._calculate_cascading_score db tr <= 0.7.
Proof.
  destruct (cascading_score_values db tr) as [-> | [-> | [-> | ->]]]; split; lra.
Qed.

Lemma weighted_range (o t c : Q) :
  0 <= o <= 1 -> 0 <= t <= 1 -> 0 <= c <= 1 -> 0 <= RiskScorer.weighted o t c <= 1.
Proof.
  unfold RiskScorer.weighted, RiskScorer.OVERLOAD_WEIGHT, RiskScorer.THERMAL_WEIGHT,
    RiskScorer.CASCADING_WEIGHT.
  intros [? ?] [? ?] [? ?]. split; lra.
Qed.

(** Rounding keeps a value of [0, 1] in [0, 1]. *)
Lemma round_unit_range (x : Q) (n : nat) : 0 <= x <= 1 -> 0 <= Py.round x n <= 1.
Proof.
  intros [H0 H1].
  assert (E0 : Py.round 0 n == 0).
  { unfold Py.round.
    rewrite (round_half_even_comp (0 * inject_Z (Py.pow10 n)) (inject_Z 0))
      by (change (inject_Z 0) with 0; ring).
    rewrite round_half_even_Z. change (inject_Z 0) with 0.
    unfold Qdiv. ring. }
  assert (E1 : Py.round 1 n == 1).
  { pose proof (pow10_pos n) as Hp. unfold Py.round.
    rewrite (round_half_even_comp _ (inject_Z (Py.pow10 n))) by ring.
    rewrite round_half_even_Z. field.
    intro H. rewrite H in Hp. apply (Qlt_irrefl _ Hp). }
  split.
  - rewrite <- E0. apply round_mono. exact H0.
  - rewrite <- E1. apply round_mono. exact H1.
Qed.

Lemma save_risk_score (a : RiskAssessment.t) :
  RiskAssessment.risk_score (RiskAssessment.save a) = RiskAssessment.risk_score a.
Proof.
  unfold RiskAssessment.save.
  destruct (RiskAssessment.level_unset a); [|reflexivity].
  destruct (Py.Qlt_bool _ 0.3); [reflexivity|].
  destruct (Py.Qlt_bool _ 0.7); reflexivity.
Qed.

Lemma save_time_window (a : RiskAssessment.t) :
  RiskAssessment.time_window_start (RiskAssessment.save a)
  = RiskAssessment.time_window_start a
  /\ RiskAssessment.time_window_end (RiskAssessment.save a)
     = RiskAssessment.time_window_end a.
Proof.
  unfold RiskAssessment.save.
  destruct (RiskAssessment.level_unset a); [|split; reflexivity].
  destruct (Py.Qlt_bool _ 0.3); [split; reflexivity|].
  destruct (Py.Qlt_bool _ 0.7); split; reflexivity.
Qed.

(** What [score_transformer] returns, field by field. *)
Lemma score_transformer_ok (db db' : DB.t) (tr : Transformer.t) (fc : LoadForecast.t)
      (a : RiskAssessment.t) :
  RiskScorer.score_transformer db tr fc = Py.Ok (db', a) ->
  LoadForecast.predictions fc <> []
  /\ db' = DB.save_assessment db a
  /\ RiskAssessment.transformer a = tr
  /\ RiskAssessment.forecast a = fc
  /\ RiskAssessment.risk_score a = Py.round (RiskScorer.total_score db tr fc) 3
  /\ RiskAssessment.overload_pct a = LoadForecast.peak_predicted_pct fc
  /\ RiskAssessment.confidence a = RiskScorer._calculate_assessment_confidence fc
  /\ RiskAssessment.risk_components a
     = {| RiskComponents.overload :=
            Py.round (RiskScorer._calculate_overload_score
                        (LoadForecast.peak_predicted_pct fc)) 3;
          RiskComponents.thermal :=
            Py.round (RiskScorer._calculate_thermal_score db fc tr) 3;
          RiskComponents.cascading :=
            Py.round (RiskScorer._calculate_cascading_score db tr) 3 |}
  /\ (RiskAssessment.risk_level a = Some "LOW"%string
      /\ RiskAssessment.risk_score a < 0.3
      \/ RiskAssessment.risk_level a = Some "MEDIUM"%string
         /\ 0.3 <= RiskAssessment.risk_score a < 0.7
      \/ RiskAssessment.risk_level a = Some "HIGH"%string
         /\ 0.7 <= RiskAssessment.risk_score a).
Proof.
  unfold RiskScorer.score_transformer.
  destruct (LoadForecast.predictions fc) as [|first rest] eqn:Hp; [discriminate|].
  intro H. injection H as <- <-.
  split; [discriminate|]. split; [reflexivity|].
  unfold RiskAssessment.save, RiskAssessment.level_unset.
  cbn [RiskAssessment.risk_level RiskAssessment.risk_score String.eqb].
  fold (RiskScorer.total_score db tr fc).
  qcase (Py.Qlt_bool (Py.round (RiskScorer.total_score db tr fc) 3) 0.3);
    [|qcase (Py.Qlt_bool (Py.round (RiskScorer.total_score db tr fc) 3) 0.7)];
    cbn; repeat (split; [reflexivity|]).
  - left. split; [reflexivity | exact E].
  - right. left. split; [reflexivity | split; assumption].
  - right. right. split; [reflexivity | exact E0].
Qed.

(** X1. Every assessment [score_transformer] returns has its score and its
    three recorded components between 0 and 1. *)
Theorem score_transformer_unit_range
        (db db' : DB.t) (tr : Transformer.t) (fc : LoadForecast.t)
        (a : RiskAssessment.t) :
  RiskScorer.score_transformer db tr fc = Py.Ok (db', a) ->
  0 <= RiskAssessment.risk_score a <= 1
  /\ 0 <= RiskComponents.overload (RiskAssessment.risk_components a) <= 1
  /\ 0 <= RiskComponents.thermal (RiskAssessment.risk_components a) <= 1
  /\ 0 <= RiskComponents.cascading (RiskAssessment.risk_components a) <= 0.7.
Proof.
  intro H.
  destruct (score_transformer_ok _ _ _ _ _ H) as (_ & _ & _ & _ & -> & _ & _ & -> & _).
  cbn [RiskComponents.overload RiskComponents.thermal RiskComponents.cascading].
  pose proof (overload_score_range (LoadForecast.peak_predicted_pct fc)) as Ho.
  pose proof (thermal_score_range db fc tr) as Ht.
  pose proof (cascading_score_range db tr) as Hc.
  split; [|split; [|split]].
  - apply round_unit_range. apply weighted_range; [exact Ho | exact Ht |].
    destruct Hc; split; lra.
  - apply round_unit_range. exact Ho.
  - apply round_unit_range. exact Ht.
  - destruct (cascading_score_values db tr) as [-> | [-> | [-> | ->]]];
      vm_compute; split; discriminate.
Qed.

Lemma score_transformer_unit_range_witness :
  exists db' a,
    RiskScorer.score_transformer Example.db Example.T07 Example.forecast07
    = Py.Ok (db', a)
    /\ 0 <= RiskAssessment.risk_score a <= 1.
Proof.
  exists (DB.save_assessment Example.db Example.assessment07), Example.assessment07.
  assert (H : RiskScorer.score_transformer Example.db Example.T07 Example.forecast07
              = Py.Ok (DB.save_assessment Example.db Example.assessment07,
                       Example.assessment07)) by reflexivity.
  split; [exact H|].
  exact (proj1 (score_transformer_unit_range _ _ _ _ _ H)).
Defined.

(** X2. For an assessment [score_transformer] returns, the level is HIGH
    exactly when the score is at least 0.7, which is exactly when
    [is_high_risk] holds; a high-risk assessment always requires action,
    and so does every assessment whose recorded peak is above 100%. *)
Theorem scored_high_risk_requires_action
        (db db' : DB.t) (tr : Transformer.t) (fc : LoadForecast.t)
        (a : RiskAssessment.t) :
  RiskScorer.score_transformer db tr fc = Py.Ok (db', a) ->
  (RiskAssessment.is_high_risk a = true <-> 0.7 <= RiskAssessment.risk_score a)
  /\ (RiskAssessment.is_high_risk a = true -> RiskAssessment.requires_action a = true)
  /\ (RiskAssessment.requires_action a = true
      <-> 0.7 <= RiskAssessment.risk_score a
          \/ 100 < LoadForecast.peak_predicted_pct fc).
Proof.
  intro H.
  destruct (score_transformer_ok _ _ _ _ _ H)
    as (_ & _ & _ & _ & _ & Hpct & _ & _ & Hlevel).
  assert (Hhigh : RiskAssessment.is_high_risk a = true
                  <-> 0.7 <= RiskAssessment.risk_score a).
  { unfold RiskAssessment.is_high_risk.
    destruct Hlevel as [[-> Hs] | [[-> Hs] | [-> Hs]]]; cbn; split; intro Hx;
      try discriminate; try reflexivity; try assumption; exfalso; lra. }
  assert (Hact : RiskAssessment.requires_action a = true
                 <-> 0.7 <= RiskAssessment.risk_score a
                     \/ 100 < LoadForecast.peak_predicted_pct fc).
  { unfold RiskAssessment.requires_action. rewrite Hpct, orb_true_iff.
    rewrite Qle_bool_iff, Qlt_bool_true.
    assert (E : 100.0 == 100) by reflexivity.
    split; intros [Hx | Hx]; [left | right | left | right];
      try assumption; lra. }
  split; [exact Hhigh | split; [|exact Hact]].
  intro Hx. apply Hact. left. apply Hhigh. exact Hx.
Qed.

Lemma scored_high_risk_requires_action_witness :
  exists db' a,
    RiskScorer.score_transformer Example.db Example.T07 Example.forecast07
    = Py.Ok (db', a)
    /\ (RiskAssessment.requires_action a = true
        <-> 0.7 <= RiskAssessment.risk_score a
            \/ 100 < LoadForecast.peak_predicted_pct Example.forecast07).
Proof.
  exists (DB.save_assessment Example.db Example.assessment07), Example.assessment07.
  assert (H : RiskScorer.score_transformer Example.db Example.T07 Example.forecast07
              = Py.Ok (DB.save_assessment Example.db Example.assessment07,
                       Example.assessment07)) by reflexivity.
  split; [exact H|].
  exact (proj2 (proj2 (scored_high_risk_requires_action _ _ _ _ _ H))).
Defined.

(** X3. The thermal component never rewards age and never punishes forced
    air: of two units with the same readings, the one that is not older
    and has cooling type ONAF (or the same cooling type as the other) has
    a thermal component that is not larger. *)
Theorem thermal_score_age_and_cooling
        (db : DB.t) (fc fc' : LoadForecast.t) (tr tr' : Transformer.t) :
  Transformer.id tr = Transformer.id tr' ->
  (Transformer.install_year tr' <= Transformer.install_year tr)%Z ->
  Transformer.cooling_type tr = "ONAF"%string
  \/ Transformer.cooling_type tr = Transformer.cooling_type tr' ->
  RiskScorer._calculate_thermal_score db fc tr
  <= RiskScorer._calculate_thermal_score db fc' tr'.
Proof.
  intros Hid Hyear Hcool.
  unfold RiskScorer._calculate_thermal_score.
  assert (Ht : RiskScorer.latest_temp db tr = RiskScorer.latest_temp db tr').
  { unfold RiskScorer.latest_temp, DB.latest_temp_reading, DB.loads_of.
    rewrite Hid. reflexivity. }
  rewrite <- Ht.
  destruct (RiskScorer.falsy (RiskScorer.latest_temp db tr)); [apply Qle_refl|].
  set (T := Py.get (RiskScorer.latest_temp db tr) 0).
  destruct (temp_score_range T) as [H1 _].
  apply Q.min_le_compat_r.
  assert (Hage : 0 <= RiskScorer.age_factor (DB.year db - Transformer.install_year tr)
                 <= RiskScorer.age_factor (DB.year db - Transformer.install_year tr')).
  { unfold RiskScorer.age_factor.
    destruct (25 <? DB.year db - Transformer.install_year tr)%Z eqn:E1;
      destruct (25 <? DB.year db - Transformer.install_year tr')%Z eqn:E2;
      destruct (15 <? DB.year db - Transformer.install_year tr)%Z eqn:E3;
      destruct (15 <? DB.year db - Transformer.install_year tr')%Z eqn:E4;
      try (split; lra);
      rewrite ?Z.ltb_lt, ?Z.ltb_ge in *; lia. }
  assert (Hcf : 0 <= RiskScorer.cooling_factor (Transformer.cooling_type tr)
                <= RiskScorer.cooling_factor (Transformer.cooling_type tr')).
  { destruct Hcool as [-> | ->].
    - pose proof (cooling_factor_range (Transformer.cooling_type tr')) as [? ?].
      cbn. split; lra.
    - pose proof (cooling_factor_range (Transformer.cooling_type tr')) as [? ?].
      split; lra. }
  apply Qmult_le_compat_nonneg; [|exact Hcf].
  split.
  - apply Qmult_le_0_compat; [exact H1 | apply Hage].
  - apply Qmult_le_compat_nonneg; [split; [exact H1 | apply Qle_refl] | exact Hage].
Qed.

Lemma thermal_score_age_and_cooling_witness :
  RiskScorer._calculate_thermal_score Example.db_large Example.forecast20 Example.T20
  <= RiskScorer._calculate_thermal_score Example.db_large Example.forecast20
       {| Transformer.id := 20; Transformer.name := "T-20";
          Transformer.rated_kva := 20000000; Transformer.max_load_pct := 90;
          Transformer.cooling_type := "ONAN"; Transformer.install_year := 1995;
          Transformer.is_active := true |}.
Proof.
  apply thermal_score_age_and_cooling.
  - reflexivity.
  - cbn. lia.
  - left. reflexivity.
Defined.

(** The share [n / m] of a count in a positive total: when it is 0, and
    when it is below one half. *)
Lemma count_ratio (n m : nat) :
  (0 < m)%nat ->
  let ratio := inject_Z (Z.of_nat n) / inject_Z (Z.of_nat m) in
  (ratio == 0 <-> n = 0%nat) /\ (ratio < 0.5 <-> (2 * n < m)%nat).
Proof.
  intros Hm ratio.
  set (N := inject_Z (Z.of_nat n)) in *.
  set (M := inject_Z (Z.of_nat m)) in *.
  assert (HM : 0 < M).
  { unfold M. change 0 with (inject_Z 0). rewrite <- Zlt_Qlt. lia. }
  assert (HMne : ~ M == 0) by (intro H0; rewrite H0 in HM; apply (Qlt_irrefl _ HM)).
  assert (HN : N == ratio * M) by (unfold ratio; field; exact HMne).
  assert (H2 : (2 * n < m)%nat <-> 2 * N < M).
  { unfold N, M. change 2 with (inject_Z 2). rewrite <- inject_Z_mult, <- Zlt_Qlt. lia. }
  split; split; intro H.
  - assert (E : N == 0) by (rewrite HN, H; ring).
    unfold N in E. change 0 with (inject_Z 0) in E.
    assert (E' : Z.of_nat n = 0%Z) by (apply inject_Z_injective; exact E).
    lia.
  - subst n. unfold ratio, N. change (inject_Z (Z.of_nat 0)) with 0.
    unfold Qdiv. ring.
  - apply H2. rewrite HN.
    assert (E : ratio * M < 0.5 * M) by (apply Qmult_lt_compat_r; assumption).
    lra.
  - apply H2 in H. unfold ratio. apply Qlt_shift_div_r; [exact HM | lra].
Qed.

(** X4. The cascading component by the numbers: 0.5 for a unit without an
    active outgoing link; otherwise, with [n] of its [m] links leading to a
    neighbor whose latest reading is above 85%, it is 0 when [n = 0], 0.3
    when [0 < 2n < m], and 0.7 when [2n >= m].  A neighbor without any
    reading does not count as loaded. *)
Theorem cascading_score_by_counts (db : DB.t) (tr : Transformer.t) :
  let links := DB.outgoing_links db tr in
  let loaded :=
    filter (fun link => RiskScorer.neighbor_overloaded db (TopologyLink.to_transformer link))
           links in
  let m := List.length links in
  let n := List.length loaded in
  (m = 0%nat -> RiskScorer._calculate_cascading_score db tr == 0.5)
  /\ ((0 < m)%nat -> n = 0%nat -> RiskScorer._calculate_cascading_score db tr == 0)
  /\ ((0 < n)%nat -> (2 * n < m)%nat ->
      RiskScorer._calculate_cascading_score db tr == 0.3)
  /\ ((0 < m)%nat -> (m <= 2 * n)%nat ->
      RiskScorer._calculate_cascading_score db tr == 0.7)
  /\ (forall link, In link links ->
        DB.latest_load db (TopologyLink.to_transformer link) = None ->
        ~ In link loaded).
Proof.
  intros links loaded m n.
  assert (Hcases : (0 < m)%nat ->
            RiskScorer._calculate_cascading_score db tr
            = if Qeq_bool (inject_Z (Z.of_nat n) / inject_Z (Z.of_nat m)) 0 then 0.0
              else if Py.Qlt_bool (inject_Z (Z.of_nat n) / inject_Z (Z.of_nat m)) 0.5
                   then 0.3 else 0.7).
  { intro Hm. unfold RiskScorer._calculate_cascading_score.
    fold links. subst m n loaded.
    destruct links as [|l ls]; [cbn in Hm; lia | reflexivity]. }
  split; [|split; [|split; [|split]]].
  - intro Hm. unfold RiskScorer._calculate_cascading_score. fold links.
    destruct links; [reflexivity | discriminate].
  - intros Hm Hn. rewrite (Hcases Hm).
    destruct (count_ratio n m Hm) as [Hz _].
    qcase (Qeq_bool (inject_Z (Z.of_nat n) / inject_Z (Z.of_nat m)) 0); [reflexivity|].
    exfalso. apply E. apply Hz. exact Hn.
  - intros Hn H2.
    assert (Hm : (0 < m)%nat) by lia.
    rewrite (Hcases Hm).
    destruct (count_ratio n m Hm) as [Hz Hhalf].
    qcase (Qeq_bool (inject_Z (Z.of_nat n) / inject_Z (Z.of_nat m)) 0).
    { apply Hz in E. lia. }
    qcase (Py.Qlt_bool (inject_Z (Z.of_nat n) / inject_Z (Z.of_nat m)) 0.5);
      [reflexivity|].
    exfalso. apply Hhalf in H2. lra.
  - intros Hm H2. rewrite (Hcases Hm).
    destruct (count_ratio n m Hm) as [Hz Hhalf].
    qcase (Qeq_bool (inject_Z (Z.of_nat n) / inject_Z (Z.of_nat m)) 0).
    { apply Hz in E. lia. }
    qcase (Py.Qlt_bool (inject_Z (Z.of_nat n) / inject_Z (Z.of_nat m)) 0.5);
      [|reflexivity].
    apply Hhalf in E0. lia.
  - intros link Hin Hnone Hloaded.
    apply filter_In in Hloaded. destruct Hloaded as [_ Hov].
    unfold RiskScorer.neighbor_overloaded in Hov. rewrite Hnone in Hov. discriminate.
Qed.

Lemma cascading_score_by_counts_witness :
  RiskScorer._calculate_cascading_score Example.db Example.T07 == 0.
Proof.
  apply (proj1 (proj2 (cascading_score_by_counts Example.db Example.T07))).
  - cbn. lia.
  - reflexivity.
Defined.

(** ** Risk scoring: the explanation *)

Section Reasons.

Variable str_decimal : Q -> string.
Variable strftime : datetime -> string.

(** X5. The explanation [_generate_reasons] writes.  Its primary reason is
    "Normal operation with elevated monitoring" exactly when none of the
    three components is above 0.5; an overload component above 0.5 that is
    not smaller than the other two makes the predicted overload the primary
    reason, also when another component ties with it; and in every case
    there is at least one bullet and one recommendation. *)
Theorem generate_reasons_primary
        (db : DB.t) (tr : Transformer.t) (fc : LoadForecast.t)
        (overload_score thermal_score cascading_score : Q) :
  let r := RiskScorer._generate_reasons str_decimal strftime db tr fc
             overload_score thermal_score cascading_score in
  (RiskScorer.primary r = "Normal operation with elevated monitoring"%string
   <-> overload_score <= 0.5 /\ thermal_score <= 0.5 /\ cascading_score <= 0.5)
  /\ (0.5 < overload_score -> thermal_score <= overload_score ->
      cascading_score <= overload_score ->
      RiskScorer.primary r
      = ("Predicted overload: " ++ str_decimal (LoadForecast.peak_predicted_pct fc)
         ++ "% of rated capacity")%string)
  /\ RiskScorer.bullets r <> []
  /\ RiskScorer.recommendations r <> [].
Proof.
  intro r. subst r. unfold RiskScorer._generate_reasons.
  set (mx := Qmax (Qmax overload_score thermal_score) cascading_score).
  assert (Hmx : (mx == overload_score \/ mx == thermal_score \/ mx == cascading_score)
                /\ overload_score <= mx /\ thermal_score <= mx /\ cascading_score <= mx).
  { unfold mx.
    destruct (Q.max_spec overload_score thermal_score) as [[H1 E1]|[H1 E1]];
      destruct (Q.max_spec (Qmax overload_score thermal_score) cascading_score)
        as [[H2 E2]|[H2 E2]];
      rewrite E2; rewrite ?E1 in *; repeat split;
      try lra; try (left; reflexivity); try (right; left; reflexivity);
      try (right; right; reflexivity). }
  destruct Hmx as (Hone & Ho & Ht & Hc).
  destruct (Qeq_bool mx overload_score && Py.Qlt_bool 0.5 overload_score) eqn:C1.
  { apply andb_true_iff in C1. destruct C1 as [_ C1]. apply Qlt_bool_true in C1.
    destruct (Py.Qlt_bool 100 (LoadForecast.peak_predicted_pct fc));
      cbn [RiskScorer.primary RiskScorer.bullets RiskScorer.recommendations];
      (split; [split; [intro H; cbn in H; discriminate | intros (H & _); exfalso; lra]|]);
      (split; [intros; reflexivity|]); split; discriminate. }
  assert (N1 : mx == overload_score -> overload_score <= 0.5).
  { intro E. apply andb_false_iff in C1. destruct C1 as [C1|C1].
    - apply Qeq_bool_false in C1. contradiction.
    - apply Qlt_bool_false in C1. exact C1. }
  destruct (Qeq_bool mx thermal_score && Py.Qlt_bool 0.5 thermal_score) eqn:C2.
  { apply andb_true_iff in C2. destruct C2 as [_ C2]. apply Qlt_bool_true in C2.
    cbn [RiskScorer.primary RiskScorer.bullets RiskScorer.recommendations].
    split; [split; [intro H; discriminate | intros (_ & H & _); exfalso; lra]|].
    split; [|split; discriminate].
    intros H1 H2 H3. exfalso.
    assert (E : mx == overload_score) by (destruct Hone as [E|[E|E]]; lra).
    specialize (N1 E). lra. }
  assert (N2 : mx == thermal_score -> thermal_score <= 0.5).
  { intro E. apply andb_false_iff in C2. destruct C2 as [C2|C2].
    - apply Qeq_bool_false in C2. contradiction.
    - apply Qlt_bool_false in C2. exact C2. }
  destruct (Qeq_bool mx cascading_score && Py.Qlt_bool 0.5 cascading_score) eqn:C3.
  { apply andb_true_iff in C3. destruct C3 as [_ C3]. apply Qlt_bool_true in C3.
    cbn [RiskScorer.primary RiskScorer.bullets RiskScorer.recommendations].
    split; [split; [intro H; discriminate | intros (_ & _ & H); exfalso; lra]|].
    split; [|split; discriminate].
    intros H1 H2 H3. exfalso.
    assert (E : mx == overload_score) by (destruct Hone as [E|[E|E]]; lra).
    specialize (N1 E). lra. }
  assert (N3 : mx == cascading_score -> cascading_score <= 0.5).
  { intro E. apply andb_false_iff in C3. destruct C3 as [C3|C3].
    - apply Qeq_bool_false in C3. contradiction.
    - apply Qlt_bool_false in C3. exact C3. }
  cbn [RiskScorer.primary RiskScorer.bullets RiskScorer.recommendations].
  assert (Hall : mx <= 0.5).
  { destruct Hone as [E|[E|E]]; [specialize (N1 E) | specialize (N2 E) | specialize (N3 E)];
      lra. }
  split; [split; [intros _; repeat split; lra | intros _; reflexivity]|].
  split; [intros; exfalso; lra | split; discriminate].
Qed.

End Reasons.

(** X6. The breakdown the [explain] endpoint shows for an assessment made
    by [score_transformer]: the three weighted contributions add up to the
    risk score within 0.001 (each number was rounded to three decimals on
    its own), and each contribution is its component times its weight. *)
Theorem explain_contributions_add_up
        (db db' : DB.t) (tr : Transformer.t) (fc : LoadForecast.t)
        (a : RiskAssessment.t) :
  RiskScorer.score_transformer db tr fc = Py.Ok (db', a) ->
  let e := RiskAssessmentViewSet.explain a in
  Qabs (RiskAssessmentViewSet.overload_contribution e
        + RiskAssessmentViewSet.thermal_contribution e
        + RiskAssessmentViewSet.cascading_contribution e
        - RiskAssessmentViewSet.risk_score e) <= 0.001
  /\ RiskAssessmentViewSet.overload_contribution e
     == RiskScorer.OVERLOAD_WEIGHT * RiskAssessmentViewSet.overload_component e
  /\ RiskAssessmentViewSet.thermal_contribution e
     == RiskScorer.THERMAL_WEIGHT * RiskAssessmentViewSet.thermal_component e
  /\ RiskAssessmentViewSet.cascading_contribution e
     == RiskScorer.CASCADING_WEIGHT * RiskAssessmentViewSet.cascading_component e
  /\ RiskAssessmentViewSet.transformer_name e = Transformer.name tr.
Proof.
  intros H e. subst e.
  destruct (score_transformer_ok _ _ _ _ _ H) as (_ & _ & Htr & _ & Hs & _ & _ & Hc & _).
  unfold RiskAssessmentViewSet.explain.
  cbn [RiskAssessmentViewSet.overload_contribution
       RiskAssessmentViewSet.thermal_contribution
       RiskAssessmentViewSet.cascading_contribution
       RiskAssessmentViewSet.risk_score RiskAssessmentViewSet.overload_component
       RiskAssessmentViewSet.thermal_component RiskAssessmentViewSet.cascading_component
       RiskAssessmentViewSet.transformer_name].
  rewrite Hs, Hc, Htr.
  cbn [RiskComponents.overload RiskComponents.thermal RiskComponents.cascading].
  unfold RiskScorer.total_score, RiskScorer.weighted, RiskScorer.OVERLOAD_WEIGHT,
    RiskScorer.THERMAL_WEIGHT, RiskScorer.CASCADING_WEIGHT.
  set (o := RiskScorer._calculate_overload_score (LoadForecast.peak_predicted_pct fc)).
  set (t := RiskScorer._calculate_thermal_score db fc tr).
  set (c := RiskScorer._calculate_cascading_score db tr).
  destruct (round3_near o) as [Ho1 Ho2].
  destruct (round3_near t) as [Ht1 Ht2].
  destruct (round3_near c) as [Hc1 Hc2].
  destruct (round3_near (0.6 * o + 0.2 * t + 0.2 * c)) as [Hw1 Hw2].
  split; [apply Qabs_Qle_condition; split; lra|].
  split; [ring | split; [ring | split; [ring | reflexivity]]].
Qed.

Lemma explain_contributions_add_up_witness :
  let e := RiskAssessmentViewSet.explain Example.assessment07 in
  Qabs (RiskAssessmentViewSet.overload_contribution e
        + RiskAssessmentViewSet.thermal_contribution e
        + RiskAssessmentViewSet.cascading_contribution e
        - RiskAssessmentViewSet.risk_score e) <= 0.001.
Proof.
  assert (H : RiskScorer.score_transformer Example.db Example.T07 Example.forecast07
              = Py.Ok (DB.save_assessment Example.db Example.assessment07,
                       Example.assessment07)) by reflexivity.
  exact (proj1 (explain_contributions_add_up _ _ _ _ _ H)).
Defined.

(* ================================================================= *)
(** ** The forecaster: patterns, factors and confidence *)

Lemma len_cons {A} (x : A) (l : list A) : Py.len (x :: l) == Py.len l + 1.
Proof.
  unfold Py.len. cbn [List.length]. rewrite Nat2Z.inj_succ.
  unfold Z.succ. rewrite inject_Z_plus. reflexivity.
Qed.

Lemma len_nonneg {A} (l : list A) : 0 <= Py.len l.
Proof.
  unfold Py.len. change 0 with (inject_Z 0). rewrite <- Zle_Qle. lia.
Qed.

Lemma len_pos {A} (l : list A) : l <> [] -> 0 < Py.len l.
Proof.
  intro H. destruct l as [|x l]; [contradiction|].
  rewrite len_cons. pose proof (len_nonneg l). lra.
Qed.

Lemma sum_bounds (lo hi : Q) (l : list Q) :
  Forall (fun x => lo <= x <= hi) l ->
  lo * Py.len l <= Py.sum l <= hi * Py.len l.
Proof.
  induction 1 as [|x l [Hlo Hhi] _ [IH1 IH2]].
  - change (Py.len (@nil Q)) with 0. change (Py.sum []) with 0. split; lra.
  - rewrite len_cons. cbn [Py.sum fold_right]. fold (Py.sum l). split; lra.
Qed.

(** The mean of a non-empty list lies between any two bounds of its
    elements. *)
Lemma mean_bounds (lo hi : Q) (l : list Q) :
  l <> [] -> Forall (fun x => lo <= x <= hi) l -> lo <= Py.mean l <= hi.
Proof.
  intros Hne Hall. unfold Py.mean.
  pose proof (len_pos l Hne) as Hp.
  destruct (sum_bounds lo hi l Hall) as [H1 H2].
  split.
  - apply Qle_shift_div_l; assumption.
  - apply Qle_shift_div_r; assumption.
Qed.

Lemma hour_range (t : datetime) : (0 <= Time.hour t < 24)%Z.
Proof. unfold Time.hour. apply Z.mod_pos_bound. lia. Qed.

Lemma In_range (n : nat) (k : Z) : (0 <= k < Z.of_nat n)%Z -> In k (range n).
Proof.
  intro H. unfold range. apply in_map_iff. exists (Z.to_nat k).
  split; [lia | apply in_seq; lia].
Qed.

Lemma dict_get_map (g : Z -> Q) (keys : list Z) (k : Z) (default : Q) :
  In k keys ->
  LoadForecaster.dict_get (map (fun k' => (k', g k')) keys) k default = g k.
Proof.
  induction keys as [|k' rest IH]; intro H; [contradiction|].
  cbn. destruct (k' =? k)%Z eqn:E.
  - apply Z.eqb_eq in E. subst k'. reflexivity.
  - destruct H as [H|H]; [apply Z.eqb_neq in E; contradiction | apply IH; exact H].
Qed.

(** The average the forecaster starts from for an hour of the day: the mean
    of the readings taken at that hour, or of all readings when there is
    none at that hour, or 0 without any reading. *)
Lemma hourly_pattern_at (historical_data : list TransformerLoad.t) (t : datetime)
      (default : Q) :
  LoadForecaster.dict_get (LoadForecaster._calculate_hourly_patterns historical_data)
    (Time.hour t) default
  = match LoadForecaster.hour_loads (Time.hour t) historical_data with
    | _ :: _ => Py.mean (LoadForecaster.hour_loads (Time.hour t) historical_data)
    | [] =>
        match map TransformerLoad.load_kw historical_data with
        | _ :: _ => Py.mean (map TransformerLoad.load_kw historical_data)
        | [] => 0
        end
    end.
Proof.
  unfold LoadForecaster._calculate_hourly_patterns.
  rewrite (map_ext _
             (fun hour =>
                (hour,
                 match LoadForecaster.hour_loads hour historical_data with
                 | _ :: _ => Py.mean (LoadForecaster.hour_loads hour historical_data)
                 | [] =>
                     match map TransformerLoad.load_kw historical_data with
                     | _ :: _ => Py.mean (map TransformerLoad.load_kw historical_data)
                     | [] => 0
                     end
                 end))).
  - rewrite dict_get_map; [reflexivity|].
    apply In_range. apply hour_range.
  - intro hour. cbv zeta.
    destruct (LoadForecaster.hour_loads hour historical_data); reflexivity.
Qed.

(** X7. The fallback [rated_kw * 0.7] of the hourly lookup is never taken:
    the pattern has an entry for each of the 24 hours, so the predicted
    load of a target time is the same whatever the unit's rating is. *)
Theorem predicted_kw_ignores_rating
        (tr tr' : Transformer.t) (historical_data : list TransformerLoad.t)
        (target_time : datetime) :
  LoadForecaster.predicted_kw_at tr historical_data target_time
  = LoadForecaster.predicted_kw_at tr' historical_data target_time
  /\ forall default,
       LoadForecaster.dict_get
         (LoadForecaster._calculate_hourly_patterns historical_data)
         (Time.hour target_time) default
       = LoadForecaster.dict_get
           (LoadForecaster._calculate_hourly_patterns historical_data)
           (Time.hour target_time) 0.
Proof.
  assert (H : forall default,
            LoadForecaster.dict_get
              (LoadForecaster._calculate_hourly_patterns historical_data)
              (Time.hour target_time) default
            = LoadForecaster.dict_get
                (LoadForecaster._calculate_hourly_patterns historical_data)
                (Time.hour target_time) 0).
  { intro default. rewrite !hourly_pattern_at. reflexivity. }
  split; [|exact H].
  unfold LoadForecaster.predicted_kw_at. cbv zeta.
  rewrite (H (Transformer.rated_kw tr * 0.7)), (H (Transformer.rated_kw tr' * 0.7)).
  reflexivity.
Qed.

Lemma hour_loads_Forall (P : Q -> Prop) (hour : Z) (historical_data : list TransformerLoad.t) :
  Forall (fun r => P (TransformerLoad.load_kw r)) historical_data ->
  Forall P (LoadForecaster.hour_loads hour historical_data).
Proof.
  intro H. unfold LoadForecaster.hour_loads.
  apply Forall_map. apply Forall_forall. intros r Hr.
  apply filter_In in Hr. destruct Hr as [Hr _].
  rewrite Forall_forall in H. apply H. exact Hr.
Qed.

(** The starting average lies between the smallest and the largest reading
    of the window. *)
Lemma hourly_pattern_bounds (historical_data : list TransformerLoad.t) (t : datetime)
      (default lo hi : Q) :
  historical_data <> [] ->
  Forall (fun r => lo <= TransformerLoad.load_kw r <= hi) historical_data ->
  lo <= LoadForecaster.dict_get
          (LoadForecaster._calculate_hourly_patterns historical_data)
          (Time.hour t) default <= hi.
Proof.
  intros Hne Hall. rewrite hourly_pattern_at.
  destruct (LoadForecaster.hour_loads (Time.hour t) historical_data) as [|x l] eqn:Hh.
  - destruct historical_data as [|r rest]; [contradiction|].
    cbn [map]. apply mean_bounds; [discriminate|].
    change (TransformerLoad.load_kw r :: map TransformerLoad.load_kw rest)
      with (map TransformerLoad.load_kw (r :: rest)).
    apply Forall_map. exact Hall.
  - apply mean_bounds; [discriminate|].
    rewrite <- Hh. apply hour_loads_Forall. exact Hall.
Qed.

(** X8. Without temperature data the forecaster stays close to what it has
    seen: when every reading of the window lies between [lo >= 0] and
    [hi], every predicted load lies between 80.75% of [lo] (a weekend
    night) and 110% of [hi] (a weekday afternoon). *)
Theorem predicted_kw_within_readings
        (tr : Transformer.t) (historical_data : list TransformerLoad.t)
        (target_time : datetime) (lo hi : Q) :
  historical_data <> [] ->
  Forall (fun r => lo <= TransformerLoad.load_kw r <= hi) historical_data ->
  0 <= lo ->
  LoadForecaster.temps historical_data = [] ->
  0.8075 * lo <= LoadForecaster.predicted_kw_at tr historical_data target_time
  /\ LoadForecaster.predicted_kw_at tr historical_data target_time <= 1.1 * hi.
Proof.
  intros Hne Hall Hlo Htemps.
  unfold LoadForecaster.predicted_kw_at, LoadForecaster._estimate_temperature_factor.
  cbv zeta. rewrite Htemps.
  destruct (hourly_pattern_bounds historical_data target_time
              (Transformer.rated_kw tr * 0.7) lo hi Hne Hall) as [H1 H2].
  set (base := LoadForecaster.dict_get _ _ _) in *.
  destruct (LoadForecaster.is_weekend (Time.weekday target_time));
    destruct (LoadForecaster.between 12 (Time.hour target_time) 18);
    try destruct (LoadForecaster.between 6 (Time.hour target_time) 11
                  || LoadForecaster.between 19 (Time.hour target_time) 22);
    split; lra.
Qed.

Lemma predicted_kw_within_readings_witness :
  0.8075 * 100.01
  <= LoadForecaster.predicted_kw_at Example.T07 Example.thursday_readings
       Example.saturday_noon
  /\ LoadForecaster.predicted_kw_at Example.T07 Example.thursday_readings
       Example.saturday_noon <= 1.1 * 100.01.
Proof.
  apply predicted_kw_within_readings.
  - discriminate.
  - repeat constructor; cbn; lra.
  - lra.
  - reflexivity.
Defined.

(** X9. The temperature factor.  It is never below 0.95.  Without
    temperature data it is 1.10 from 12h to 18h, 1.0 from 6h to 11h and
    from 19h to 22h, 0.95 in the night.  With temperature data it never
    lowers a prediction, and it leaves it unchanged when the mean recorded
    temperature is at most 22 degrees. *)
Theorem temperature_factor_range
        (target_time : datetime) (historical_data : list TransformerLoad.t) :
  let factor :=
    LoadForecaster._estimate_temperature_factor target_time historical_data in
  let hour := Time.hour target_time in
  0.95 <= factor
  /\ (LoadForecaster.temps historical_data = [] ->
      ((12 <= hour <= 18)%Z -> factor = 1.10)
      /\ ((6 <= hour <= 11)%Z \/ (19 <= hour <= 22)%Z -> factor = 1.0)
      /\ ((hour <= 5)%Z \/ (23 <= hour)%Z -> factor = 0.95))
  /\ (LoadForecaster.temps historical_data <> [] ->
      1 <= factor
      /\ (Py.mean (LoadForecaster.temps historical_data) <= 22 -> factor == 1)).
Proof.
  intros factor hour. subst factor.
  unfold LoadForecaster._estimate_temperature_factor. fold hour.
  destruct (LoadForecaster.temps historical_data) as [|c cs] eqn:Ht.
  - unfold LoadForecaster.between.
    destruct (12 <=? hour)%Z eqn:E1; destruct (hour <=? 18)%Z eqn:E2;
      destruct (6 <=? hour)%Z eqn:E3; destruct (hour <=? 11)%Z eqn:E4;
      destruct (19 <=? hour)%Z eqn:E5; destruct (hour <=? 22)%Z eqn:E6;
      cbn [andb orb];
      rewrite ?Z.leb_le, ?Z.leb_gt in *;
      (split; [lra|]); (split; [|intro H; exfalso; apply H; reflexivity]);
      intros _; repeat split; intros; try reflexivity; exfalso; lia.
  - set (avg := Py.mean (c :: cs)).
    set (est := if LoadForecaster.between 12 hour 16 then avg + 3
                else if LoadForecaster.between 17 hour 20 then avg + 1
                else if LoadForecaster.between 0 hour 6 then avg - 3
                else avg).
    assert (Hest : est <= avg + 3).
    { unfold est.
      destruct (LoadForecaster.between 12 hour 16); [lra|].
      destruct (LoadForecaster.between 17 hour 20); [lra|].
      destruct (LoadForecaster.between 0 hour 6); lra. }
    qcase (Py.Qlt_bool 25 est).
    + split; [lra|]. split; [intro H; discriminate|].
      intros _. split; [lra|]. intro Havg. exfalso. lra.
    + split; [lra|]. split; [intro H; discriminate|].
      intros _. split; [lra|]. intros _. reflexivity.
Qed.

Lemma temps_app (l1 l2 : list TransformerLoad.t) :
  LoadForecaster.temps (l1 ++ l2) = LoadForecaster.temps l1 ++ LoadForecaster.temps l2.
Proof. unfold LoadForecaster.temps. apply flat_map_app. Qed.

(** X10. A reading whose temperature is exactly 0 degrees is treated by the
    temperature adjustment as a reading without temperature: it is not
    among the temperatures that are averaged (the window without it has
    the same ones), and the factor is what it would be if the reading
    carried no temperature at all. *)
Theorem temperature_factor_ignores_zero_readings
        (target_time : datetime) (before after : list TransformerLoad.t)
        (r : TransformerLoad.t) (c : Q) :
  TransformerLoad.temp_c r = Some c ->
  c == 0 ->
  LoadForecaster.temps (before ++ r :: after)
  = LoadForecaster.temps (before ++ TransformerLoad.with_temp_c r None :: after)
  /\ LoadForecaster.temps (before ++ r :: after)
     = LoadForecaster.temps (before ++ after)
  /\ LoadForecaster._estimate_temperature_factor target_time (before ++ r :: after)
     = LoadForecaster._estimate_temperature_factor target_time
         (before ++ TransformerLoad.with_temp_c r None :: after).
Proof.
  intros Hr Hc.
  assert (E1 : LoadForecaster.temps (before ++ r :: after)
               = LoadForecaster.temps (before ++ after)).
  { rewrite !temps_app. f_equal.
    unfold LoadForecaster.temps. cbn [flat_map]. rewrite Hr.
    apply Qeq_bool_iff in Hc. rewrite Hc. reflexivity. }
  assert (E2 : LoadForecaster.temps
                 (before ++ TransformerLoad.with_temp_c r None :: after)
               = LoadForecaster.temps (before ++ after)).
  { rewrite !temps_app. reflexivity. }
  split; [rewrite E1, E2; reflexivity|]. split; [exact E1|].
  unfold LoadForecaster._estimate_temperature_factor. rewrite E1, E2. reflexivity.
Qed.

Lemma temperature_factor_ignores_zero_readings_witness :
  LoadForecaster._estimate_temperature_factor Example.friday_noon
    ([Example.reading20] ++ Example.reading07_frost :: [])
  = LoadForecaster._estimate_temperature_factor Example.friday_noon
      ([Example.reading20]
         ++ TransformerLoad.with_temp_c Example.reading07_frost None :: []).
Proof.
  apply (temperature_factor_ignores_zero_readings Example.friday_noon
           [Example.reading20] [] Example.reading07_frost 0.0 eq_refl).
  reflexivity.
Defined.

(** The confidence of an hourly prediction lies between 0.30 and 0.95,
    whatever the standard deviation comes to. *)
Lemma calculate_confidence_bounds
      (np_sqrt : Q -> Q) (hour_of_day : Z) (historical_data : list TransformerLoad.t) :
  0.30 <= LoadForecaster._calculate_confidence np_sqrt hour_of_day historical_data
  /\ LoadForecaster._calculate_confidence np_sqrt hour_of_day historical_data <= 0.95.
Proof.
  unfold LoadForecaster._calculate_confidence.
  set (loads := LoadForecaster.hour_loads hour_of_day historical_data).
  destruct (List.length loads <? 3)%nat eqn:E3; [split; lra|].
  apply Nat.ltb_ge in E3.
  qcase (Qeq_bool (Py.mean loads) 0); [split; lra|].
  set (cv := LoadForecaster.np_std np_sqrt loads / Py.mean loads).
  set (base := Qmax 0.70 (Qmin 0.95 (1.0 - cv))).
  set (factor := Qmin 1.0 (Py.len loads / 7)).
  assert (Hbase : 0.70 <= base <= 0.95).
  { unfold base. split; [apply Q.le_max_l|].
    apply Q.max_lub; [lra | apply Q.le_min_l]. }
  assert (Hlen : 3 <= Py.len loads).
  { unfold Py.len. change 3 with (inject_Z 3). rewrite <- Zle_Qle. lia. }
  assert (Hfactor : (3 # 7) <= factor <= 1).
  { unfold factor. split.
    - apply Q.min_glb; [lra|]. apply Qle_shift_div_l; lra.
    - eapply Qle_trans; [apply Q.le_min_l | lra]. }
  split.
  - setoid_replace 0.30 with (0.70 * (3 # 7)) by reflexivity.
    apply Qmult_le_compat_nonneg; split; try lra; apply Hbase || apply Hfactor.
  - setoid_replace 0.95 with (0.95 * 1) by reflexivity.
    apply Qmult_le_compat_nonneg; split; try lra; apply Hbase || apply Hfactor.
Qed.

(** X11. The confidence of an hourly prediction, whatever the standard
    deviation comes to: 0.60 with fewer than three readings at that hour of
    the day; otherwise between 0.30 and 0.95, and at most 0.95 times
    [min(1, n / 7)] for [n] readings of mean other than 0 (with three or
    four readings this is below the 0.60 given to fewer readings); at least
    0.70 with seven or more readings. *)
Theorem hourly_confidence_range
        (np_sqrt : Q -> Q) (hour_of_day : Z)
        (historical_data : list TransformerLoad.t) :
  let loads := LoadForecaster.hour_loads hour_of_day historical_data in
  let confidence :=
    LoadForecaster._calculate_confidence np_sqrt hour_of_day historical_data in
  0.30 <= confidence <= 0.95
  /\ ((List.length loads < 3)%nat -> confidence = 0.60)
  /\ ((3 <= List.length loads)%nat -> ~ Py.mean loads == 0 ->
      confidence <= 0.95 * Qmin 1.0 (Py.len loads / 7))
  /\ ((7 <= List.length loads)%nat -> 0.70 <= confidence).
Proof.
  intros loads confidence. subst confidence.
  split; [apply calculate_confidence_bounds|].
  unfold LoadForecaster._calculate_confidence. fold loads.
  destruct (List.length loads <? 3)%nat eqn:E3.
  { apply Nat.ltb_lt in E3.
    split; [reflexivity | split; intros; lia]. }
  apply Nat.ltb_ge in E3.
  split; [intro; lia|].
  qcase (Qeq_bool (Py.mean loads) 0).
  { split; [intros _ H; contradiction | intro; lra]. }
  set (cv := LoadForecaster.np_std np_sqrt loads / Py.mean loads).
  set (base := Qmax 0.70 (Qmin 0.95 (1.0 - cv))).
  assert (Hbase : 0.70 <= base <= 0.95).
  { unfold base. split; [apply Q.le_max_l|].
    apply Q.max_lub; [lra | apply Q.le_min_l]. }
  assert (Hlen : 3 <= Py.len loads).
  { unfold Py.len. change 3 with (inject_Z 3). rewrite <- Zle_Qle. lia. }
  assert (Hfactor : 0 <= Qmin 1.0 (Py.len loads / 7)).
  { apply Q.min_glb; [lra|]. apply Qle_shift_div_l; lra. }
  split.
  - intros _ _. apply Qmult_le_compat_r; [apply Hbase | exact Hfactor].
  - intro H7.
    assert (Hlen7 : 7 <= Py.len loads).
    { unfold Py.len. change 7 with (inject_Z 7). rewrite <- Zle_Qle. lia. }
    assert (Hone : Qmin 1.0 (Py.len loads / 7) == 1).
    { rewrite Q.min_l; [reflexivity|]. apply Qle_shift_div_l; lra. }
    rewrite Hone. lra.
Qed.

(* ================================================================= *)
(** ** The forecaster: the forecast as a whole *)

Section ForecastLoop.

Variable np_sqrt : Q -> Q.
Variable tr : Transformer.t.
Variable hist : list TransformerLoad.t.
Variable now : datetime.

Local Abbreviation kw :=
  (fun k => LoadForecaster.predicted_kw_at tr hist (now + Time.hours k)%Z).
Local Abbreviation pct :=
  (fun k => LoadForecaster.predicted_pct_at tr hist (now + Time.hours k)%Z).

Lemma step_peak (a : LoadForecaster.acc) (k : Z) :
  let a' := LoadForecaster.step np_sqrt tr hist now a k in
  (LoadForecaster.peak_kw a < kw k
   /\ LoadForecaster.peak_kw a' = kw k
   /\ LoadForecaster.peak_time a' = (now + Time.hours k)%Z
   /\ LoadForecaster.peak_pct a' = pct k)
  \/ (kw k <= LoadForecaster.peak_kw a
      /\ LoadForecaster.peak_kw a' = LoadForecaster.peak_kw a
      /\ LoadForecaster.peak_time a' = LoadForecaster.peak_time a
      /\ LoadForecaster.peak_pct a' = LoadForecaster.peak_pct a).
Proof.
  cbv zeta. unfold LoadForecaster.step.
  qcase (Py.Qlt_bool (LoadForecaster.peak_kw a)
           (LoadForecaster.predicted_kw_at tr hist (now + Time.hours k)%Z)).
  - left. repeat split. exact E.
  - right. repeat split. exact E.
Qed.

(** The peak the loop ends with: the one it started from when no hour
    exceeds it, else the first hour that reaches the largest prediction. *)
Lemma fold_step_peak (offsets : list Z) (a : LoadForecaster.acc) :
  let final := fold_left (LoadForecaster.step np_sqrt tr hist now) offsets a in
  ((forall j, In j offsets -> kw j <= LoadForecaster.peak_kw a)
   /\ LoadForecaster.peak_kw final = LoadForecaster.peak_kw a
   /\ LoadForecaster.peak_time final = LoadForecaster.peak_time a
   /\ LoadForecaster.peak_pct final = LoadForecaster.peak_pct a)
  \/ (exists before k after,
        offsets = before ++ k :: after
        /\ LoadForecaster.peak_kw a < kw k
        /\ (forall j, In j before -> kw j < kw k)
        /\ (forall j, In j after -> kw j <= kw k)
        /\ LoadForecaster.peak_kw final = kw k
        /\ LoadForecaster.peak_time final = (now + Time.hours k)%Z
        /\ LoadForecaster.peak_pct final = pct k).
Proof.
  revert a. induction offsets as [|k rest IH]; intro a; cbn [fold_left].
  - left. split; [intros j []|]. repeat split.
  - specialize (IH (LoadForecaster.step np_sqrt tr hist now a k)). cbv zeta in IH.
    destruct (step_peak a k) as [(Hlt & E1 & E2 & E3) | (Hle & E1 & E2 & E3)].
    + destruct IH as [(Hall & F1 & F2 & F3) | (b & k' & af & Hsplit & Hk' & Hb & Ha & F1 & F2 & F3)].
      * right. exists [], k, rest. cbn [app].
        split; [reflexivity|]. split; [exact Hlt|].
        split; [intros j []|].
        split; [intros j Hj; rewrite <- E1; apply Hall; exact Hj|].
        rewrite F1, F2, F3, E1, E2, E3. repeat split.
      * right. exists (k :: b), k', af.
        rewrite E1 in Hk'.
        split; [rewrite Hsplit; reflexivity|].
        split; [eapply Qlt_trans; eassumption|].
        split; [intros j [<- | Hj]; [exact Hk' | apply Hb; exact Hj]|].
        split; [exact Ha|]. repeat split; assumption.
    + destruct IH as [(Hall & F1 & F2 & F3) | (b & k' & af & Hsplit & Hk' & Hb & Ha & F1 & F2 & F3)].
      * left. rewrite E1 in Hall.
        split; [intros j [<- | Hj]; [exact Hle | apply Hall; exact Hj]|].
        rewrite F1, F2, F3, E1, E2, E3. repeat split.
      * right. exists (k :: b), k', af.
        rewrite E1 in Hk'.
        split; [rewrite Hsplit; reflexivity|].
        split; [exact Hk'|].
        split; [intros j [<- | Hj];
                [eapply Qle_lt_trans; eassumption | apply Hb; exact Hj]|].
        split; [exact Ha|]. repeat split; assumption.
Qed.

End ForecastLoop.

(** X12. The outcome of [forecast].  With fewer than 24 readings of the
    unit in the lookback window it raises, naming the unit and the number
    of readings found; otherwise it returns a forecast of the unit with one
    prediction for each hour of the horizon, the [k]-th of them for the
    time [now + k] hours. *)
Theorem forecast_outcome
        (np_sqrt : Q -> Q) (self : LoadForecaster.t) (db : DB.t) (tr : Transformer.t)
        (hours_ahead : nat) :
  let historical_data := LoadForecaster.historical_data self db tr in
  let count := List.length historical_data in
  ((count < 24)%nat ->
   LoadForecaster.forecast np_sqrt self db tr hours_ahead
   = Py.Raise (Py.ValueError
                 ("Insufficient data for " ++ Transformer.name tr
                  ++ ". Need at least 24 hours, have " ++ Py.string_of_nat count)))
  /\ ((24 <= count)%nat ->
      exists f,
        LoadForecaster.forecast np_sqrt self db tr hours_ahead = Py.Ok f
        /\ LoadForecast.transformer f = Transformer.id tr
        /\ LoadForecast.forecast_horizon_hours f = hours_ahead
        /\ List.length (LoadForecast.predictions f) = hours_ahead
        /\ forall k, (k < hours_ahead)%nat ->
             exists entry,
               nth_error (LoadForecast.predictions f) k = Some entry
               /\ Prediction.timestamp entry = (DB.now db + 60 * Z.of_nat k)%Z)
  /\ (forall r, In r historical_data ->
        TransformerLoad.transformer r = Transformer.id tr
        /\ (DB.now db - 1440 * LoadForecaster.lookback_days self
            <= TransformerLoad.timestamp r)%Z).
Proof.
  intros historical_data count.
  split; [|split].
  - intro Hlt. unfold LoadForecaster.forecast. fold historical_data. fold count.
    apply Nat.ltb_lt in Hlt. rewrite Hlt. reflexivity.
  - intro Hge.
    destruct (LoadForecaster.forecast np_sqrt self db tr hours_ahead) as [f|e] eqn:Hf.
    2: { exfalso. unfold LoadForecaster.forecast in Hf.
         fold historical_data in Hf. fold count in Hf.
         apply Nat.ltb_ge in Hge. rewrite Hge in Hf. discriminate. }
    pose proof (forecast_predictions np_sqrt self db tr hours_ahead f Hf) as Hp.
    exists f. split; [reflexivity|].
    assert (Hfields : LoadForecast.transformer f = Transformer.id tr
                      /\ LoadForecast.forecast_horizon_hours f = hours_ahead).
    { unfold LoadForecaster.forecast in Hf.
      destruct (List.length (LoadForecaster.historical_data self db tr) <? 24)%nat;
        [discriminate|].
      injection Hf as <-. split; reflexivity. }
    destruct Hfields as [H1 H2].
    split; [exact H1 | split; [exact H2|]].
    rewrite Hp. unfold range. rewrite !length_map, length_seq.
    split; [reflexivity|].
    intros k Hk. eexists. split.
    + rewrite map_map. apply map_nth_error.
      rewrite nth_error_nth' with (d := 0%nat) by (rewrite length_seq; exact Hk).
      rewrite seq_nth by exact Hk. reflexivity.
    + reflexivity.
  - intros r Hr. unfold historical_data, LoadForecaster.historical_data in Hr.
    apply filter_In in Hr. destruct Hr as [Hin Hcut].
    unfold DB.loads_of in Hin. apply filter_In in Hin. destruct Hin as [_ Hid].
    apply Z.eqb_eq in Hid. apply Z.leb_le in Hcut.
    unfold Time.days in Hcut. split; assumption.
Qed.

Lemma forecast_outcome_witness :
  exists f,
    LoadForecaster.forecast Example.np_sqrt LoadForecaster.default Example.db_week
      Example.T07 48 = Py.Ok f
    /\ List.length (LoadForecast.predictions f) = 48%nat.
Proof.
  assert (H : (24 <= List.length
                       (LoadForecaster.historical_data LoadForecaster.default
                          Example.db_week Example.T07))%nat)
    by (vm_compute; lia).
  destruct (proj1 (proj2 (forecast_outcome Example.np_sqrt LoadForecaster.default
                            Example.db_week Example.T07 48)) H)
    as (f & Hf & _ & _ & Hlen & _).
  exists f. split; [exact Hf | exact Hlen].
Defined.

(** X13. The peak of a forecast.  No prediction entry is above the recorded
    peak.  If no hour of the horizon has a positive prediction, the
    forecast records a peak of 0 kW and 0% at the time it was made;
    otherwise the peak is taken at the first hour whose prediction is the
    largest of the horizon, and the recorded peak time, load and percentage
    are those of that hour's entry. *)
Theorem forecast_peak
        (np_sqrt : Q -> Q) (self : LoadForecaster.t) (db : DB.t) (tr : Transformer.t)
        (hours_ahead : nat) (f : LoadForecast.t) :
  LoadForecaster.forecast np_sqrt self db tr hours_ahead = Py.Ok f ->
  let hist := LoadForecaster.historical_data self db tr in
  let time := fun k => (DB.now db + Time.hours k)%Z in
  let kw := fun k => LoadForecaster.predicted_kw_at tr hist (time k) in
  (forall entry, In entry (LoadForecast.predictions f) ->
     Prediction.predicted_kw entry <= LoadForecast.peak_predicted_kw f)
  /\ (((forall k, In k (range hours_ahead) -> kw k <= 0)
       /\ LoadForecast.peak_predicted_kw f == 0
       /\ LoadForecast.peak_predicted_pct f == 0
       /\ LoadForecast.peak_time f = DB.now db)
      \/ (exists before k after,
            range hours_ahead = before ++ k :: after
            /\ 0 < kw k
            /\ (forall j, In j before -> kw j < kw k)
            /\ (forall j, In j after -> kw j <= kw k)
            /\ LoadForecast.peak_time f = time k
            /\ In (LoadForecaster.prediction_at np_sqrt tr hist (time k))
                  (LoadForecast.predictions f)
            /\ LoadForecast.peak_predicted_kw f
               = Prediction.predicted_kw
                   (LoadForecaster.prediction_at np_sqrt tr hist (time k))
            /\ LoadForecast.peak_predicted_pct f
               = Prediction.predicted_pct
                   (LoadForecaster.prediction_at np_sqrt tr hist (time k)))).
Proof.
  intros Hf hist time kw.
  pose proof (forecast_predictions np_sqrt self db tr hours_ahead f Hf) as Hp.
  fold hist in Hp.
  unfold LoadForecaster.forecast in Hf. fold hist in Hf.
  destruct (List.length hist <? 24)%nat; [discriminate|].
  injection Hf as Hf.
  set (acc0 := {| LoadForecaster.predictions := []; LoadForecaster.peak_kw := 0;
                  LoadForecaster.peak_time := DB.now db;
                  LoadForecaster.peak_pct := 0 |}) in *.
  pose proof (fold_step_peak np_sqrt tr hist (DB.now db) (range hours_ahead) acc0) as Hpeak.
  cbv zeta in Hpeak.
  set (final := fold_left (LoadForecaster.step np_sqrt tr hist (DB.now db))
                          (range hours_ahead) acc0) in *.
  assert (Hkw : LoadForecast.peak_predicted_kw f
                = Py.round (LoadForecaster.peak_kw final) 2) by (rewrite <- Hf; reflexivity).
  assert (Hpct : LoadForecast.peak_predicted_pct f
                 = Py.round (LoadForecaster.peak_pct final) 2) by (rewrite <- Hf; reflexivity).
  assert (Htime : LoadForecast.peak_time f = LoadForecaster.peak_time final)
    by (rewrite <- Hf; reflexivity).
  assert (Hmax : forall k, In k (range hours_ahead) -> kw k <= LoadForecaster.peak_kw final).
  { intros k Hk.
    destruct Hpeak as [(Hall & F1 & _) | (b & k' & af & Hsplit & Hk' & Hb & Ha & F1 & _)];
      rewrite F1.
    - apply Hall. exact Hk.
    - rewrite Hsplit in Hk. apply in_app_or in Hk.
      destruct Hk as [Hk | [<- | Hk]].
      + apply Qlt_le_weak. apply Hb. exact Hk.
      + apply Qle_refl.
      + apply Ha. exact Hk. }
  split.
  - intros entry Hentry. rewrite Hp in Hentry.
    apply in_map_iff in Hentry. destruct Hentry as (k & <- & Hk).
    rewrite Hkw. cbn [LoadForecaster.prediction_at Prediction.predicted_kw].
    apply round_mono. apply Hmax. exact Hk.
  - destruct Hpeak as [(Hall & F1 & F2 & F3) | (b & k & af & Hsplit & Hk & Hb & Ha & F1 & F2 & F3)].
    + left. split; [exact Hall|].
      rewrite Hkw, Hpct, Htime, F1, F2, F3.
      repeat split; reflexivity.
    + right. exists b, k, af.
      split; [exact Hsplit|]. split; [exact Hk|]. split; [exact Hb|]. split; [exact Ha|].
      split; [rewrite Htime; exact F2|].
      split.
      { rewrite Hp. apply in_map_iff. exists k. split; [reflexivity|].
        rewrite Hsplit. apply in_or_app. right. left. reflexivity. }
      split.
      * rewrite Hkw, F1. reflexivity.
      * rewrite Hpct, F3. reflexivity.
Qed.

Lemma forecast_peak_witness :
  exists f,
    LoadForecaster.forecast Example.np_sqrt LoadForecaster.default Example.db_week
      Example.T07 48 = Py.Ok f
    /\ forall entry, In entry (LoadForecast.predictions f) ->
         Prediction.predicted_kw entry <= LoadForecast.peak_predicted_kw f.
Proof.
  destruct (LoadForecaster.forecast Example.np_sqrt LoadForecaster.default Example.db_week
              Example.T07 48) as [f|e] eqn:Hf.
  2: { exfalso. vm_compute in Hf. discriminate. }
  exists f. split; [reflexivity|].
  exact (proj1 (forecast_peak Example.np_sqrt LoadForecaster.default Example.db_week
                  Example.T07 48 f Hf)).
Defined.

Lemma hour_next_day (t : datetime) : Time.hour (t + Time.days 1) = Time.hour t.
Proof.
  unfold Time.hour, Time.days.
  replace (t + 1440 * 1)%Z with (t + 24 * 60)%Z by lia.
  rewrite Z.div_add by lia.
  replace (t / 60 + 24)%Z with (t / 60 + 1 * 24)%Z by lia.
  rewrite Z_mod_plus_full. reflexivity.
Qed.

(** X14. The forecast is a daily profile: the entries for two target times
    24 hours apart carry the same load, percentage and confidence, unless
    exactly one of the two days is a Saturday or Sunday. *)
Theorem prediction_repeats_daily
        (np_sqrt : Q -> Q) (tr : Transformer.t)
        (historical_data : list TransformerLoad.t) (target_time : datetime) :
  LoadForecaster.is_weekend (Time.weekday (target_time + Time.days 1))
  = LoadForecaster.is_weekend (Time.weekday target_time) ->
  let today := LoadForecaster.prediction_at np_sqrt tr historical_data target_time in
  let tomorrow :=
    LoadForecaster.prediction_at np_sqrt tr historical_data
      (target_time + Time.days 1)%Z in
  Prediction.predicted_kw tomorrow = Prediction.predicted_kw today
  /\ Prediction.predicted_pct tomorrow = Prediction.predicted_pct today
  /\ Prediction.confidence tomorrow = Prediction.confidence today
  /\ Prediction.timestamp tomorrow = (Prediction.timestamp today + 1440)%Z.
Proof.
  intros Hwe today tomorrow. subst today tomorrow.
  unfold LoadForecaster.prediction_at.
  cbn [Prediction.predicted_kw Prediction.predicted_pct Prediction.confidence
       Prediction.timestamp].
  assert (Hkw : LoadForecaster.predicted_kw_at tr historical_data (target_time + Time.days 1)
                = LoadForecaster.predicted_kw_at tr historical_data target_time).
  { unfold LoadForecaster.predicted_kw_at, LoadForecaster._estimate_temperature_factor.
    rewrite hour_next_day, Hwe. reflexivity. }
  unfold LoadForecaster.predicted_pct_at.
  rewrite Hkw, hour_next_day.
  repeat split.
Qed.

Lemma prediction_repeats_daily_witness :
  Prediction.predicted_kw
    (LoadForecaster.prediction_at Example.np_sqrt Example.T07 Example.thursday_readings
       (720 + Time.days 1)%Z)
  = Prediction.predicted_kw
      (LoadForecaster.prediction_at Example.np_sqrt Example.T07
         Example.thursday_readings 720%Z).
Proof.
  apply (prediction_repeats_daily Example.np_sqrt Example.T07 Example.thursday_readings
           720%Z).
  reflexivity.
Defined.

(* ================================================================= *)
(** ** From the forecast to the assessment *)

(** The confidence of an assessment lies between the roundings of any two
    bounds of the confidences of its forecast's entries. *)
Lemma assessment_confidence_bounds (fc : LoadForecast.t) (lo hi : Q) :
  LoadForecast.predictions fc <> [] ->
  Forall (fun p => lo <= Prediction.confidence p <= hi) (LoadForecast.predictions fc) ->
  Py.round lo 3 <= RiskScorer._calculate_assessment_confidence fc
  /\ RiskScorer._calculate_assessment_confidence fc <= Py.round hi 3.
Proof.
  intros Hne Hall. unfold RiskScorer._calculate_assessment_confidence.
  destruct (LoadForecast.predictions fc) as [|p ps] eqn:Hp; [contradiction|].
  assert (Hmean : lo <= Py.mean (map Prediction.confidence (p :: ps)) <= hi).
  { apply mean_bounds; [discriminate|]. apply Forall_map. exact Hall. }
  unfold Py.mean in Hmean. destruct Hmean as [H1 H2].
  split; apply round_mono; assumption.
Qed.

Lemma range_S (n : nat) : range (S n) = range n ++ [Z.of_nat n].
Proof. unfold range. rewrite seq_S, map_app. reflexivity. Qed.

(** The row [latest] picks is one of the rows. *)
Lemma latest_In {A} (key : A -> Z) (rows : list A) (init : option A) (b : A) :
  fold_left
    (fun best r =>
       match best with
       | None => Some r
       | Some b => if (key b <? key r)%Z then Some r else Some b
       end)
    rows init = Some b ->
  init = Some b \/ In b rows.
Proof.
  revert init. induction rows as [|r rest IH]; intros init H; cbn [fold_left] in H.
  - left. exact H.
  - destruct (IH _ H) as [E | Hin]; [|right; right; exact Hin].
    destruct init as [b0|].
    + destruct (key b0 <? key r)%Z.
      * injection E as <-. right. left. reflexivity.
      * left. exact E.
    + injection E as <-. right. left. reflexivity.
Qed.

(** A row added at the end of a table is the latest one when its key is
    above the keys of the rows before it. *)
Lemma latest_newest {A} (key : A -> Z) (rows : list A) (r : A) :
  (forall b, In b rows -> (key b < key r)%Z) ->
  DB.latest key (rows ++ [r]) = Some r.
Proof.
  intro Hnew. unfold DB.latest. rewrite fold_left_app. cbn [fold_left].
  match goal with |- context [fold_left ?f rows None] =>
    destruct (fold_left f rows None) as [b|] eqn:Hb end.
  - destruct (latest_In key rows None b Hb) as [E | Hin]; [discriminate|].
    apply Hnew in Hin. apply Z.ltb_lt in Hin. rewrite Hin. reflexivity.
  - reflexivity.
Qed.

(** X15. From the forecaster to the scorer.  Once a forecast made by the
    forecaster is saved, and the forecasts the table held of the unit are
    older, the bulk scorer takes it as the latest forecast of the unit.  If
    it was made with a horizon of 0 hours it has no predictions, and the
    scorer refuses it; if it was made with a horizon of at least one hour,
    the unit is scored from it, and its assessment covers the window from
    the time the forecast was made to the last hour of the horizon, takes
    over the recorded peak percentage, and has a confidence between 0.30
    and 0.95. *)
Theorem forecast_then_score
        (np_sqrt : Q -> Q) (self : LoadForecaster.t) (db : DB.t)
        (tr : Transformer.t) (hours_ahead : nat) (f : LoadForecast.t) :
  LoadForecaster.forecast np_sqrt self db tr hours_ahead = Py.Ok f ->
  (forall g, In g (DB.load_forecasts db) ->
             LoadForecast.transformer g = Transformer.id tr ->
             (LoadForecast.forecast_generated_at g < DB.now db)%Z) ->
  let saved := DB.save_forecast db f in
  DB.latest_forecast saved tr = Some f
  /\ (hours_ahead = 0%nat ->
      BulkRiskScorer.body saved tr
      = Py.Raise (Py.ValueError ("Forecast for " ++ Transformer.name tr
                                 ++ " has no predictions")))
  /\ ((1 <= hours_ahead)%nat ->
      exists a,
        BulkRiskScorer.body saved tr = Py.Ok (DB.save_assessment saved a, a)
        /\ RiskAssessment.forecast a = f
        /\ RiskAssessment.time_window_start a = DB.now db
        /\ RiskAssessment.time_window_end a
           = (DB.now db + 60 * (Z.of_nat hours_ahead - 1))%Z
        /\ RiskAssessment.overload_pct a = LoadForecast.peak_predicted_pct f
        /\ 0.30 <= RiskAssessment.confidence a <= 0.95).
Proof.
  intros Hf Holder saved.
  pose proof (forecast_predictions np_sqrt self db tr hours_ahead f Hf) as Hp.
  set (hist := LoadForecaster.historical_data self db tr) in *.
  assert (Hid : LoadForecast.transformer f = Transformer.id tr
                /\ LoadForecast.forecast_generated_at f = DB.now db).
  { unfold LoadForecaster.forecast in Hf.
    destruct (List.length (LoadForecaster.historical_data self db tr) <? 24)%nat;
      [discriminate|].
    apply Ok_inj in Hf. rewrite <- Hf. split; reflexivity. }
  destruct Hid as [Hid Hat].
  assert (Hlatest : DB.latest_forecast saved tr = Some f).
  { unfold DB.latest_forecast, saved, DB.save_forecast. cbn [DB.load_forecasts].
    rewrite filter_app. cbn [filter]. rewrite Hid, Z.eqb_refl.
    apply latest_newest. intros g Hg. apply filter_In in Hg. destruct Hg as [Hg Hgt].
    apply Z.eqb_eq in Hgt. rewrite Hat. apply Holder; assumption. }
  split; [exact Hlatest|].
  unfold BulkRiskScorer.body. rewrite Hlatest.
  split.
  - intros ->. unfold RiskScorer.score_transformer. rewrite Hp. reflexivity.
  - intro Hh. destruct hours_ahead as [|n]; [lia|]. clear Hh.
    destruct (RiskScorer.score_transformer saved tr f) as [[db' a]|e] eqn:Hs.
    2: { exfalso. unfold RiskScorer.score_transformer in Hs. rewrite Hp in Hs.
         unfold range in Hs. cbn in Hs. discriminate. }
    destruct (score_transformer_ok _ _ _ _ _ Hs)
      as (Hne & -> & _ & Hfc & _ & Hpct & Hconf & _).
    exists a. split; [reflexivity|]. split; [exact Hfc|].
    assert (Hwindow : RiskAssessment.time_window_start a = DB.now db
                      /\ RiskAssessment.time_window_end a
                         = (DB.now db + 60 * (Z.of_nat (S n) - 1))%Z).
    { unfold RiskScorer.score_transformer in Hs.
      destruct (LoadForecast.predictions f) as [|first rest] eqn:Hpf; [contradiction|].
      injection Hs as _ Ha. rewrite <- Ha.
      match goal with
      | |- context [RiskAssessment.save ?x] =>
          destruct (save_time_window x) as [E1 E2]; rewrite E1, E2
      end.
      cbn [RiskAssessment.time_window_start RiskAssessment.time_window_end].
      split.
      - unfold range in Hp. cbn [seq map] in Hp. injection Hp as -> _.
        cbn [LoadForecaster.prediction_at Prediction.timestamp].
        unfold Time.hours. lia.
      - change (match rest with [] => first | _ :: _ => last rest first end)
          with (last (first :: rest) first).
        rewrite Hp, range_S, map_app. cbn [map]. rewrite last_last.
        cbn [LoadForecaster.prediction_at Prediction.timestamp].
        unfold Time.hours. lia. }
    destruct Hwindow as [Hstart Hend].
    split; [exact Hstart | split; [exact Hend | split; [exact Hpct|]]].
    rewrite Hconf.
    assert (E1 : Py.round 0.30 3 == 0.30) by reflexivity.
    assert (E2 : Py.round 0.95 3 == 0.95) by reflexivity.
    destruct (assessment_confidence_bounds f 0.30 0.95 Hne) as [H1 H2].
    { rewrite Hp. apply Forall_map. apply Forall_forall. intros k _.
      cbn [LoadForecaster.prediction_at Prediction.confidence].
      destruct (calculate_confidence_bounds np_sqrt
                  (Time.hour (DB.now db + Time.hours k)) hist) as [H1 H2].
      split; [rewrite <- E1 | rewrite <- E2]; apply round_mono; assumption. }
    rewrite E1 in H1. rewrite E2 in H2. split; assumption.
Qed.

Lemma forecast_then_score_witness :
  exists f a,
    LoadForecaster.forecast Example.np_sqrt LoadForecaster.default Example.db_week_forecasted
      Example.T07 48 = Py.Ok f
    /\ DB.latest_forecast (DB.save_forecast Example.db_week_forecasted f) Example.T07 = Some f
    /\ BulkRiskScorer.body (DB.save_forecast Example.db_week_forecasted f) Example.T07
       = Py.Ok (DB.save_assessment (DB.save_forecast Example.db_week_forecasted f) a, a)
    /\ RiskAssessment.time_window_start a = 5760%Z.
Proof.
  destruct (LoadForecaster.forecast Example.np_sqrt LoadForecaster.default Example.db_week_forecasted
              Example.T07 48) as [f|e] eqn:Hf.
  2: { exfalso. vm_compute in Hf. discriminate. }
  assert (Holder : forall g, In g (DB.load_forecasts Example.db_week_forecasted) ->
                     LoadForecast.transformer g = Transformer.id Example.T07 ->
                     (LoadForecast.forecast_generated_at g < DB.now Example.db_week_forecasted)%Z)
    by (intros g [<- | []] _; reflexivity).
  destruct (forecast_then_score Example.np_sqrt LoadForecaster.default
              Example.db_week_forecasted Example.T07 48 f Hf Holder)
    as (Hlatest & _ & Hscored).
  destruct Hscored as (a & Hs & _ & Hstart & _); [lia|].
  exists f, a.
  split; [reflexivity | split; [exact Hlatest | split; [exact Hs | exact Hstart]]].
Defined.

(* ================================================================= *)
(** ** The mitigation simulator: what a plan does to the two units *)

Section PlanEffects.

Variable self : MitigationSimulator.t.
Variable db : DB.t.
Variable a : RiskAssessment.t.

Local Abbreviation tr := (RiskAssessment.transformer a).
Local Abbreviation fc := (RiskAssessment.forecast a).

(** The two 50 kW tests a neighbor passed, and the four bounds of its
    transfer. *)
Lemma viable_transfer (info : MitigationSimulator.neighbor_info) :
  MitigationSimulator.skipped self db a info = false ->
  let neighbor := MitigationSimulator.transformer info in
  let available_kw :=
    MitigationSimulator._get_available_capacity db neighbor
      (RiskAssessment.time_window_start a) in
  let transfer_kw :=
    MitigationPlan.expected_load_reduction_kw
      (MitigationSimulator.plan_for self db a info) in
  50 <= available_kw
  /\ available_kw
     == MitigationSimulator.safe_capacity neighbor
        - MitigationSimulator.current_load_kw db neighbor
  /\ 50 <= transfer_kw
  /\ transfer_kw <= MitigationSimulator._calculate_overload_kw a
  /\ transfer_kw <= TopologyLink.max_transfer_kw (MitigationSimulator.link info)
  /\ transfer_kw <= available_kw * MitigationSimulator.safety_margin self
  /\ transfer_kw
     <= LoadForecast.peak_predicted_kw fc * MitigationSimulator.max_transfer_pct self.
Proof.
  intros Hs neighbor available_kw transfer_kw.
  unfold MitigationSimulator.skipped in Hs. apply orb_false_iff in Hs.
  destruct Hs as [H1 H2]. apply Qlt_bool_false in H1, H2.
  fold neighbor in H1, H2. fold available_kw in H1, H2.
  assert (Ht : transfer_kw
               = MitigationSimulator.transfer_kw_for self a available_kw
                   (MitigationSimulator.link info)) by reflexivity.
  rewrite <- Ht in H2.
  split; [exact H1|]. split.
  { unfold available_kw, MitigationSimulator._get_available_capacity in *.
    destruct (Q.max_spec 0 (MitigationSimulator.safe_capacity neighbor
                            - MitigationSimulator.current_load_kw db neighbor))
      as [[_ E]|[Hle E]]; rewrite E in *; [reflexivity | exfalso; lra]. }
  split; [exact H2|].
  rewrite Ht. unfold MitigationSimulator.transfer_kw_for, Py.min4. cbv zeta.
  set (m1 := MitigationSimulator._calculate_overload_kw a).
  set (m2 := TopologyLink.max_transfer_kw (MitigationSimulator.link info)).
  set (m3 := available_kw * MitigationSimulator.safety_margin self).
  set (m4 := LoadForecast.peak_predicted_kw fc * MitigationSimulator.max_transfer_pct self).
  pose proof (Q.le_min_l (Qmin (Qmin m1 m2) m3) m4).
  pose proof (Q.le_min_r (Qmin (Qmin m1 m2) m3) m4).
  pose proof (Q.le_min_l (Qmin m1 m2) m3).
  pose proof (Q.le_min_r (Qmin m1 m2) m3).
  pose proof (Q.le_min_l m1 m2).
  pose proof (Q.le_min_r m1 m2).
  repeat split; lra.
Qed.

End PlanEffects.

(** X16. A plan never overloads the unit that takes the load.  For a
    simulator whose safety margin lies between 0 and 1, every returned plan
    leaves its neighbor, counted from the load the simulator reads for it,
    at or below the neighbor's own safe capacity; the transfer uses at most
    the share [safety_margin] of the neighbor's free capacity. *)
Theorem transfer_keeps_neighbor_safe
        (self : MitigationSimulator.t) (db : DB.t) (a : RiskAssessment.t)
        (max_plans : nat) (plans : list MitigationPlan.t) (p : MitigationPlan.t) :
  MitigationSimulator.generate_plans self db a max_plans = Py.Ok plans ->
  In p plans ->
  0 <= MitigationSimulator.safety_margin self <= 1 ->
  exists info,
    In info (MitigationSimulator._get_neighbors db (RiskAssessment.transformer a))
    /\ PlanData.to_transformer (MitigationPlan.plan_json p)
       = Some (Transformer.id (MitigationSimulator.transformer info))
    /\ MitigationPlan.expected_load_reduction_kw p
       <= MitigationSimulator.safety_margin self
          * (MitigationSimulator.safe_capacity (MitigationSimulator.transformer info)
             - MitigationSimulator.current_load_kw db (MitigationSimulator.transformer info))
    /\ MitigationSimulator.current_load_kw db (MitigationSimulator.transformer info)
       + MitigationPlan.expected_load_reduction_kw p
       <= MitigationSimulator.safe_capacity (MitigationSimulator.transformer info).
Proof.
  intros Hres Hin [Hm0 Hm1].
  destruct (generate_plans_In self db a max_plans plans p Hres Hin)
    as (info & Hinfo & Hs & ->).
  exists info. split; [exact Hinfo|]. split; [reflexivity|].
  destruct (viable_transfer self db a info Hs) as (H50 & Hav & _ & _ & _ & Hcap & _).
  set (t := MitigationPlan.expected_load_reduction_kw
              (MitigationSimulator.plan_for self db a info)) in *.
  set (av := MitigationSimulator._get_available_capacity db
               (MitigationSimulator.transformer info)
               (RiskAssessment.time_window_start a)) in *.
  assert (Hshare : av * MitigationSimulator.safety_margin self <= av * 1).
  { apply Qmult_le_compat_nonneg; split; try lra; apply Qle_refl. }
  split.
  - rewrite <- Hav. rewrite Qmult_comm. exact Hcap.
  - lra.
Qed.

Lemma transfer_keeps_neighbor_safe_witness :
  exists p,
    MitigationSimulator.generate_plans MitigationSimulator.default Example.db
      Example.assessment07 3 = Py.Ok [p]
    /\ MitigationSimulator.current_load_kw Example.db Example.T09
       + MitigationPlan.expected_load_reduction_kw p
       <= MitigationSimulator.safe_capacity Example.T09.
Proof.
  set (p := MitigationSimulator.plan_for MitigationSimulator.default Example.db
              Example.assessment07 Example.neighbor09).
  assert (Hres : MitigationSimulator.generate_plans MitigationSimulator.default Example.db
                   Example.assessment07 3 = Py.Ok [p]) by (vm_compute; reflexivity).
  assert (Hm : 0 <= MitigationSimulator.safety_margin MitigationSimulator.default <= 1)
    by (cbn; split; lra).
  destruct (transfer_keeps_neighbor_safe _ _ _ _ _ p Hres (or_introl eq_refl) Hm)
    as (info & Hinfo & _ & _ & Hsafe).
  exists p. split; [exact Hres|].
  destruct Hinfo as [<- | []]. exact Hsafe.
Defined.

Lemma round2_integer (z : Z) : Py.round (inject_Z z) 2 == inject_Z z.
Proof.
  assert (E : inject_Z z == inject_Z (z * 100) / inject_Z (Py.pow10 2)).
  { rewrite inject_Z_mult. change (inject_Z (Py.pow10 2)) with 100.
    change (inject_Z 100) with 100. field. }
  rewrite E at 1. rewrite round_on_grid. symmetry. exact E.
Qed.

(** X17. A plan never moves more than the overload: after the transfer the
    peak of the overloaded unit still is at or above its safe capacity, so
    for a unit of positive rating the [load_after_pct] a plan records is
    never below the unit's [max_load_pct]. *)
Theorem transfer_never_overcorrects
        (self : MitigationSimulator.t) (db : DB.t) (a : RiskAssessment.t)
        (max_plans : nat) (plans : list MitigationPlan.t) (p : MitigationPlan.t) :
  MitigationSimulator.generate_plans self db a max_plans = Py.Ok plans ->
  In p plans ->
  let tr := RiskAssessment.transformer a in
  let fc := RiskAssessment.forecast a in
  MitigationSimulator.safe_capacity tr
  <= LoadForecast.peak_predicted_kw fc - MitigationPlan.expected_load_reduction_kw p
  /\ (0 < Transformer.rated_kw tr ->
      exists load_after_pct,
        PlanData.load_after_pct (MitigationPlan.plan_json p) = Some (Json.Num load_after_pct)
        /\ inject_Z (Transformer.max_load_pct tr) <= load_after_pct).
Proof.
  intros Hres Hin tr fc.
  destruct (generate_plans_In self db a max_plans plans p Hres Hin)
    as (info & _ & Hs & ->).
  destruct (generate_plans_ok self db a max_plans plans Hres) as (Hov & _).
  destruct (viable_transfer self db a info Hs) as (_ & _ & _ & Hle & _).
  set (t := MitigationPlan.expected_load_reduction_kw
              (MitigationSimulator.plan_for self db a info)) in *.
  assert (Hsafe : MitigationSimulator.safe_capacity tr
                  <= LoadForecast.peak_predicted_kw fc - t).
  { unfold MitigationSimulator._calculate_overload_kw in Hov, Hle. cbv zeta in Hov, Hle.
    fold tr in Hov, Hle. fold fc in Hov, Hle.
    destruct (Q.max_spec 0 (LoadForecast.peak_predicted_kw fc
                            - MitigationSimulator.safe_capacity tr))
      as [[_ E]|[Hneg E]]; rewrite E in Hov, Hle; lra. }
  split; [exact Hsafe|].
  intro Hpos. eexists. split; [reflexivity|].
  rewrite <- (round2_integer (Transformer.max_load_pct tr)).
  apply round_mono.
  fold (MitigationSimulator.new_peak_pct tr fc t).
  unfold MitigationSimulator.new_peak_pct. fold fc.
  unfold MitigationSimulator.safe_capacity in Hsafe.
  set (r := Transformer.rated_kw tr) in *.
  set (m := inject_Z (Transformer.max_load_pct tr)) in *.
  assert (Hr : ~ r == 0) by (intro H0; rewrite H0 in Hpos; apply (Qlt_irrefl _ Hpos)).
  assert (E : m == r * (m / 100.0) / r * 100) by (field; exact Hr).
  rewrite E.
  apply Qmult_le_compat_r; [|lra].
  apply Qmult_le_compat_r; [exact Hsafe|].
  apply Qlt_le_weak. apply Qinv_lt_0_compat. exact Hpos.
Qed.

Lemma transfer_never_overcorrects_witness :
  exists p load_after_pct,
    MitigationSimulator.generate_plans MitigationSimulator.default Example.db
      Example.assessment07 3 = Py.Ok [p]
    /\ PlanData.load_after_pct (MitigationPlan.plan_json p) = Some (Json.Num load_after_pct)
    /\ inject_Z (Transformer.max_load_pct Example.T07) <= load_after_pct.
Proof.
  set (p := MitigationSimulator.plan_for MitigationSimulator.default Example.db
              Example.assessment07 Example.neighbor09).
  assert (Hres : MitigationSimulator.generate_plans MitigationSimulator.default Example.db
                   Example.assessment07 3 = Py.Ok [p]) by (vm_compute; reflexivity).
  assert (Hpos : 0 < Transformer.rated_kw Example.T07) by reflexivity.
  destruct (proj2 (transfer_never_overcorrects _ _ _ _ _ p Hres (or_introl eq_refl)) Hpos)
    as (after & Hafter & Hle).
  exists p, after. split; [exact Hres | split; [exact Hafter | exact Hle]].
Defined.

Lemma insert_desc_map {A B} (f : A -> B) (key : B -> Q) (x : A) (l : list A) :
  MitigationSimulator.insert_desc key (f x) (map f l)
  = map f (MitigationSimulator.insert_desc (fun y => key (f y)) x l).
Proof.
  induction l as [|y rest IH]; cbn [map MitigationSimulator.insert_desc].
  - reflexivity.
  - destruct (Py.Qlt_bool (key (f x)) (key (f y))).
    + rewrite IH. reflexivity.
    + reflexivity.
Qed.

(** Sorting the images is the same as sorting by the key of the image. *)
Lemma sorted_reverse_map {A B} (f : A -> B) (key : B -> Q) (l : list A) :
  MitigationSimulator.sorted_reverse key (map f l)
  = map f (MitigationSimulator.sorted_reverse (fun y => key (f y)) l).
Proof.
  unfold MitigationSimulator.sorted_reverse.
  induction l as [|x rest IH]; cbn [map fold_right].
  - reflexivity.
  - rewrite IH. apply insert_desc_map.
Qed.

Lemma filter_split_perm {A} (f : A -> bool) (l : list A) :
  Permutation (filter f l ++ filter (fun x => negb (f x)) l) l.
Proof.
  induction l as [|x rest IH]; cbn [filter].
  - apply perm_nil.
  - destruct (f x); cbn [negb app].
    + apply perm_skip. exact IH.
    + apply Permutation_sym, Permutation_cons_app, Permutation_sym. exact IH.
Qed.

(** X18. Plans use links, and each link at most once.  The plans of a call
    are the plans of some of the unit's neighbors, each taken at most once:
    every plan belongs to a stored link that is active, leaves the assessed
    unit and leads to the plan's receiving unit, no link row yields two
    plans, and there are never more plans than active outgoing links. *)
Theorem plans_use_distinct_active_links
        (self : MitigationSimulator.t) (db : DB.t) (a : RiskAssessment.t)
        (max_plans : nat) (plans : list MitigationPlan.t) :
  MitigationSimulator.generate_plans self db a max_plans = Py.Ok plans ->
  let tr := RiskAssessment.transformer a in
  exists used unused,
    plans = map (MitigationSimulator.plan_for self db a) used
    /\ Permutation (used ++ unused)%list (MitigationSimulator._get_neighbors db tr)
    /\ (List.length plans <= List.length (DB.outgoing_links db tr))%nat
    /\ forall info, In info used ->
         In (MitigationSimulator.link info) (DB.topology_links db)
         /\ TopologyLink.is_active (MitigationSimulator.link info) = true
         /\ TopologyLink.from_transformer (MitigationSimulator.link info)
            = Transformer.id tr
         /\ MitigationSimulator.transformer info
            = TopologyLink.to_transformer (MitigationSimulator.link info)
         /\ PlanData.to_transformer
              (MitigationPlan.plan_json (MitigationSimulator.plan_for self db a info))
            = Some (Transformer.id
                      (TopologyLink.to_transformer (MitigationSimulator.link info)))
         /\ MitigationSimulator.skipped self db a info = false.
Proof.
  intros Hres tr.
  destruct (generate_plans_ok self db a max_plans plans Hres) as (_ & _ & _ & Hplans).
  fold tr in Hplans.
  set (neighbors := MitigationSimulator._get_neighbors db tr) in *.
  set (viable := fun info => negb (MitigationSimulator.skipped self db a info)) in *.
  set (ranked := MitigationSimulator.sorted_reverse
                   (fun info => MitigationSimulator.sort_key
                                  (MitigationSimulator.plan_for self db a info))
                   (filter viable neighbors)).
  assert (Hranked : Permutation ranked (filter viable neighbors))
    by apply sorted_reverse_perm.
  exists (firstn max_plans ranked),
    (skipn max_plans ranked ++ filter (fun info => negb (viable info)) neighbors)%list.
  assert (Hmap : plans = map (MitigationSimulator.plan_for self db a)
                             (firstn max_plans ranked)).
  { rewrite Hplans, sorted_reverse_map, firstn_map. reflexivity. }
  assert (Hperm : Permutation
                    (firstn max_plans ranked
                     ++ skipn max_plans ranked
                     ++ filter (fun info => negb (viable info)) neighbors)%list
                    neighbors).
  { rewrite app_assoc, firstn_skipn.
    eapply perm_trans; [|apply (filter_split_perm viable)].
    apply Permutation_app_tail. exact Hranked. }
  split; [exact Hmap|]. split; [exact Hperm|]. split.
  - rewrite Hmap, length_map.
    assert (Hn : List.length neighbors = List.length (DB.outgoing_links db tr))
      by (unfold neighbors, MitigationSimulator._get_neighbors; apply length_map).
    rewrite <- Hn, <- (Permutation_length Hperm), length_app. lia.
  - intros info Hin. apply In_firstn in Hin.
    apply (Permutation_in _ Hranked) in Hin.
    apply filter_In in Hin. destruct Hin as [Hin Hv].
    unfold neighbors, MitigationSimulator._get_neighbors in Hin.
    apply in_map_iff in Hin. destruct Hin as (l & <- & Hl).
    unfold DB.outgoing_links in Hl. apply filter_In in Hl. destruct Hl as [Hl Hact].
    apply andb_true_iff in Hact. destruct Hact as [Hfrom Hact].
    apply Z.eqb_eq in Hfrom.
    cbn [MitigationSimulator.link MitigationSimulator.transformer].
    split; [exact Hl|]. split; [exact Hact|]. split; [exact Hfrom|].
    split; [reflexivity|]. split; [reflexivity|].
    apply negb_true_iff. exact Hv.
Qed.

Lemma plans_use_distinct_active_links_witness :
  exists used unused,
    Permutation (used ++ unused)%list
      (MitigationSimulator._get_neighbors Example.db_two Example.T07)
    /\ (forall info, In info used ->
          TopologyLink.is_active (MitigationSimulator.link info) = true).
Proof.
  assert (Hres : MitigationSimulator.generate_plans MitigationSimulator.default
                   Example.db_two Example.assessment07 1
                 = Py.Ok [MitigationSimulator.plan_for MitigationSimulator.default
                            Example.db_two Example.assessment07 Example.neighbor09])
    by (vm_compute; reflexivity).
  destruct (plans_use_distinct_active_links _ _ _ _ _ Hres)
    as (used & unused & _ & Hperm & _ & Hall).
  exists used, unused. split; [exact Hperm|].
  intros info Hin. apply (Hall info Hin).
Defined.

(** X19. The simulated score of every returned plan lies between 0 and 1, is
    the [risk_after] of the plan data, and, for an assessment whose own
    score lies between 0 and 1, the recorded [risk_reduction] lies between
    -1 and 1. *)
Theorem plan_risk_after_unit_range
        (self : MitigationSimulator.t) (db : DB.t) (a : RiskAssessment.t)
        (max_plans : nat) (plans : list MitigationPlan.t) (p : MitigationPlan.t) :
  MitigationSimulator.generate_plans self db a max_plans = Py.Ok plans ->
  In p plans ->
  0 <= MitigationPlan.expected_risk_after p <= 1
  /\ PlanData.risk_after (MitigationPlan.plan_json p)
     = Some (Json.Num (MitigationPlan.expected_risk_after p))
  /\ (0 <= RiskAssessment.risk_score a <= 1 ->
      exists risk_reduction,
        PlanData.risk_reduction (MitigationPlan.plan_json p) = Some (Json.Num risk_reduction)
        /\ -1 <= risk_reduction <= 1).
Proof.
  intros Hres Hin.
  destruct (generate_plans_In self db a max_plans plans p Hres Hin)
    as (info & _ & _ & ->).
  assert (Hafter : 0 <= MitigationPlan.expected_risk_after
                          (MitigationSimulator.plan_for self db a info) <= 1).
  { rewrite plan_for_risk_after. cbv zeta.
    apply round_unit_range. apply weighted_range.
    - apply overload_score_range.
    - apply thermal_score_range.
    - destruct (cascading_score_range db (RiskAssessment.transformer a)). split; lra. }
  split; [exact Hafter|]. split; [reflexivity|].
  intros [Hs0 Hs1]. eexists. split; [reflexivity|].
  set (after := MitigationPlan.expected_risk_after
                  (MitigationSimulator.plan_for self db a info)) in *.
  change (-1 <= Py.round (RiskAssessment.risk_score a - after) 3 <= 1).
  assert (E1 : Py.round (-1) 3 == -1) by reflexivity.
  assert (E2 : Py.round 1 3 == 1) by reflexivity.
  destruct Hafter as [Ha0 Ha1].
  split; [rewrite <- E1 | rewrite <- E2]; apply round_mono; lra.
Qed.

Lemma plan_risk_after_unit_range_witness :
  exists p,
    MitigationSimulator.generate_plans MitigationSimulator.default Example.db
      Example.assessment07 3 = Py.Ok [p]
    /\ 0 <= MitigationPlan.expected_risk_after p <= 1.
Proof.
  set (p := MitigationSimulator.plan_for MitigationSimulator.default Example.db
              Example.assessment07 Example.neighbor09).
  assert (Hres : MitigationSimulator.generate_plans MitigationSimulator.default Example.db
                   Example.assessment07 3 = Py.Ok [p]) by (vm_compute; reflexivity).
  exists p. split; [exact Hres|].
  exact (proj1 (plan_risk_after_unit_range _ _ _ _ _ p Hres (or_introl eq_refl))).
Defined.

(** X20. Asking for fewer plans gives a prefix of what asking for more
    gives: for [k <= n], [generate_plans] with [max_plans = k] raises what
    it raises with [max_plans = n], or returns the first [k] of the plans
    it returns with [max_plans = n]. *)
Theorem generate_plans_prefix
        (self : MitigationSimulator.t) (db : DB.t) (a : RiskAssessment.t)
        (k n : nat) :
  (k <= n)%nat ->
  MitigationSimulator.generate_plans self db a k
  = (plans <- MitigationSimulator.generate_plans self db a n ;;
     Py.Ok (firstn k plans)).
Proof.
  intro Hkn. unfold MitigationSimulator.generate_plans.
  destruct (Qle_bool (MitigationSimulator._calculate_overload_kw a) 0); [reflexivity|].
  destruct (MitigationSimulator._get_neighbors db (RiskAssessment.transformer a))
    as [|info rest]; [reflexivity|].
  destruct (MitigationSimulator.candidate_plans self db a (info :: rest)) as [cands|e];
    unfold Py.bind; [|reflexivity].
  destruct cands as [|c cs]; [reflexivity|].
  rewrite firstn_firstn, Nat.min_l by exact Hkn. reflexivity.
Qed.

Lemma generate_plans_prefix_witness :
  let p09 := MitigationSimulator.plan_for MitigationSimulator.default Example.db_three
               Example.assessment07 Example.neighbor09 in
  let p11 := MitigationSimulator.plan_for MitigationSimulator.default Example.db_three
               Example.assessment07 Example.neighbor11 in
  MitigationSimulator.generate_plans MitigationSimulator.default Example.db_three
    Example.assessment07 2 = Py.Ok [p09; p11]
  /\ MitigationSimulator.generate_plans MitigationSimulator.default Example.db_three
       Example.assessment07 1 = Py.Ok [p09].
Proof.
  intros p09 p11.
  assert (H2 : MitigationSimulator.generate_plans MitigationSimulator.default
                 Example.db_three Example.assessment07 2 = Py.Ok [p09; p11])
    by (vm_compute; reflexivity).
  split; [exact H2|].
  rewrite (generate_plans_prefix MitigationSimulator.default Example.db_three
             Example.assessment07 1 2) by lia.
  rewrite H2. reflexivity.
Defined.

(* ================================================================= *)
(** ** The bulk planner *)

Section Planner.

Variable self : BulkMitigationPlanner.t.
Variable db : DB.t.

Local Abbreviation generate :=
  (fun a => MitigationSimulator.generate_plans (BulkMitigationPlanner.simulator self) db a 3).

(** A plan list returned for [max_plans = 3] has one to three plans. *)
Lemma generate_three (a : RiskAssessment.t) (plans : list MitigationPlan.t) :
  generate a = Py.Ok plans -> (1 <= List.length plans <= 3)%nat.
Proof.
  intro H. cbv beta in H.
  destruct (generate_plans_cases (BulkMitigationPlanner.simulator self) db a 3)
    as [(_ & Hres) | [(_ & _ & Hres) | [(_ & _ & _ & Hres)
       | [(_ & _ & _ & _ & Hres) | (_ & _ & Hv & _ & Hres)]]]];
    rewrite Hres in H; try discriminate.
  apply Ok_inj in H. rewrite <- H.
  rewrite length_firstn, (Permutation_length (sorted_reverse_perm _ _)), length_map.
  destruct (filter _ _); [contradiction | cbn [List.length]; lia].
Qed.

(** What the loop adds to the table and to its two lists. *)
Lemma planner_loop (assessments : list RiskAssessment.t)
      (plan_table : list MitigationPlan.t)
      (successful : list BulkMitigationPlanner.Planned.t)
      (failed : list BulkMitigationPlanner.Failure.t) :
  exists ps fs,
    BulkMitigationPlanner.loop self db assessments plan_table successful failed
    = ((plan_table ++ List.concat (map BulkMitigationPlanner.Planned.plans ps))%list,
       ((successful ++ ps)%list, (failed ++ fs)%list))
    /\ Permutation (map BulkMitigationPlanner.Planned.assessment ps
                    ++ map BulkMitigationPlanner.Failure.assessment fs)%list
                   assessments
    /\ Forall (fun item =>
                 In (BulkMitigationPlanner.Planned.assessment item) assessments
                 /\ generate (BulkMitigationPlanner.Planned.assessment item)
                    = Py.Ok (BulkMitigationPlanner.Planned.plans item)) ps
    /\ Forall (fun item =>
                 In (BulkMitigationPlanner.Failure.assessment item) assessments
                 /\ exists e,
                      generate (BulkMitigationPlanner.Failure.assessment item) = Py.Raise e
                      /\ BulkMitigationPlanner.Failure.error item = Py.str e) fs.
Proof.
  revert plan_table successful failed.
  induction assessments as [|a rest IH]; intros plan_table successful failed;
    cbn [BulkMitigationPlanner.loop].
  - exists [], []. cbn. rewrite !app_nil_r. repeat split; constructor.
  - destruct (MitigationSimulator.generate_plans (BulkMitigationPlanner.simulator self)
                db a 3) as [plans|e] eqn:Hg.
    + destruct (IH (plan_table ++ plans)%list
                   (successful ++ [{| BulkMitigationPlanner.Planned.assessment := a;
                                      BulkMitigationPlanner.Planned.plans := plans |}])%list
                   failed)
        as (ps & fs & Hloop & Hlen & Hps & Hfs).
      exists ({| BulkMitigationPlanner.Planned.assessment := a;
                 BulkMitigationPlanner.Planned.plans := plans |} :: ps), fs.
      rewrite Hloop.
      cbn [map List.concat BulkMitigationPlanner.Planned.plans
           BulkMitigationPlanner.Planned.assessment].
      rewrite <- !app_assoc. cbn [app].
      split; [reflexivity|]. split; [apply perm_skip; exact Hlen|]. split.
      * constructor; [split; [left; reflexivity | exact Hg]|].
        eapply Forall_impl; [|exact Hps]. intros item [H1 H2].
        split; [right; exact H1 | exact H2].
      * eapply Forall_impl; [|exact Hfs]. intros item [H1 H2].
        split; [right; exact H1 | exact H2].
    + destruct (IH plan_table successful
                   (failed ++ [{| BulkMitigationPlanner.Failure.assessment := a;
                                  BulkMitigationPlanner.Failure.error := Py.str e |}])%list)
        as (ps & fs & Hloop & Hlen & Hps & Hfs).
      exists ps, ({| BulkMitigationPlanner.Failure.assessment := a;
                     BulkMitigationPlanner.Failure.error := Py.str e |} :: fs).
      rewrite Hloop. cbn [map BulkMitigationPlanner.Failure.assessment].
      rewrite <- !app_assoc. cbn [app].
      split; [reflexivity|].
      split; [apply Permutation_sym, Permutation_cons_app, Permutation_sym; exact Hlen|].
      split.
      * eapply Forall_impl; [|exact Hps]. intros item [H1 H2].
        split; [right; exact H1 | exact H2].
      * constructor; [split; [left; reflexivity | exists e; split; [exact Hg | reflexivity]]|].
        eapply Forall_impl; [|exact Hfs]. intros item [H1 H2].
        split; [right; exact H1 | exact H2].
Qed.

Lemma plans_total_bounds (ps : list BulkMitigationPlanner.Planned.t) :
  Forall (fun item =>
            (1 <= List.length (BulkMitigationPlanner.Planned.plans item) <= 3)%nat) ps ->
  (List.length ps
   <= list_sum (map (fun item => List.length (BulkMitigationPlanner.Planned.plans item)) ps)
   <= 3 * List.length ps)%nat
  /\ List.length (List.concat (map BulkMitigationPlanner.Planned.plans ps))
     = list_sum (map (fun item => List.length (BulkMitigationPlanner.Planned.plans item)) ps).
Proof.
  induction 1 as [|item ps Hitem _ IH];
    cbn [map list_sum fold_right List.length List.concat].
  - split; [lia | reflexivity].
  - fold (list_sum (map (fun item => List.length (BulkMitigationPlanner.Planned.plans item))
                        ps)).
    rewrite length_app. lia.
Qed.

End Planner.

(** X21. The bulk planner, for a threshold the score column can hold (a
    multiple of 0.001 of at most four digits, as the default 0.7 is).  It
    attempts exactly the stored assessments whose score is at least
    [min_risk_score], highest score first; each of them
    ends in exactly one of the two lists, in [successful] with the one to
    three plans [generate_plans] returns for it, or in [failed] with the
    message of the exception raised for it, so the two counts add up to the
    number attempted; the plans it saves are the plans of the successful
    entries, in order, and their number is [plans_created], between one and
    three times the number of successes. *)
Theorem plan_all_high_risk_outcome
        (self : BulkMitigationPlanner.t) (db : DB.t)
        (plan_table : list MitigationPlan.t) (min_risk_score : Q) :
  let attempted := BulkMitigationPlanner.high_risk_assessments db min_risk_score in
  let outcome :=
    BulkMitigationPlanner.plan_all_high_risk self db plan_table min_risk_score in
  let r := snd outcome in
  (exists thousandths : Z,
     (-9999 <= thousandths <= 9999)%Z
     /\ min_risk_score == inject_Z thousandths / 1000) ->
  Permutation attempted
    (filter (fun a => Qle_bool min_risk_score (RiskAssessment.risk_score a))
            (DB.risk_assessments db))
  /\ StronglySorted (fun x y => RiskAssessment.risk_score y <= RiskAssessment.risk_score x)
       attempted
  /\ BulkMitigationPlanner.total_attempted r = List.length attempted
  /\ BulkMitigationPlanner.success_count r
     = List.length (BulkMitigationPlanner.successful r)
  /\ BulkMitigationPlanner.failure_count r = List.length (BulkMitigationPlanner.failed r)
  /\ (BulkMitigationPlanner.success_count r + BulkMitigationPlanner.failure_count r
      = BulkMitigationPlanner.total_attempted r)%nat
  /\ Permutation
       (map BulkMitigationPlanner.Planned.assessment (BulkMitigationPlanner.successful r)
        ++ map BulkMitigationPlanner.Failure.assessment (BulkMitigationPlanner.failed r))%list
       attempted
  /\ (forall item, In item (BulkMitigationPlanner.successful r) ->
        min_risk_score
        <= RiskAssessment.risk_score (BulkMitigationPlanner.Planned.assessment item)
        /\ MitigationSimulator.generate_plans (BulkMitigationPlanner.simulator self) db
             (BulkMitigationPlanner.Planned.assessment item) 3
           = Py.Ok (BulkMitigationPlanner.Planned.plans item)
        /\ (1 <= List.length (BulkMitigationPlanner.Planned.plans item) <= 3)%nat)
  /\ (forall item, In item (BulkMitigationPlanner.failed r) ->
        min_risk_score
        <= RiskAssessment.risk_score (BulkMitigationPlanner.Failure.assessment item)
        /\ exists e,
             MitigationSimulator.generate_plans (BulkMitigationPlanner.simulator self) db
               (BulkMitigationPlanner.Failure.assessment item) 3 = Py.Raise e
             /\ BulkMitigationPlanner.Failure.error item = Py.str e)
  /\ fst outcome
     = (plan_table
        ++ List.concat (map BulkMitigationPlanner.Planned.plans
                       (BulkMitigationPlanner.successful r)))%list
  /\ List.length (fst outcome)
     = (List.length plan_table + BulkMitigationPlanner.plans_created r)%nat
  /\ (BulkMitigationPlanner.success_count r
      <= BulkMitigationPlanner.plans_created r
      <= 3 * BulkMitigationPlanner.success_count r)%nat.
Proof.
  intros attempted outcome r _.
  assert (Hperm : Permutation attempted
            (filter (fun a => Qle_bool min_risk_score (RiskAssessment.risk_score a))
                    (DB.risk_assessments db)))
    by apply sorted_reverse_perm.
  assert (Hmin : forall x, In x attempted -> min_risk_score <= RiskAssessment.risk_score x).
  { intros x Hx. apply (Permutation_in _ Hperm) in Hx.
    apply filter_In in Hx. destruct Hx as [_ Hx]. apply Qle_bool_iff. exact Hx. }
  destruct (planner_loop self db attempted plan_table [] [])
    as (ps & fs & Hloop & Hlen & Hps & Hfs).
  assert (Hout : outcome
                 = ((plan_table ++ List.concat (map BulkMitigationPlanner.Planned.plans ps))%list,
                    {| BulkMitigationPlanner.successful := ps;
                       BulkMitigationPlanner.failed := fs;
                       BulkMitigationPlanner.total_attempted := List.length attempted;
                       BulkMitigationPlanner.success_count := List.length ps;
                       BulkMitigationPlanner.failure_count := List.length fs |})).
  { unfold outcome, BulkMitigationPlanner.plan_all_high_risk. cbv zeta.
    fold attempted. rewrite Hloop. reflexivity. }
  assert (Hthree : Forall (fun item =>
            (1 <= List.length (BulkMitigationPlanner.Planned.plans item) <= 3)%nat) ps).
  { eapply Forall_impl; [|exact Hps]. intros item [_ Hg].
    eapply generate_three. exact Hg. }
  destruct (plans_total_bounds ps Hthree) as [Hsum Hconcat].
  subst r. rewrite Hout.
  cbn [fst snd BulkMitigationPlanner.successful BulkMitigationPlanner.failed
       BulkMitigationPlanner.total_attempted BulkMitigationPlanner.success_count
       BulkMitigationPlanner.failure_count].
  unfold BulkMitigationPlanner.plans_created.
  cbn [BulkMitigationPlanner.successful].
  split; [exact Hperm|].
  split; [apply (sorted_reverse_sorted RiskAssessment.risk_score)|].
  split; [reflexivity|]. split; [reflexivity|]. split; [reflexivity|].
  split.
  { rewrite <- (Permutation_length Hlen), length_app, !length_map. reflexivity. }
  split; [exact Hlen|].
  split.
  { intros item Hitem. rewrite Forall_forall in Hps, Hthree.
    destruct (Hps item Hitem) as [H1 H2].
    split; [apply Hmin; exact H1 | split; [exact H2 | apply Hthree; exact Hitem]]. }
  split.
  { intros item Hitem. rewrite Forall_forall in Hfs.
    destruct (Hfs item Hitem) as [H1 H2].
    split; [apply Hmin; exact H1 | exact H2]. }
  split; [reflexivity|].
  split; [rewrite length_app, Hconcat; reflexivity | exact Hsum].
Qed.

(** The table holds the assessment of T-07, scored 0.470; with the
    threshold 0.4 the planner attempts it and saves the three plans over
    the three links of T-07. *)
Lemma plan_all_high_risk_outcome_witness :
  let outcome :=
    BulkMitigationPlanner.plan_all_high_risk BulkMitigationPlanner.default
      Example.db_assessed [] 0.4 in
  0.4 == inject_Z 400 / 1000
  /\ BulkMitigationPlanner.high_risk_assessments Example.db_assessed 0.4
     = [Example.assessment07]
  /\ BulkMitigationPlanner.success_count (snd outcome) = 1%nat
  /\ BulkMitigationPlanner.failure_count (snd outcome) = 0%nat
  /\ List.length (fst outcome) = 3%nat
  /\ (BulkMitigationPlanner.success_count (snd outcome)
      <= BulkMitigationPlanner.plans_created (snd outcome)
      <= 3 * BulkMitigationPlanner.success_count (snd outcome))%nat.
Proof.
  intro outcome.
  assert (Hgrid : 0.4 == inject_Z 400 / 1000) by reflexivity.
  destruct (plan_all_high_risk_outcome BulkMitigationPlanner.default
              Example.db_assessed [] 0.4)
    as (_ & _ & _ & _ & _ & _ & _ & _ & _ & _ & _ & Hcreated).
  { exists 400%Z. split; [lia | exact Hgrid]. }
  fold outcome in Hcreated.
  split; [exact Hgrid|].
  split; [vm_compute; reflexivity|].
  split; [vm_compute; reflexivity|].
  split; [vm_compute; reflexivity|].
  split; [vm_compute; reflexivity | exact Hcreated].
Defined.

(* ================================================================= *)
(** ** The plan narrator: validation and retries *)

Section Validation.

Variable float_of_string : string -> option Q.

Lemma check_keys_missing (members : list (string * Json.t))
      (before after : list string) (key : string) :
  Forall (fun k => Json.lookup members k <> None) before ->
  Json.lookup members key = None ->
  ClaudeExplainer.check_keys members (before ++ key :: after)
  = Py.Raise (Py.ValueError ("Missing required key: " ++ key)).
Proof.
  intros Hbefore Hkey. induction Hbefore as [|k before Hk _ IH]; cbn.
  - rewrite Hkey. reflexivity.
  - destruct (Json.lookup members k); [exact IH | contradiction].
Qed.

(** X22. A missing key is reported before anything else is looked at: for
    a JSON object that lacks one of the six required keys,
    [_validate_schema] raises "Missing required key: " with the first such
    key in the order executive_summary, operator_steps, field_checklist,
    rollback_steps, assumptions, confidence, whatever the other values are;
    [generate_action_plan] passes it on as "LLM API error: ..." (unless the
    prompt could not be built, in which case it has raised before the call
    of the backend). *)
Theorem validate_schema_missing_key
        (members : list (string * Json.t)) (before after : list string) (key : string) :
  ClaudeExplainer.required_keys = (before ++ key :: after)%list ->
  Forall (fun k => Json.lookup members k <> None) before ->
  Json.lookup members key = None ->
  ClaudeExplainer._validate_schema float_of_string (Json.Obj members)
  = Py.Raise (Py.ValueError ("Missing required key: " ++ key))
  /\ forall (self : ClaudeExplainer.t) (call : nat) (plan_data : PlanData.t),
       ClaudeExplainer.enabled self = true ->
       ClaudeExplainer.client self call plan_data
       = ClaudeExplainer.Parsed (Json.Obj members) ->
       ClaudeExplainer.generate_action_plan float_of_string self call plan_data
       = (prompt <- ClaudeExplainer._build_prompt plan_data ;;
          Py.Raise (Py.Exception ("LLM API error: Missing required key: " ++ key))).
Proof.
  intros Hkeys Hbefore Hkey.
  assert (H : ClaudeExplainer._validate_schema float_of_string (Json.Obj members)
              = Py.Raise (Py.ValueError ("Missing required key: " ++ key))).
  { unfold ClaudeExplainer._validate_schema. rewrite Hkeys.
    rewrite (check_keys_missing members before after key Hbefore Hkey). reflexivity. }
  split; [exact H|].
  intros self call plan_data Hen Hclient.
  unfold ClaudeExplainer.generate_action_plan.
  rewrite Hen, Hclient, H. reflexivity.
Qed.

(** What a value that passes [_validate_schema] looks like. *)
Lemma validate_schema_ok (output : Json.t) (b : Bundle.t) :
  ClaudeExplainer._validate_schema float_of_string output = Py.Ok b ->
  exists members,
    output = Json.Obj members
    /\ Json.lookup members "executive_summary" = Some (Json.Str (Bundle.executive_summary b))
    /\ Json.lookup members "operator_steps" = Some (Json.List (Bundle.operator_steps b))
    /\ Json.lookup members "field_checklist" = Some (Json.List (Bundle.field_checklist b))
    /\ Json.lookup members "rollback_steps" = Some (Json.List (Bundle.rollback_steps b))
    /\ Json.lookup members "assumptions" = Some (Json.List (Bundle.assumptions b))
    /\ ClaudeExplainer.to_float float_of_string (Json.lookup members "confidence")
       = Some (Bundle.confidence b)
    /\ Bundle.operator_steps b <> []
    /\ Bundle.field_checklist b <> []
    /\ Bundle.rollback_steps b <> []
    /\ (50 <= String.length (Bundle.executive_summary b))%nat
    /\ 0 <= Bundle.confidence b <= 1.
Proof.
  intro H. destruct output as [| | | | |members]; try discriminate.
  exists members. split; [reflexivity|].
  unfold ClaudeExplainer._validate_schema in H.
  destruct (ClaudeExplainer.check_keys members ClaudeExplainer.required_keys);
    [|discriminate].
  unfold Py.bind, ClaudeExplainer.get_list, ClaudeExplainer.non_empty in H.
  destruct (Json.lookup members "executive_summary") as [[| | |summary| |]|];
    try discriminate.
  destruct (Json.lookup members "operator_steps") as [[| | | |steps|]|];
    try discriminate.
  destruct (Json.lookup members "field_checklist") as [[| | | |checklist|]|];
    try discriminate.
  destruct (Json.lookup members "rollback_steps") as [[| | | |rollback|]|];
    try discriminate.
  destruct (Json.lookup members "assumptions") as [[| | | |assumptions|]|];
    try discriminate.
  destruct (ClaudeExplainer.to_float float_of_string (Json.lookup members "confidence"))
    as [c|]; [|discriminate].
  destruct (Qle_bool 0.0 c && Qle_bool c 1.0) eqn:Hc; [|discriminate].
  destruct steps as [|s0 steps]; [discriminate|].
  destruct checklist as [|c0 checklist]; [discriminate|].
  destruct rollback as [|r0 rollback]; [discriminate|].
  destruct (String.length summary <? 50)%nat eqn:Hlen; [discriminate|].
  apply Ok_inj in H. subst b.
  cbn [Bundle.executive_summary Bundle.operator_steps Bundle.field_checklist
       Bundle.rollback_steps Bundle.assumptions Bundle.confidence].
  apply andb_true_iff in Hc. destruct Hc as [Hc0 Hc1].
  apply Qle_bool_iff in Hc0, Hc1. apply Nat.ltb_ge in Hlen.
  repeat (split; [reflexivity|]).
  repeat (split; [discriminate|]).
  split; [exact Hlen | split; lra].
Qed.

(** X23. What a bundle returned by [generate_action_plan] guarantees: the
    backend was enabled, the prompt could be built, and the reply was a
    JSON object that passed [_validate_schema], so the bundle has at least one operator step, one
    checklist item and one rollback step, a summary of at least 50
    characters and a confidence between 0 and 1; the list of assumptions is
    the only one that may be empty. *)
Theorem generated_bundle_meets_schema
        (self : ClaudeExplainer.t) (call : nat) (plan_data : PlanData.t) (b : Bundle.t) :
  ClaudeExplainer.generate_action_plan float_of_string self call plan_data = Py.Ok b ->
  ClaudeExplainer.enabled self = true
  /\ (exists prompt, ClaudeExplainer._build_prompt plan_data = Py.Ok prompt)
  /\ (exists members,
        ClaudeExplainer.client self call plan_data
        = ClaudeExplainer.Parsed (Json.Obj members)
        /\ ClaudeExplainer._validate_schema float_of_string (Json.Obj members) = Py.Ok b)
  /\ Bundle.operator_steps b <> []
  /\ Bundle.field_checklist b <> []
  /\ Bundle.rollback_steps b <> []
  /\ (50 <= String.length (Bundle.executive_summary b))%nat
  /\ 0 <= Bundle.confidence b <= 1
  /\ (let without_assumptions :=
        {| Bundle.executive_summary := Bundle.executive_summary b;
           Bundle.operator_steps := Bundle.operator_steps b;
           Bundle.field_checklist := Bundle.field_checklist b;
           Bundle.rollback_steps := Bundle.rollback_steps b;
           Bundle.assumptions := [];
           Bundle.confidence := Bundle.confidence b |} in
      ClaudeExplainer._validate_schema float_of_string
        (Bundle.to_json without_assumptions)
      = Py.Ok without_assumptions).
Proof.
  unfold ClaudeExplainer.generate_action_plan. intro H.
  destruct (ClaudeExplainer.enabled self); [|discriminate]. cbn [negb] in H.
  destruct (ClaudeExplainer._build_prompt plan_data) as [prompt|e]; [|discriminate].
  cbn [Py.bind] in H.
  destruct (ClaudeExplainer.client self call plan_data) as [e|msg|output];
    try discriminate.
  destruct (ClaudeExplainer._validate_schema float_of_string output) as [v|e] eqn:Hv;
    [|discriminate].
  apply Ok_inj in H. subst v.
  destruct (validate_schema_ok output b Hv)
    as (members & -> & _ & _ & _ & _ & _ & _ & H1 & H2 & H3 & H4 & H5).
  split; [reflexivity|].
  split; [exists prompt; reflexivity|].
  split; [exists members; split; [reflexivity | exact Hv]|].
  do 4 (split; [assumption|]). split; [exact H5|].
  cbv zeta. apply validate_schema_to_json; cbn; try assumption; apply H5.
Qed.

End Validation.

Lemma validate_schema_missing_key_witness :
  ClaudeExplainer._validate_schema Example.float_of_string
    (Json.Obj [("executive_summary"%string, Json.Num 1)])
  = Py.Raise (Py.ValueError "Missing required key: operator_steps").
Proof.
  apply (validate_schema_missing_key Example.float_of_string
           [("executive_summary"%string, Json.Num 1)]
           ["executive_summary"%string]
           ["field_checklist"; "rollback_steps"; "assumptions"; "confidence"]%string
           "operator_steps"%string).
  - reflexivity.
  - constructor; [cbn; discriminate | constructor].
  - reflexivity.
Defined.

Lemma generated_bundle_meets_schema_witness :
  ClaudeExplainer.generate_action_plan Example.float_of_string
    (PlanEnhancer.explainer Example.flaky) 1 PlanData.empty = Py.Ok Example.bundle
  /\ Bundle.operator_steps Example.bundle <> []
  /\ (50 <= String.length (Bundle.executive_summary Example.bundle))%nat.
Proof.
  assert (H : ClaudeExplainer.generate_action_plan Example.float_of_string
                (PlanEnhancer.explainer Example.flaky) 1 PlanData.empty
              = Py.Ok Example.bundle) by (vm_compute; reflexivity).
  destruct (generated_bundle_meets_schema Example.float_of_string
              (PlanEnhancer.explainer Example.flaky) 1 PlanData.empty Example.bundle H)
    as (_ & _ & _ & Hsteps & _ & _ & Hlen & _).
  split; [exact H | split; [exact Hsteps | exact Hlen]].
Defined.

Section Retries.

Variable float_of_string : string -> option Q.
Variable self : PlanEnhancer.t.
Variable plan : MitigationPlan.t.

Local Abbreviation generate :=
  (fun attempt =>
     ClaudeExplainer.generate_action_plan float_of_string (PlanEnhancer.explainer self)
       attempt (MitigationPlan.plan_json plan)).

(** The loop from [attempt] on, when the attempts before [i] fail and
    attempt [i] succeeds. *)
Lemma attempts_first_success (remaining attempt i : nat) (b : Bundle.t) :
  (attempt + remaining = PlanEnhancer.max_retries self + 1)%nat ->
  (attempt <= i <= PlanEnhancer.max_retries self)%nat ->
  (forall j, (attempt <= j < i)%nat -> exists e, generate j = Py.Raise e) ->
  generate i = Py.Ok b ->
  PlanEnhancer.attempts float_of_string self plan remaining attempt
  = Py.Ok (PlanEnhancer.update plan b).
Proof.
  revert attempt. induction remaining as [|r IH]; intros attempt Hsum Hi Hfail Hok.
  - lia.
  - cbn [PlanEnhancer.attempts].
    destruct (Nat.eq_dec attempt i) as [->|Hne].
    + cbv beta in Hok. rewrite Hok. reflexivity.
    + destruct (Hfail attempt) as [e He]; [lia|]. cbv beta in He. rewrite He.
      destruct (attempt =? PlanEnhancer.max_retries self)%nat eqn:E.
      * apply Nat.eqb_eq in E. lia.
      * apply IH; [lia | lia | | exact Hok].
        intros j Hj. apply Hfail. lia.
Qed.

End Retries.

(** X24. The retries of [enhance_plan] stop at the first attempt that
    succeeds: when the attempts before attempt [i <= max_retries] raise and
    attempt [i] returns a bundle, the plan gets the six narrative fields of
    that bundle, and later attempts play no part. *)
Theorem enhance_plan_first_success
        (float_of_string : string -> option Q)
        (self : PlanEnhancer.t) (plan : MitigationPlan.t) (i : nat) (b : Bundle.t) :
  let generate := fun attempt =>
    ClaudeExplainer.generate_action_plan float_of_string (PlanEnhancer.explainer self)
      attempt (MitigationPlan.plan_json plan) in
  (i <= PlanEnhancer.max_retries self)%nat ->
  (forall j, (j < i)%nat -> exists e, generate j = Py.Raise e) ->
  generate i = Py.Ok b ->
  exists enhanced,
    PlanEnhancer.enhance_plan float_of_string self plan = Py.Ok enhanced
    /\ enhanced = PlanEnhancer.update plan b
    /\ MitigationPlan.executive_summary enhanced = Bundle.executive_summary b
    /\ MitigationPlan.operator_steps enhanced = Bundle.operator_steps b
    /\ MitigationPlan.field_checklist enhanced = Bundle.field_checklist b
    /\ MitigationPlan.rollback_steps enhanced = Bundle.rollback_steps b
    /\ MitigationPlan.assumptions enhanced = Bundle.assumptions b
    /\ MitigationPlan.llm_confidence enhanced = Bundle.confidence b.
Proof.
  intros generate Hi Hfail Hok.
  exists (PlanEnhancer.update plan b).
  split.
  { unfold PlanEnhancer.enhance_plan.
    apply (attempts_first_success float_of_string self plan _ 0 i b);
      [lia | lia | | exact Hok].
    intros j Hj. apply Hfail. lia. }
  repeat split.
Qed.

Lemma enhance_plan_first_success_witness :
  exists enhanced,
    PlanEnhancer.enhance_plan Example.float_of_string Example.flaky Example.empty_plan
    = Py.Ok enhanced
    /\ enhanced = PlanEnhancer.update Example.empty_plan Example.bundle.
Proof.
  destruct (enhance_plan_first_success Example.float_of_string Example.flaky
              Example.empty_plan 1 Example.bundle)
    as (enhanced & Hres & Heq & _).
  - cbn. lia.
  - intros j Hj. assert (j = 0%nat) as -> by lia. eexists. reflexivity.
  - vm_compute. reflexivity.
  - exists enhanced. split; [exact Hres | exact Heq].
Defined.

(** X25. What [enhance_plan] leaves alone and what it guarantees.  In the
    plan it returns, the assessment, the plan data and the two simulated
    figures are those of the plan it was given; and, whether the narrative
    comes from the backend or from the template, the returned plan has at
    least one operator step, one checklist item and one rollback step, a
    summary of at least 50 characters and a confidence between 0 and 1.
    When it raises instead, every attempt has failed and the exception is
    the one the template raised, before any field was assigned. *)
Theorem enhance_plan_invariants
        (float_of_string : string -> option Q)
        (self : PlanEnhancer.t) (plan : MitigationPlan.t) :
  match PlanEnhancer.enhance_plan float_of_string self plan with
  | Py.Ok enhanced =>
      MitigationPlan.assessment enhanced = MitigationPlan.assessment plan
      /\ MitigationPlan.plan_json enhanced = MitigationPlan.plan_json plan
      /\ MitigationPlan.expected_risk_after enhanced
         = MitigationPlan.expected_risk_after plan
      /\ MitigationPlan.expected_load_reduction_kw enhanced
         = MitigationPlan.expected_load_reduction_kw plan
      /\ MitigationPlan.operator_steps enhanced <> []
      /\ MitigationPlan.field_checklist enhanced <> []
      /\ MitigationPlan.rollback_steps enhanced <> []
      /\ (50 <= String.length (MitigationPlan.executive_summary enhanced))%nat
      /\ 0 <= MitigationPlan.llm_confidence enhanced <= 1
  | Py.Raise e =>
      (forall i, (i <= PlanEnhancer.max_retries self)%nat ->
                 exists e',
                   ClaudeExplainer.generate_action_plan float_of_string
                     (PlanEnhancer.explainer self) i (MitigationPlan.plan_json plan)
                   = Py.Raise e')
      /\ ClaudeExplainer.generate_template_fallback (MitigationPlan.plan_json plan)
         = Py.Raise e
  end.
Proof.
  unfold PlanEnhancer.enhance_plan.
  destruct (attempts_terminal float_of_string self plan
              (PlanEnhancer.max_retries self + 1) 0)
    as [(i & b & _ & Hi & Hok) | [Hall Hfb]]; [lia | lia | |].
  - rewrite Hok.
    cbn [PlanEnhancer.update MitigationPlan.assessment MitigationPlan.plan_json
         MitigationPlan.expected_risk_after MitigationPlan.expected_load_reduction_kw
         MitigationPlan.operator_steps MitigationPlan.field_checklist
         MitigationPlan.rollback_steps MitigationPlan.executive_summary
         MitigationPlan.llm_confidence].
    do 4 (split; [reflexivity|]).
    unfold ClaudeExplainer.generate_action_plan in Hi.
    destruct (negb (ClaudeExplainer.enabled (PlanEnhancer.explainer self)));
      [discriminate|].
    destruct (ClaudeExplainer._build_prompt (MitigationPlan.plan_json plan))
      as [prompt|e]; [|discriminate].
    cbn [Py.bind] in Hi.
    destruct (ClaudeExplainer.client (PlanEnhancer.explainer self) i
                (MitigationPlan.plan_json plan)) as [e|msg|output]; try discriminate.
    destruct (ClaudeExplainer._validate_schema float_of_string output) as [v|e] eqn:Hv;
      [|discriminate].
    apply Ok_inj in Hi. subst v.
    destruct (validate_schema_ok float_of_string output b Hv)
      as (_ & _ & _ & _ & _ & _ & _ & _ & H1 & H2 & H3 & H4 & H5).
    repeat split; try assumption; apply H5.
  - rewrite Hfb.
    destruct (ClaudeExplainer.generate_template_fallback (MitigationPlan.plan_json plan))
      as [b|e] eqn:Ht; cbn [Py.bind].
    + cbn [PlanEnhancer.update MitigationPlan.assessment MitigationPlan.plan_json
           MitigationPlan.expected_risk_after MitigationPlan.expected_load_reduction_kw
           MitigationPlan.operator_steps MitigationPlan.field_checklist
           MitigationPlan.rollback_steps MitigationPlan.executive_summary
           MitigationPlan.llm_confidence].
      do 4 (split; [reflexivity|]).
      destruct (fallback_schema_valid float_of_string _ _ Ht)
        as (_ & H1 & H2 & H3 & H4 & H5).
      do 4 (split; [assumption|]). rewrite H5. split; lra.
    + split; [|reflexivity]. intros i Hi. apply Hall. lia.
Qed.

Lemma enhance_plan_invariants_witness :
  exists enhanced,
    PlanEnhancer.enhance_plan Example.float_of_string Example.offline Example.empty_plan
    = Py.Ok enhanced
    /\ MitigationPlan.plan_json enhanced = PlanData.empty
    /\ MitigationPlan.operator_steps enhanced <> [].
Proof.
  pose proof (enhance_plan_invariants Example.float_of_string Example.offline
                Example.empty_plan) as H.
  destruct (PlanEnhancer.enhance_plan Example.float_of_string Example.offline
              Example.empty_plan) as [enhanced|e] eqn:Hres.
  2: { exfalso. vm_compute in Hres. discriminate. }
  destruct H as (_ & Hjson & _ & _ & Hsteps & _).
  exists enhanced. split; [reflexivity | split; [exact Hjson | exact Hsteps]].
Defined.

(* ================================================================= *)
(** ** The bulk stages: what they write *)

Section BulkWrites.

Context {V : Type}.
Variable body : DB.t -> Transformer.t -> Py.Result (DB.t * V).

(** How the body of the [try] changes the state when it returns [v]. *)
Variable write : DB.t -> V -> DB.t.

Hypothesis body_writes :
  forall db tr db' v, body db tr = Py.Ok (db', v) -> db' = write db v.

Lemma loop_writes (transformers : list Transformer.t) (db : DB.t)
      (successful : list V) (failed : list Bulk.failure) :
  exists vs,
    fst (snd (Bulk.loop body db transformers successful failed)) = (successful ++ vs)%list
    /\ fst (Bulk.loop body db transformers successful failed) = fold_left write vs db.
Proof.
  revert db successful failed.
  induction transformers as [|tr rest IH]; intros db successful failed; cbn [Bulk.loop].
  - exists []. cbn. rewrite app_nil_r. split; reflexivity.
  - destruct (body db tr) as [[db' v]|e] eqn:Hb.
    + destruct (IH db' (successful ++ [v])%list failed) as (vs & H1 & H2).
      exists (v :: vs). rewrite H1, H2, <- app_assoc.
      rewrite (body_writes _ _ _ _ Hb). split; reflexivity.
    + apply IH.
Qed.

Lemma run_writes (transformers : list Transformer.t) (db : DB.t) :
  fst (Bulk.run body db transformers)
  = fold_left write (Bulk.successful (snd (Bulk.run body db transformers))) db
  /\ Bulk.success_count (snd (Bulk.run body db transformers))
     = List.length (Bulk.successful (snd (Bulk.run body db transformers))).
Proof.
  unfold Bulk.run.
  destruct (loop_writes transformers db [] []) as (vs & H1 & H2).
  destruct (Bulk.loop body db transformers [] []) as [db' [s f]].
  cbn in H1, H2. subst s db'. cbn. split; reflexivity.
Qed.

End BulkWrites.

Lemma fold_save_assessment (vs : list RiskAssessment.t) (db : DB.t) :
  let db' := fold_left DB.save_assessment vs db in
  DB.risk_assessments db' = (DB.risk_assessments db ++ vs)%list
  /\ DB.transformers db' = DB.transformers db
  /\ DB.topology_links db' = DB.topology_links db
  /\ DB.transformer_loads db' = DB.transformer_loads db
  /\ DB.load_forecasts db' = DB.load_forecasts db.
Proof.
  revert db. induction vs as [|v vs IH]; intro db; cbn [fold_left].
  - cbn. rewrite app_nil_r. repeat split.
  - specialize (IH (DB.save_assessment db v)). cbv zeta in IH.
    destruct IH as (H1 & H2 & H3 & H4 & H5).
    cbv zeta. rewrite H1, H2, H3, H4, H5. cbn. rewrite <- app_assoc. repeat split.
Qed.

Lemma fold_save_forecast (vs : list LoadForecast.t) (db : DB.t) :
  let db' := fold_left DB.save_forecast vs db in
  DB.load_forecasts db' = (DB.load_forecasts db ++ vs)%list
  /\ DB.transformers db' = DB.transformers db
  /\ DB.topology_links db' = DB.topology_links db
  /\ DB.transformer_loads db' = DB.transformer_loads db
  /\ DB.risk_assessments db' = DB.risk_assessments db.
Proof.
  revert db. induction vs as [|v vs IH]; intro db; cbn [fold_left].
  - cbn. rewrite app_nil_r. repeat split.
  - specialize (IH (DB.save_forecast db v)). cbv zeta in IH.
    destruct IH as (H1 & H2 & H3 & H4 & H5).
    cbv zeta. rewrite H1, H2, H3, H4, H5. cbn. rewrite <- app_assoc. repeat split.
Qed.

Lemma fold_keep {V} (vs : list V) (db : DB.t) : fold_left (fun d _ => d) vs db = db.
Proof. induction vs as [|v vs IH]; cbn; [reflexivity | exact IH]. Qed.

(** X26. What the bulk scorer writes: when it returns, the table of
    assessments holds the rows it held before followed by the assessments
    of the [successful] list, in that order, one new row for each success
    and none for a failure; the units, links, readings and forecasts are
    untouched. *)
Theorem score_all_transformers_writes
        (db : DB.t) (transformers : option (list Transformer.t)) :
  let outcome := BulkRiskScorer.score_all_transformers db transformers in
  let db' := fst outcome in
  let r := snd outcome in
  DB.risk_assessments db' = (DB.risk_assessments db ++ Bulk.successful r)%list
  /\ List.length (DB.risk_assessments db')
     = (List.length (DB.risk_assessments db) + Bulk.success_count r)%nat
  /\ DB.transformers db' = DB.transformers db
  /\ DB.topology_links db' = DB.topology_links db
  /\ DB.transformer_loads db' = DB.transformer_loads db
  /\ DB.load_forecasts db' = DB.load_forecasts db.
Proof.
  intros outcome db' r. subst db' r outcome.
  unfold BulkRiskScorer.score_all_transformers. cbv zeta.
  destruct (run_writes BulkRiskScorer.body DB.save_assessment
              (fun d tr d' v => score_body_saves d d' tr v)
              (Py.get transformers (DB.active_transformers db)) db) as [Hdb Hcount].
  rewrite Hdb, Hcount.
  destruct (fold_save_assessment
              (Bulk.successful
                 (snd (Bulk.run BulkRiskScorer.body db
                         (Py.get transformers (DB.active_transformers db))))) db)
    as (H1 & H2 & H3 & H4 & H5).
  cbv zeta in H1, H2, H3, H4, H5.
  rewrite H1, H2, H3, H4, H5, length_app. repeat split.
Qed.

(** X27. What the bulk forecaster writes: called with [save] true, it
    leaves the table of forecasts as it was followed by the forecasts of
    the [successful] list, in that order; called with [save] false, it
    leaves the whole state as it was.  In both cases the readings it
    forecasts from are untouched. *)
Theorem forecast_all_transformers_writes
        (np_sqrt : Q -> Q) (self : BulkForecaster.t) (db : DB.t)
        (transformers : option (list Transformer.t)) :
  (let outcome :=
     BulkForecaster.forecast_all_transformers np_sqrt self db transformers true in
   DB.load_forecasts (fst outcome)
   = (DB.load_forecasts db ++ Bulk.successful (snd outcome))%list
   /\ DB.transformer_loads (fst outcome) = DB.transformer_loads db
   /\ DB.risk_assessments (fst outcome) = DB.risk_assessments db
   /\ DB.transformers (fst outcome) = DB.transformers db
   /\ DB.topology_links (fst outcome) = DB.topology_links db)
  /\ fst (BulkForecaster.forecast_all_transformers np_sqrt self db transformers false)
     = db.
Proof.
  split.
  - intro outcome. subst outcome.
    unfold BulkForecaster.forecast_all_transformers. cbv zeta.
    assert (Hbody : forall d tr d' v,
              BulkForecaster.body np_sqrt self true d tr = Py.Ok (d', v) ->
              d' = DB.save_forecast d v).
    { intros d tr d' v. unfold BulkForecaster.body.
      destruct (LoadForecaster.forecast np_sqrt (BulkForecaster.forecaster self) d tr
                  (BulkForecaster.hours_ahead self)); [|discriminate].
      cbn. intro H. injection H as <- <-. reflexivity. }
    destruct (run_writes (BulkForecaster.body np_sqrt self true) DB.save_forecast Hbody
                (Py.get transformers (DB.active_transformers db)) db) as [Hdb _].
    rewrite Hdb.
    destruct (fold_save_forecast
                (Bulk.successful
                   (snd (Bulk.run (BulkForecaster.body np_sqrt self true) db
                           (Py.get transformers (DB.active_transformers db))))) db)
      as (H1 & H2 & H3 & H4 & H5).
    cbv zeta in H1, H2, H3, H4, H5.
    rewrite H1, H2, H3, H4, H5. repeat split.
  - unfold BulkForecaster.forecast_all_transformers. cbv zeta.
    assert (Hbody : forall d tr d' (v : LoadForecast.t),
              BulkForecaster.body np_sqrt self false d tr = Py.Ok (d', v) ->
              d' = (fun d0 _ => d0) d v).
    { intros d tr d' v. unfold BulkForecaster.body.
      destruct (LoadForecaster.forecast np_sqrt (BulkForecaster.forecaster self) d tr
                  (BulkForecaster.hours_ahead self)); [|discriminate].
      cbn. intro H. injection H as <- <-. reflexivity. }
    destruct (run_writes (BulkForecaster.body np_sqrt self false) (fun d0 _ => d0) Hbody
                (Py.get transformers (DB.active_transformers db)) db) as [Hdb _].
    rewrite Hdb. apply fold_keep.
Qed.

(* ================================================================= *)
(** ** Across the stages *)

(** In a state that differs from [db] only in the assessments saved so
    far, the scorer's [try] block does what [BulkRiskScorer.outcome db]
    says. *)
Lemma scorer_body_outcome (db d : DB.t) (tr : Transformer.t) :
  DB.same_inputs db d ->
  match BulkRiskScorer.body d tr with
  | Py.Ok (d', v) => DB.same_inputs db d' /\ BulkRiskScorer.outcome db tr = Py.Ok v
  | Py.Raise e => BulkRiskScorer.outcome db tr = Py.Raise e
  end.
Proof.
  intro Hinv.
  pose proof (score_reads_inputs db d tr Hinv) as Hout.
  unfold BulkRiskScorer.outcome in Hout at 1.
  destruct (BulkRiskScorer.body d tr) as [[d' v]|e] eqn:Hb.
  - split; [|symmetry; exact Hout].
    rewrite (score_body_saves _ _ _ _ Hb).
    destruct Hinv as (H1 & H2 & H3 & H4). repeat split; assumption.
  - symmetry. exact Hout.
Qed.

(** Every assessment of the [successful] list of the bulk scorer was
    returned by [score_transformer] for one of the transformers, from the
    state the stage started in. *)
Lemma scored_successful (db : DB.t) (transformers : option (list Transformer.t))
      (a : RiskAssessment.t) :
  In a (Bulk.successful (snd (BulkRiskScorer.score_all_transformers db transformers))) ->
  exists tr fc db',
    In tr (Py.get transformers (DB.active_transformers db))
    /\ RiskScorer.score_transformer db tr fc = Py.Ok (db', a).
Proof.
  unfold BulkRiskScorer.score_all_transformers. cbv zeta.
  set (trs := Py.get transformers (DB.active_transformers db)).
  assert (Hinv : DB.same_inputs db db) by (repeat split).
  destruct (run_isolated BulkRiskScorer.body (BulkRiskScorer.outcome db)
              (DB.same_inputs db) (scorer_body_outcome db) db Hinv) as [Hall _].
  destruct (Hall trs) as (Hs & _). rewrite Hs.
  unfold Bulk.successes. intro Hin. apply in_flat_map in Hin.
  destruct Hin as (tr & Htr & Hv).
  destruct (BulkRiskScorer.outcome db tr) as [v|e] eqn:Ho; [|contradiction].
  destruct Hv as [<- | []].
  unfold BulkRiskScorer.outcome, BulkRiskScorer.body in Ho.
  destruct (DB.latest_forecast db tr) as [fc|]; [|discriminate].
  destruct (RiskScorer.score_transformer db tr fc) as [[db' v']|e] eqn:Hsc;
    [|discriminate].
  apply Ok_inj in Ho. subst v'.
  exists tr, fc, db'. split; [exact Htr | exact Hsc].
Qed.

Lemma scored_is_high_risk (db db' : DB.t) (tr : Transformer.t) (fc : LoadForecast.t)
      (a : RiskAssessment.t) :
  RiskScorer.score_transformer db tr fc = Py.Ok (db', a) ->
  RiskAssessment.is_high_risk a = Qle_bool 0.7 (RiskAssessment.risk_score a).
Proof.
  intro H.
  destruct (score_transformer_ok _ _ _ _ _ H) as (_ & _ & _ & _ & _ & _ & _ & _ & Hlevel).
  unfold RiskAssessment.is_high_risk.
  destruct Hlevel as [[-> Hs] | [[-> Hs] | [-> Hs]]]; cbn; symmetry.
  - apply Qle_bool_false. lra.
  - apply Qle_bool_false. lra.
  - apply Qle_bool_iff. exact Hs.
Qed.

(** X28. The two ways of picking the risky units agree on what the scorer
    saves.  For every assessment of the bulk scorer, [is_high_risk] (the
    level is HIGH) holds exactly when the score is at least 0.7; so the
    [high_risk_count] of the [run] endpoint counts the assessments scored
    0.7 or more, and, on a table the stage started empty, the bulk planner
    with its default threshold attempts exactly the assessments that are
    [is_high_risk]. *)
Theorem high_risk_selections_agree
        (db : DB.t) (transformers : option (list Transformer.t)) :
  let outcome := BulkRiskScorer.score_all_transformers db transformers in
  let r := snd outcome in
  (forall a, In a (Bulk.successful r) ->
     RiskAssessment.is_high_risk a = Qle_bool 0.7 (RiskAssessment.risk_score a))
  /\ RiskAssessmentViewSet.high_risk_count (Bulk.successful r)
     = List.length (filter (fun a => Qle_bool 0.7 (RiskAssessment.risk_score a))
                           (Bulk.successful r))
  /\ (DB.risk_assessments db = [] ->
      Permutation
        (BulkMitigationPlanner.high_risk_assessments (fst outcome) 0.7)
        (filter RiskAssessment.is_high_risk (DB.risk_assessments (fst outcome)))).
Proof.
  intros outcome r.
  assert (Hall : forall a, In a (Bulk.successful r) ->
            RiskAssessment.is_high_risk a = Qle_bool 0.7 (RiskAssessment.risk_score a)).
  { intros a Ha. destruct (scored_successful db transformers a Ha)
      as (tr & fc & db' & _ & Hsc).
    eapply scored_is_high_risk. exact Hsc. }
  assert (Hfilter : filter RiskAssessment.is_high_risk (Bulk.successful r)
                    = filter (fun a => Qle_bool 0.7 (RiskAssessment.risk_score a))
                             (Bulk.successful r)).
  { apply filter_ext_in. exact Hall. }
  split; [exact Hall|]. split.
  - unfold RiskAssessmentViewSet.high_risk_count. rewrite Hfilter. reflexivity.
  - intro Hempty.
    assert (Htable : DB.risk_assessments (fst outcome) = Bulk.successful r).
    { unfold r, outcome, BulkRiskScorer.score_all_transformers. cbv zeta.
      destruct (run_writes BulkRiskScorer.body DB.save_assessment
                  (fun d tr d' v => score_body_saves d d' tr v)
                  (Py.get transformers (DB.active_transformers db)) db) as [Hdb _].
      rewrite Hdb.
      destruct (fold_save_assessment
                  (Bulk.successful
                     (snd (Bulk.run BulkRiskScorer.body db
                             (Py.get transformers (DB.active_transformers db))))) db)
        as (H1 & _).
      cbv zeta in H1. rewrite H1, Hempty. reflexivity. }
    unfold BulkMitigationPlanner.high_risk_assessments.
    rewrite Htable, Hfilter. apply sorted_reverse_perm.
Qed.

(** T-30 is scored 0.74 (HIGH) and T-07 below 0.7; T-09 has no forecast.
    Of the two assessments saved, both selections pick the one of T-30. *)
Lemma high_risk_selections_agree_witness :
  let outcome := BulkRiskScorer.score_all_transformers Example.db_hot None in
  List.length (Bulk.successful (snd outcome)) = 2%nat
  /\ RiskAssessmentViewSet.high_risk_count (Bulk.successful (snd outcome)) = 1%nat
  /\ map RiskAssessment.transformer
         (BulkMitigationPlanner.high_risk_assessments (fst outcome) 0.7)
     = [Example.T30]
  /\ Permutation
       (BulkMitigationPlanner.high_risk_assessments (fst outcome) 0.7)
       (filter RiskAssessment.is_high_risk (DB.risk_assessments (fst outcome))).
Proof.
  intro outcome.
  destruct (high_risk_selections_agree Example.db_hot None) as (_ & Hcount & Hperm).
  fold outcome in Hcount, Hperm.
  split; [vm_compute; reflexivity|].
  split; [rewrite Hcount; vm_compute; reflexivity|].
  split; [vm_compute; reflexivity|].
  apply Hperm. reflexivity.
Defined.

(** X29. Of two plans of one call, the one that moves at least as much load
    never has the higher simulated risk: the simulated score depends on the
    plan only through the amount moved and does not look at the unit that
    takes it, so [risk_after] does not grow, and the ranking key
    [risk_reduction] does not shrink, with the transfer. *)
Theorem larger_transfer_ranks_no_lower
        (self : MitigationSimulator.t) (db : DB.t) (a : RiskAssessment.t)
        (max_plans : nat) (plans : list MitigationPlan.t) (p q : MitigationPlan.t) :
  MitigationSimulator.generate_plans self db a max_plans = Py.Ok plans ->
  In p plans ->
  In q plans ->
  0 < Transformer.rated_kw (RiskAssessment.transformer a) ->
  MitigationPlan.expected_load_reduction_kw p
  <= MitigationPlan.expected_load_reduction_kw q ->
  MitigationPlan.expected_risk_after q <= MitigationPlan.expected_risk_after p
  /\ MitigationSimulator.sort_key p <= MitigationSimulator.sort_key q.
Proof.
  intros Hres Hp Hq Hpos Hle.
  destruct (generate_plans_In self db a max_plans plans p Hres Hp) as (ip & _ & _ & ->).
  destruct (generate_plans_In self db a max_plans plans q Hres Hq) as (iq & _ & _ & ->).
  assert (Hafter : MitigationPlan.expected_risk_after
                     (MitigationSimulator.plan_for self db a iq)
                   <= MitigationPlan.expected_risk_after
                        (MitigationSimulator.plan_for self db a ip)).
  { rewrite !plan_for_risk_after. cbv zeta. apply round_mono.
    set (tp := MitigationPlan.expected_load_reduction_kw
                 (MitigationSimulator.plan_for self db a ip)) in *.
    set (tq := MitigationPlan.expected_load_reduction_kw
                 (MitigationSimulator.plan_for self db a iq)) in *.
    assert (Hpct : MitigationSimulator.new_peak_pct (RiskAssessment.transformer a)
                     (RiskAssessment.forecast a) tq
                   <= MitigationSimulator.new_peak_pct (RiskAssessment.transformer a)
                        (RiskAssessment.forecast a) tp).
    { unfold MitigationSimulator.new_peak_pct.
      apply Qmult_le_compat_r; [|lra].
      apply Qmult_le_compat_r; [lra|].
      apply Qlt_le_weak. apply Qinv_lt_0_compat. exact Hpos. }
    pose proof (overload_score_mono _ _ Hpct) as Hmono.
    unfold RiskScorer.weighted, RiskScorer.OVERLOAD_WEIGHT, RiskScorer.THERMAL_WEIGHT,
      RiskScorer.CASCADING_WEIGHT. lra. }
  split; [exact Hafter|].
  unfold MitigationSimulator.sort_key.
  change (Py.round (RiskAssessment.risk_score a
                    - MitigationPlan.expected_risk_after
                        (MitigationSimulator.plan_for self db a ip)) 3
          <= Py.round (RiskAssessment.risk_score a
                       - MitigationPlan.expected_risk_after
                           (MitigationSimulator.plan_for self db a iq)) 3).
  apply round_mono. lra.
Qed.

Lemma larger_transfer_ranks_no_lower_witness :
  exists p q,
    MitigationSimulator.generate_plans MitigationSimulator.default Example.db_two
      Example.assessment07 3 = Py.Ok [q; p]
    /\ MitigationPlan.expected_load_reduction_kw p == 50.005
    /\ MitigationPlan.expected_load_reduction_kw q == 50.0081
    /\ MitigationSimulator.sort_key p <= MitigationSimulator.sort_key q.
Proof.
  set (p := MitigationSimulator.plan_for MitigationSimulator.default Example.db_two
              Example.assessment07 Example.neighbor11).
  set (q := MitigationSimulator.plan_for MitigationSimulator.default Example.db_two
              Example.assessment07 Example.neighbor09).
  assert (Hres : MitigationSimulator.generate_plans MitigationSimulator.default
                   Example.db_two Example.assessment07 3 = Py.Ok [q; p])
    by (vm_compute; reflexivity).
  assert (Hpos : 0 < Transformer.rated_kw Example.T07) by reflexivity.
  assert (Hle : MitigationPlan.expected_load_reduction_kw p
                <= MitigationPlan.expected_load_reduction_kw q)
    by (vm_compute; intro; discriminate).
  exists p, q. split; [exact Hres|].
  split; [vm_compute; reflexivity|]. split; [vm_compute; reflexivity|].
  exact (proj2 (larger_transfer_ranks_no_lower _ _ _ _ _ p q Hres
                  (or_intror (or_introl eq_refl)) (or_introl eq_refl) Hpos Hle)).
Defined.

(** X30. An overload alone never makes a unit HIGH.  An assessment of
    [score_transformer] is HIGH only if the recorded peak is above 97.4% of
    the rating; and for a unit without a temperature reading whose
    cascading component is 0, the score is at most 0.64 however large the
    predicted overload is, so the level is not HIGH, although such an
    assessment requires action as soon as the peak is above 100%. *)
Theorem high_level_needs_more_than_overload
        (db db' : DB.t) (tr : Transformer.t) (fc : LoadForecast.t)
        (a : RiskAssessment.t) :
  RiskScorer.score_transformer db tr fc = Py.Ok (db', a) ->
  (RiskAssessment.risk_level a = Some "HIGH"%string ->
   97.4 < LoadForecast.peak_predicted_pct fc)
  /\ (RiskScorer.latest_temp db tr = None ->
      RiskScorer._calculate_cascading_score db tr == 0 ->
      RiskAssessment.risk_score a <= 0.64
      /\ RiskAssessment.is_high_risk a = false
      /\ (100 < LoadForecast.peak_predicted_pct fc ->
          RiskAssessment.requires_action a = true)).
Proof.
  intro H.
  destruct (score_transformer_ok _ _ _ _ _ H)
    as (_ & _ & _ & _ & Hs & Hpct & _ & _ & Hlevel).
  pose proof (scored_is_high_risk _ _ _ _ _ H) as Hhigh.
  pose proof (thermal_score_range db fc tr) as [Ht0 Ht1].
  pose proof (cascading_score_range db tr) as [Hc0 Hc1].
  pose proof (overload_score_range (LoadForecast.peak_predicted_pct fc)) as [Ho0 Ho1].
  destruct (round3_near (RiskScorer.total_score db tr fc)) as [Hr1 Hr2].
  unfold RiskScorer.total_score, RiskScorer.weighted, RiskScorer.OVERLOAD_WEIGHT,
    RiskScorer.THERMAL_WEIGHT, RiskScorer.CASCADING_WEIGHT in *.
  split.
  - intro Hl.
    assert (Hscore : 0.7 <= RiskAssessment.risk_score a).
    { destruct Hlevel as [[E _] | [[E _] | [_ Hx]]];
        [rewrite E in Hl; discriminate | rewrite E in Hl; discriminate | exact Hx]. }
    rewrite Hs in Hscore.
    set (pct := LoadForecast.peak_predicted_pct fc) in *.
    apply Qnot_le_lt. intro Hlow.
    assert (Ho : RiskScorer._calculate_overload_score pct <= 0.596).
    { assert (E : RiskScorer._calculate_overload_score 97.4 == 0.596) by reflexivity.
      rewrite <- E. apply overload_score_mono. exact Hlow. }
    lra.
  - intros Htemp Hcasc.
    pose proof (thermal_score_no_reading db fc tr Htemp) as Hth.
    assert (Hscore : RiskAssessment.risk_score a <= 0.64).
    { rewrite Hs.
      assert (E : Py.round 0.64 3 == 0.64) by reflexivity.
      rewrite <- E. apply round_mono. rewrite Hth, Hcasc. lra. }
    split; [exact Hscore|]. split.
    + rewrite Hhigh. apply Qle_bool_false. lra.
    + intro Hover. unfold RiskAssessment.requires_action.
      apply orb_true_iff. right. rewrite Hpct. apply Qlt_bool_true.
      assert (E : 100.0 == 100) by reflexivity. lra.
Qed.

Lemma high_level_needs_more_than_overload_witness :
  RiskAssessment.risk_score Example.assessment07 <= 0.64
  /\ RiskAssessment.is_high_risk Example.assessment07 = false
  /\ (100 < LoadForecast.peak_predicted_pct Example.forecast07 ->
      RiskAssessment.requires_action Example.assessment07 = true).
Proof.
  assert (H : RiskScorer.score_transformer Example.db Example.T07 Example.forecast07
              = Py.Ok (DB.save_assessment Example.db Example.assessment07,
                       Example.assessment07)) by reflexivity.
  apply (proj2 (high_level_needs_more_than_overload _ _ _ _ _ H)).
  - reflexivity.
  - reflexivity.
Defined.
